(** * Risk/reward engine of the stock market analyzer (analysis.py)

    A shallow embedding of [analyse_risk], [get_rating],
    [estimate_success_probability] and [calculate_risk_reward], with the
    pandas/NumPy series primitives they call, followed by the properties
    of the engine.

    Numbers.  A Python [float] and a NumPy [float64] are modelled by [num]:
    an exact rational, or one of the IEEE special values +inf, -inf, nan.
    Special values follow IEEE 754 (nan is unordered and absorbing, x/0 is
    an infinity or nan under NumPy, and raises [ZeroDivisionError] between
    two Python floats).  Rounding, overflow and the sign of zero are outside
    the model: finite arithmetic is exact, and [sqrt] rounds down to 64
    fractional bits.

    Input.  The time series is the list of its (date, bar) entries; dates
    are ISO strings, so that their order as strings is their order as
    dates, and every bar carries the close and the volume column.  A field
    is the number [float()] reads from it, or text that [float()] rejects,
    kept as the error message shows it.

    Effects.  Python exceptions are the [Raise] case of [res]; the process
    global generator behind [np.random.choice] is an explicit [rng] state
    threaded through the simulator; matplotlib and the standard output are
    parameters of the development ([savefig], [print]), each of which
    returns or raises. *)

From Stdlib Require Import ZArith QArith Qabs Lqa Lia List String Bool Permutation Sorted.
From Stdlib Require Import Ascii DecimalString.
Import ListNotations.
Open Scope Q_scope.

(** ** Numbers *)

Module Num.

Inductive num : Type :=
| Fin (q : Q)
| PInf
| NInf
| NaN.

Definition zero : num := Fin 0.
Definition one : num := Fin 1.
Definition of_Z (z : Z) : num := Fin (inject_Z z).

Definition is_nan (x : num) : bool :=
  match x with NaN => true | _ => false end.

Definition is_zero (x : num) : bool :=
  match x with Fin q => Qeq_bool q 0 | _ => false end.

Definition is_finite (x : num) : bool :=
  match x with Fin _ => true | _ => false end.

(** Sign of a number other than nan: [Lt] negative, [Eq] zero, [Gt] positive. *)
Definition sgn (x : num) : comparison :=
  match x with
  | Fin q => q ?= 0
  | PInf => Gt
  | NInf => Lt
  | NaN => Eq
  end.

Definition inf_of (c : comparison) : num :=
  match c with Gt => PInf | Lt => NInf | Eq => NaN end.

Definition neg (x : num) : num :=
  match x with
  | Fin q => Fin (- q)
  | PInf => NInf
  | NInf => PInf
  | NaN => NaN
  end.

Definition abs (x : num) : num :=
  match x with
  | Fin q => Fin (Qabs q)
  | PInf | NInf => PInf
  | NaN => NaN
  end.

Definition add (x y : num) : num :=
  match x, y with
  | NaN, _ | _, NaN => NaN
  | Fin a, Fin b => Fin (a + b)
  | PInf, NInf | NInf, PInf => NaN
  | PInf, _ | _, PInf => PInf
  | NInf, _ | _, NInf => NInf
  end.

Definition sub (x y : num) : num := add x (neg y).

Definition mul (x y : num) : num :=
  match x, y with
  | NaN, _ | _, NaN => NaN
  | Fin a, Fin b => Fin (a * b)
  | _, _ => inf_of (match sgn x, sgn y with
                    | Eq, _ | _, Eq => Eq
                    | Lt, Lt | Gt, Gt => Gt
                    | _, _ => Lt
                    end)
  end.

(** IEEE division, as NumPy performs it: a zero divisor gives an infinity
    (nan for 0/0) and no exception. *)
Definition div (x y : num) : num :=
  match x, y with
  | NaN, _ | _, NaN => NaN
  | Fin a, Fin b => if Qeq_bool b 0 then inf_of (a ?= 0) else Fin (a / b)
  | Fin _, _ => Fin 0
  | _, Fin b => match b ?= 0 with
                | Lt => neg x
                | _ => x
                end
  | _, _ => NaN
  end.

Definition ltb (x y : num) : bool :=
  match x, y with
  | NaN, _ | _, NaN => false
  | Fin a, Fin b => match a ?= b with Lt => true | _ => false end
  | NInf, NInf | PInf, _ | _, NInf => false
  | _, _ => true
  end.

Definition leb (x y : num) : bool :=
  match x, y with
  | NaN, _ | _, NaN => false
  | Fin a, Fin b => match a ?= b with Gt => false | _ => true end
  | NInf, _ | _, PInf => true
  | _, _ => false
  end.

Definition gtb (x y : num) : bool := ltb y x.
Definition geb (x y : num) : bool := leb y x.

Definition eqb (x y : num) : bool :=
  match x, y with
  | Fin a, Fin b => Qeq_bool a b
  | PInf, PInf | NInf, NInf => true
  | _, _ => false
  end.

(** Square root of a non-negative rational, rounded down to 64 fractional
    bits. *)
Definition Qsqrt (q : Q) : Q :=
  Z.sqrt (Qnum q * 2 ^ 128 / Z.pos (Qden q)) # (2 ^ 64).

Definition sqrt (x : num) : num :=
  match x with
  | Fin q => match q ?= 0 with Lt => NaN | _ => Fin (Qsqrt q) end
  | PInf => PInf
  | NInf | NaN => NaN
  end.

End Num.
Import Num.
Open Scope string_scope.

Declare Scope num_scope.
Delimit Scope num_scope with num.
Bind Scope num_scope with num.
Infix "+" := add : num_scope.
Infix "-" := sub : num_scope.
Infix "*" := mul : num_scope.
Infix "/" := div : num_scope.
Notation "- x" := (neg x) : num_scope.
Infix "<?" := ltb : num_scope.
Infix "<=?" := leb : num_scope.
Infix ">?" := gtb : num_scope.
Infix ">=?" := geb : num_scope.

(** ** Exceptions and Python values *)

(** The exception classes met; the last two are what [print] raises on text
    that the stream cannot encode and on a broken stream. *)
Inductive exn_class : Type :=
| ZeroDivisionError
| ValueError
| KeyError
| TypeError
| RuntimeError
| UnicodeEncodeError
| OSError.

(** A raised exception; [exn_msg] is what [str(e)] returns. *)
Record exn : Type := mk_exn { exn_type : exn_class; exn_msg : string }.

Inductive res (A : Type) : Type :=
| Ok (a : A)
| Raise (e : exn).
Arguments Ok {A} a.
Arguments Raise {A} e.

Definition res_bind {A B} (r : res A) (k : A -> res B) : res B :=
  match r with
  | Ok a => k a
  | Raise e => Raise e
  end.

Notation "x <- r ;; k" := (res_bind r (fun x => k))
  (at level 61, r at next level, right associativity).

(** [try: body / except Exception as e: handler e]. *)
Definition try_except {A} (body : res A) (handler : exn -> res A) : res A :=
  match body with
  | Ok a => Ok a
  | Raise e => handler e
  end.

(** Division between two Python floats. *)
Definition py_div (x y : num) : res num :=
  if is_zero y then Raise (mk_exn ZeroDivisionError "float division by zero")
  else Ok (x / y)%num.

(** [a / b] on two Python ints: true division. *)
Definition py_int_truediv (a b : Z) : res num :=
  if (b =? 0)%Z then Raise (mk_exn ZeroDivisionError "division by zero")
  else Ok (Fin (a # 1) / Fin (b # 1))%num.

(** The builtin [min(a, b)]: the first argument, unless the second is
    strictly smaller. *)
Definition py_min (a b : num) : num := if (b <? a)%num then b else a.

(** Truth value of a float. *)
Definition truthy (x : num) : bool := negb (is_zero x).

#[warnings="-register-all"]
Inductive pyval : Type :=
| VNone
| VNum (x : num)
| VStr (s : string)
| VDict (d : list (string * pyval)).

(** A Python dict, in insertion order. *)
Definition dict : Type := list (string * pyval).

Fixpoint dict_get (k : string) (d : dict) : option pyval :=
  match d with
  | [] => None
  | (k', v) :: d' => if String.eqb k k' then Some v else dict_get k d'
  end.

(** [k in d]. *)
Definition dict_in (k : string) (d : dict) : bool :=
  match dict_get k d with Some _ => true | None => false end.

(** [d[k] = v]: replaces the value of an existing key in place, appends a
    new key. *)
Fixpoint dict_set (k : string) (v : pyval) (d : dict) : dict :=
  match d with
  | [] => [(k, v)]
  | (k', v') :: d' =>
      if String.eqb k k' then (k, v) :: d' else (k', v') :: dict_set k v d'
  end.

(** [d[k1][k2]] when both keys are present and the outer value is a dict. *)
Definition dict_get2 (k1 k2 : string) (d : dict) : option pyval :=
  match dict_get k1 d with
  | Some (VDict d1) => dict_get k2 d1
  | _ => None
  end.

(** [d[k]]. *)
Definition subscript (d : dict) (k : string) : res pyval :=
  match dict_get k d with
  | Some v => Ok v
  | None => Raise (mk_exn KeyError ("'" ++ k ++ "'"))
  end.

Definition as_dict (v : pyval) : res dict :=
  match v with
  | VDict d => Ok d
  | _ => Raise (mk_exn TypeError "object is not subscriptable")
  end.

Definition as_num (v : pyval) : res num :=
  match v with
  | VNum x => Ok x
  | _ => Raise (mk_exn TypeError "unsupported operand type(s)")
  end.

(** ** The input: Alpha Vantage's daily time series *)

(** The text of a field, as [float()] reads it: the number it stands for,
    or, for text that [float()] rejects, the text as the error message shows
    it (its [repr], with the quotes and escapes that Python chooses). *)
Inductive raw_field : Type :=
| Text_num (x : num)
| Text_bad (shown : string).

(** One day of the series; only the two columns the engine reads. *)
Record bar : Type := mk_bar { close : raw_field; volume : raw_field }.

(** [stock_data]: the value under "Time Series (Daily)" (a mapping from ISO
    date to bar, empty when the key is absent) and the value under
    "Meta Data" / "2. Symbol". *)
Record stock_data : Type := mk_stock_data {
  time_series : list (string * bar);
  meta_symbol : option string
}.

Definition float_of (f : raw_field) : res num :=
  match f with
  | Text_num x => Ok x
  | Text_bad shown =>
      Raise (mk_exn ValueError ("could not convert string to float: " ++ shown))
  end.

(** [column.astype(float)]. *)
Fixpoint astype_float (col : list raw_field) : res (list num) :=
  match col with
  | [] => Ok []
  | f :: col' =>
      x <- float_of f ;;
      xs <- astype_float col' ;;
      Ok (x :: xs)
  end.

(** [sort_index(ascending=True)]: rows in ascending order of their key. *)
Fixpoint insert_row {A} (r : string * A) (rows : list (string * A)) : list (string * A) :=
  match rows with
  | [] => [r]
  | r' :: rows' =>
      if String.leb (fst r) (fst r') then r :: rows
      else r' :: insert_row r rows'
  end.

Fixpoint sort_index {A} (rows : list (string * A)) : list (string * A) :=
  match rows with
  | [] => []
  | r :: rows' => insert_row r (sort_index rows')
  end.

(** ** Series primitives (pandas / NumPy) *)

Definition dropna (s : list num) : list num :=
  filter (fun x => negb (is_nan x)) s.

Definition series_sum (s : list num) : num := fold_left add s zero.

(** [s.mean()]: nan values are skipped; nan when nothing is left. *)
Definition series_mean (s : list num) : num :=
  let xs := dropna s in
  match xs with
  | [] => NaN
  | _ => (series_sum xs / of_Z (Z.of_nat (List.length xs)))%num
  end.

(** [s.std()]: sample standard deviation (ddof = 1) of the values that are
    not nan; nan when fewer than two are left. *)
Definition series_var (s : list num) : num :=
  let xs := dropna s in
  let count := List.length xs in
  if (count <=? 1)%nat then NaN
  else
    let avg := (series_sum xs / of_Z (Z.of_nat count))%num in
    let sqr := map (fun x => ((avg - x) * (avg - x))%num) xs in
    (series_sum sqr / of_Z (Z.of_nat (count - 1)))%num.

Definition series_std (s : list num) : num := sqrt (series_var s).

(** [f prev cur] over each pair of neighbours. *)
Fixpoint pairwise (f : num -> num -> num) (s : list num) : list num :=
  match s with
  | prev :: (cur :: _) as s' => f prev cur :: pairwise f s'
  | _ => []
  end.

(** [s.pct_change()]: [s / s.shift(1) - 1], as with [fill_method=None]; the
    first entry is nan. *)
Definition pct_change (s : list num) : list num :=
  match s with
  | [] => []
  | _ => NaN :: pairwise (fun prev cur => (cur / prev - one)%num) s
  end.

(** [s.diff()]. *)
Definition diff (s : list num) : list num :=
  match s with
  | [] => []
  | _ => NaN :: pairwise (fun prev cur => (cur - prev)%num) s
  end.

(** [s[start:]] for a Python slice start. *)
Definition slice_from {A} (start : Z) (s : list A) : list A :=
  if (start <? 0)%Z
  then skipn (Z.to_nat (Z.max (Z.of_nat (List.length s) + start) 0)) s
  else skipn (Z.to_nat start) s.

(** [s.rolling(window=w, min_periods=1).mean()]. *)
Definition rolling_mean (w : nat) (s : list num) : list num :=
  map (fun i => series_mean (slice_from (- Z.of_nat w) (firstn (S i) s)))
      (seq 0 (List.length s)).

(** [np.max] and [np.min] of an array: nan if any entry is nan. *)
Definition np_max2 (a b : num) : num :=
  if is_nan a || is_nan b then NaN else if (a <? b)%num then b else a.

Definition np_min2 (a b : num) : num :=
  if is_nan a || is_nan b then NaN else if (b <? a)%num then b else a.

Definition np_max (s : list num) : num :=
  match s with
  | [] => NaN
  | x :: s' => fold_left np_max2 s' x
  end.

Definition np_min (s : list num) : num :=
  match s with
  | [] => NaN
  | x :: s' => fold_left np_min2 s' x
  end.

(** [np.cumprod]. *)
Fixpoint cumprod_from (acc : num) (s : list num) : list num :=
  match s with
  | [] => []
  | x :: s' => let acc' := (acc * x)%num in acc' :: cumprod_from acc' s'
  end.

Definition cumprod (s : list num) : list num :=
  match s with
  | [] => []
  | x :: s' => x :: cumprod_from x s'
  end.

(** ** The global random generator *)

(** NumPy's process-wide generator: an endless stream of raw draws and the
    position of the next one.  Seeding fixes the stream and resets the
    cursor. *)
Record rng : Type := mk_rng { stream : N -> nat; cursor : N }.

Definition seed (draws : N -> nat) : rng := mk_rng draws 0%N.

(** One index below [hi]; the generator moves on. *)
Definition randint (hi : nat) (g : rng) : nat * rng :=
  ((stream g (cursor g) mod hi)%nat, mk_rng (stream g) (N.succ (cursor g))).

(** [np.random.choice(a, size=size)]: [size] entries of [a] drawn with
    replacement. *)
Fixpoint choice (a : list num) (size : nat) (g : rng) : list num * rng :=
  match size with
  | O => ([], g)
  | S size' =>
      let (i, g1) := randint (List.length a) g in
      let (rest, g2) := choice a size' g1 in
      (nth i a NaN :: rest, g2)
  end.

(** Computations that may raise and that use the global generator. *)
Definition M (A : Type) : Type := rng -> res A * rng.

Definition M_ret {A} (a : A) : M A := fun g => (Ok a, g).

Definition M_bind {A B} (m : M A) (k : A -> M B) : M B :=
  fun g =>
    match m g with
    | (Ok a, g') => k a g'
    | (Raise e, g') => (Raise e, g')
    end.

(** A computation that leaves the generator alone. *)
Definition M_lift {A} (r : res A) : M A := fun g => (r, g).

Notation "x <~ m ;; k" := (M_bind m (fun x => k))
  (at level 61, m at next level, right associativity).

(** ** RiskScorer: the four risk dimensions (analyse_risk, lines 43-92) *)

Definition values {A} (rows : list (string * A)) : list A := map snd rows.

(** 1. Volatility risk (annualized). *)
Definition daily_returns_of (closes : list num) : list num :=
  dropna (pct_change closes).

Definition volatility_of (closes : list num) : num :=
  (series_std (daily_returns_of closes) * sqrt (Fin 252))%num.

Definition norm_volatility_of (volatility : num) : num :=
  py_min (volatility / Fin 0.5)%num (Fin 1.0).

(** 2. Drawdown risk: both operands are Python floats. *)
Definition drawdown_of (current_price stop_loss : num) : res num :=
  py_div (current_price - stop_loss)%num current_price.

Definition norm_drawdown_of (drawdown : num) : num :=
  py_min (drawdown / Fin 0.3)%num (Fin 1.0).

(** 3. Liquidity risk (volume against history, and the user's order). *)
Definition recent_volume_of (volumes : list num) : num :=
  series_mean (slice_from (-20) volumes).

Definition liquidity_risk_of (volumes : list num) (user_volume : option num) : num :=
  let avg_volume := series_mean volumes in
  let recent_volume := recent_volume_of volumes in
  let liquidity_risk := (one - recent_volume / avg_volume)%num in
  match user_volume with
  | Some user_volume =>
      let user_volume_pct := (user_volume / recent_volume)%num in
      if (user_volume_pct >? Fin 0.05)%num
      then (liquidity_risk * (one + user_volume_pct))%num
      else liquidity_risk
  | None => liquidity_risk
  end.

Definition norm_liquidity_of (liquidity_risk : num) : num :=
  py_min (liquidity_risk / Fin 0.7)%num (Fin 1.0).

(** 4. Bearish pressure (frequency of RSI < 30).  [rsi] is always a Series
    here, so the [isinstance] test of the source takes its first branch. *)
Definition rsi_of (closes : list num) : list num :=
  let delta := diff closes in
  let gain := map (fun d => if (d >? zero)%num then d else zero) delta in
  let loss := map (fun d => (- (if (d <? zero)%num then d else zero))%num) delta in
  let avg_gain := rolling_mean 14 gain in
  let avg_loss := rolling_mean 14 loss in
  let avg_loss_safe := map (fun a => if eqb a zero then NaN else a) avg_loss in
  let rs := map (fun p => (fst p / snd p)%num) (combine avg_gain avg_loss_safe) in
  map (fun r => (Fin 100 - Fin 100 / (one + r))%num) rs.

Definition bearish_freq_of (closes : list num) : num :=
  let rsi := rsi_of closes in
  let below := filter (fun r => (r <? Fin 30)%num) rsi in
  (of_Z (Z.of_nat (List.length below)) / of_Z (Z.of_nat (List.length rsi)))%num.

Definition norm_bearish_of (bearish_freq : num) : num :=
  py_min (bearish_freq / Fin 0.3)%num (Fin 1.0).

(** The composite level (lines 144-146). *)
Definition risk_level_of (norm_volatility norm_drawdown norm_liquidity norm_bearish : num)
  : string :=
  let average :=
    ((norm_volatility + norm_drawdown + norm_liquidity + norm_bearish) / Fin 4)%num in
  if (average >? Fin 0.7)%num then "HIGH"
  else if (average >? Fin 0.4)%num then "MEDIUM"
  else "LOW".

(** What the radar chart is drawn from (lines 94-122). *)
Record figure : Type := mk_figure {
  fig_values : list num;
  fig_symbol : string;
  fig_current_price : num;
  fig_target : num;
  fig_stop : num;
  fig_user_volume : option (num * num)
}.

(** ** get_rating *)

(** Determine overall trade quality. *)
Definition get_rating (sharpe rr_ratio : num) : string :=
  if (sharpe >? Fin 1.5)%num && (rr_ratio >? Fin 2.0)%num
  then "⭐️⭐️⭐️⭐️⭐️ EXCELLENT"
  else if (sharpe >? Fin 1.0)%num && (rr_ratio >? Fin 1.5)%num
  then "⭐️⭐️⭐️⭐️ GOOD"
  else if (sharpe >? Fin 0.5)%num && (rr_ratio >? Fin 1.0)%num
  then "⭐️⭐️⭐️ FAIR"
  else "⭐️⭐️ WEAK".

(** ** MonteCarloSimulator: estimate_success_probability *)

(** The simulated prices of one trial (line 200). *)
Definition price_path_of (entry_price : num) (random_returns : list num) : list num :=
  map (mul entry_price) (cumprod (map (add one) random_returns)).

(** What one trial adds to [hits_target] (lines 202-208). *)
Definition trial_hits (price_path : list num) (entry_price target_price stop_loss : num) : Z :=
  if (np_max price_path >=? target_price)%num then 1
  else if (np_min price_path <=? stop_loss)%num then 0
  else if (last price_path NaN >? entry_price)%num then 1 else 0.

(** The loop of lines 196-208, [n] trials from [hits_target]. *)
Fixpoint simulate (n : nat) (recent_returns : list num)
    (entry_price target_price stop_loss : num) (hits_target : Z) (g : rng) : Z * rng :=
  match n with
  | O => (hits_target, g)
  | S n' =>
      let (random_returns, g1) := choice recent_returns 30 g in
      let price_path := price_path_of entry_price random_returns in
      simulate n' recent_returns entry_price target_price stop_loss
        (hits_target + trial_hits price_path entry_price target_price stop_loss)%Z g1
  end.

(** The returns the trials resample (lines 186-189). *)
Definition recent_returns_of (rows : list (string * bar)) (lookback_days : Z)
  : res (list num) :=
  col <- astype_float (map (fun r => close (snd r)) rows) ;;
  let closes := values (sort_index (combine (map fst rows) col)) in
  Ok (slice_from (- lookback_days) (dropna (pct_change closes))).

Definition estimate_success_probability (sd : stock_data)
    (entry_price target_price stop_loss : num)
    (n_simulations lookback_days : Z) : M num :=
  match time_series sd with
  | [] => M_ret (Fin 0.5)
  | rows =>
      recent_returns <~ M_lift (recent_returns_of rows lookback_days) ;;
      if (List.length recent_returns <? 5)%nat then M_ret (Fin 0.5)
      else
        fun g =>
          let (hits_target, g') :=
            simulate (Z.to_nat n_simulations) recent_returns
              entry_price target_price stop_loss 0%Z g in
          (py_int_truediv hits_target n_simulations, g')
  end.

(** ** analyse_risk and calculate_risk_reward *)

Section Engine.

(** Drawing the chart and encoding it (lines 95-129): matplotlib's part,
    which returns the image text or raises. *)
Variable savefig : figure -> res string.

(** [print] (line 152): writes a line to the standard output, or raises
    (text that the stream cannot encode, a closed or broken stream). *)
Variable print : string -> res unit.

Definition opt_num (x : option num) : pyval :=
  match x with Some v => VNum v | None => VNone end.

(** [stock_data.get("Meta Data", {}).get("2. Symbol", "Unknown")]. *)
Definition symbol_of (sd : stock_data) : string :=
  match meta_symbol sd with Some s => s | None => "Unknown" end.

(** [user_volume/recent_volume if user_volume else None]. *)
Definition volume_impact_of (user_volume : option num) (recent_volume : num)
  : option num :=
  match user_volume with
  | Some uv => if truthy uv then Some (uv / recent_volume)%num else None
  | None => None
  end.

(** The radar chart (lines 97-122): the four normalized scores, the first
    one repeated to close the circle, and what the title shows; the user's
    volume appears in the title when it is truthy. *)
Definition radar_figure (symbol : string)
    (current_price target_selling_price stop_loss : num)
    (user_volume volume_impact : option num)
    (norm_volatility norm_drawdown norm_liquidity norm_bearish : num) : figure :=
  mk_figure
    [norm_volatility; norm_drawdown; norm_liquidity; norm_bearish; norm_volatility]
    symbol current_price target_selling_price stop_loss
    (match user_volume, volume_impact with
     | Some uv, Some pct => Some (uv, pct)
     | _, _ => None
     end).

(** The dictionary returned on success (lines 131-149). *)
Definition risk_report (symbol : string)
    (current_price target_selling_price stop_loss : num) (user_volume : option num)
    (recent_volume : num) (volume_impact : option num)
    (volatility drawdown liquidity_risk bearish_freq : num) (risk_level : string)
    (img_base64 : string) : dict :=
  [("symbol", VStr symbol);
   ("current_price", VNum current_price);
   ("target_selling_price", VNum target_selling_price);
   ("stop_loss", VNum stop_loss);
   ("user_volume", opt_num user_volume);
   ("recent_avg_volume", VNum recent_volume);
   ("volume_impact", opt_num volume_impact);
   ("risk_analysis",
    VDict [("volatility", VNum volatility);
           ("drawdown_risk", VNum drawdown);
           ("liquidity_risk", VNum liquidity_risk);
           ("bearish_frequency", VNum bearish_freq);
           ("risk_level", VStr risk_level)]);
   ("plot", VStr img_base64)].

(** The body of the [try] block. *)
Definition analyse_risk_body (sd : stock_data)
    (target_selling_price stop_loss : num) (user_volume : option num) : res dict :=
  match time_series sd with
  | [] => Ok [("error", VStr "No time series data available")]
  | rows =>
      let df := sort_index rows in
      current_price <- float_of (last (map close (values df)) (Text_bad "")) ;;
      closes <- astype_float (map close (values df)) ;;
      volumes <- astype_float (map volume (values df)) ;;
      let volatility := volatility_of closes in
      let norm_volatility := norm_volatility_of volatility in
      drawdown <- drawdown_of current_price stop_loss ;;
      let norm_drawdown := norm_drawdown_of drawdown in
      let recent_volume := recent_volume_of volumes in
      let liquidity_risk := liquidity_risk_of volumes user_volume in
      let norm_liquidity := norm_liquidity_of liquidity_risk in
      let bearish_freq := bearish_freq_of closes in
      let norm_bearish := norm_bearish_of bearish_freq in
      let symbol := symbol_of sd in
      let volume_impact := volume_impact_of user_volume recent_volume in
      img_base64 <-
        savefig
          (radar_figure symbol current_price target_selling_price stop_loss
             user_volume volume_impact
             norm_volatility norm_drawdown norm_liquidity norm_bearish) ;;
      Ok (risk_report symbol current_price target_selling_price stop_loss
            user_volume recent_volume volume_impact
            volatility drawdown liquidity_risk bearish_freq
            (risk_level_of norm_volatility norm_drawdown norm_liquidity norm_bearish)
            img_base64)
  end.

Definition analyse_risk (sd : stock_data)
    (target_selling_price stop_loss : num) (user_volume : option num) : res dict :=
  try_except
    (analyse_risk_body sd target_selling_price stop_loss user_volume)
    (fun e =>
       _ <- print ("Error in risk analysis: " ++ exn_msg e) ;;
       Ok [("error", VStr ("Error in risk analysis: " ++ exn_msg e))]).

Definition calculate_risk_reward (sd : stock_data)
    (target_price stop_loss : num) (user_volume : option num)
    (holding_period_days : Z) (risk_free_rate : num) : M dict :=
  risk_result <~ M_lift (analyse_risk sd target_price stop_loss user_volume) ;;
  if dict_in "error" risk_result then M_ret risk_result
  else
    current_price <~ M_lift (v <- subscript risk_result "current_price" ;; as_num v) ;;
    volatility <~
      M_lift (ra <- subscript risk_result "risk_analysis" ;;
              ra <- as_dict ra ;;
              v <- subscript ra "volatility" ;;
              as_num v) ;;
    ratio <~ M_lift (py_div target_price current_price) ;;
    let potential_return_pct := (ratio - one)%num in
    periods <~ M_lift (py_int_truediv 252 holding_period_days) ;;
    let annualized_return := (potential_return_pct * periods)%num in
    sharpe_ratio <~ M_lift (py_div (annualized_return - risk_free_rate)%num volatility) ;;
    success_prob <~
      estimate_success_probability sd current_price target_price stop_loss 1000 60 ;;
    stop_ratio <~ M_lift (py_div stop_loss current_price) ;;
    risk_reward_ratio <~
      M_lift (py_div (success_prob * potential_return_pct)%num
                     ((one - success_prob) * abs (stop_ratio - one))%num) ;;
    M_ret
      (dict_set "reward_analysis"
         (VDict [("sharpe_ratio", VNum sharpe_ratio);
                 ("annualized_return_pct", VNum (annualized_return * Fin 100)%num);
                 ("risk_reward_ratio", VNum risk_reward_ratio);
                 ("success_probability", VNum success_prob);
                 ("rating", VStr (get_rating sharpe_ratio risk_reward_ratio))])
         risk_result).

End Engine.

(** ** Reading the simulator *)

(** The classification of one trial in the words of the specification:
    success when the maximum of the path reaches the target; otherwise,
    when the minimum does not reach the stop, success exactly when the
    final price exceeds the entry price. *)
Definition trial_success (price_path : list num)
    (entry_price target_price stop_loss : num) : bool :=
  (np_max price_path >=? target_price)%num
  || (negb (np_min price_path <=? stop_loss)%num
      && (last price_path NaN >? entry_price)%num).

(** The price paths of [n] consecutive trials started at generator [g]. *)
Fixpoint trial_paths (n : nat) (recent_returns : list num) (entry_price : num)
    (g : rng) : list (list num) :=
  match n with
  | O => []
  | S n' =>
      let (random_returns, g1) := choice recent_returns 30 g in
      price_path_of entry_price random_returns
        :: trial_paths n' recent_returns entry_price g1
  end.


(** The keys a successful risk report carries. *)
Definition report_keys : list string :=
  ["symbol"; "current_price"; "target_selling_price"; "stop_loss"; "user_volume";
   "recent_avg_volume"; "volume_impact"; "risk_analysis"; "plot"].

Definition risk_analysis_keys : list string :=
  ["volatility"; "drawdown_risk"; "liquidity_risk"; "bearish_frequency"; "risk_level"].

(** A normalized score is the builtin [min] of raw/cap and 1.0. *)
Definition norm_spec (raw : num) (cap : Q) (norm : num) : Prop :=
  norm = py_min (raw / Fin cap) (Fin 1.0)
  /\ is_nan norm = is_nan raw
  /\ (is_nan raw = false -> (norm <=? Fin 1.0)%num = true)
  /\ ((raw / Fin cap <? Fin 1.0)%num = true -> norm = (raw / Fin cap)%num)
  /\ ((raw <? zero)%num = true ->
      norm = (raw / Fin cap)%num /\ (norm <? zero)%num = true).

(** ** Sample inputs *)

Module Samples.

Definition digit (n : nat) : string :=
  String (Ascii.ascii_of_nat (48 + n mod 10)) "".

(** The [n]-th trading day of the sample month, as an ISO date. *)
Definition day_key (n : nat) : string :=
  "2024-01-" ++ digit (S n / 10) ++ digit (S n).

(** A series from (close, volume) pairs, oldest first. *)
Definition series_of (bars : list (Q * Q)) : stock_data :=
  mk_stock_data
    (combine (map day_key (seq 0 (List.length bars)))
             (map (fun b => mk_bar (Text_num (Fin (fst b))) (Text_num (Fin (snd b)))) bars))
    (Some "IBM").

Definition one_bar : stock_data := series_of [(100, 1000)].

Definition two_bars : stock_data := series_of [(100, 1000); (101, 1000)].

(** A constant price: every daily return is 0. *)
Definition flat : stock_data := series_of (repeat (100, 1000) 7).

(** Every daily return is +100% or +200%. *)
Definition rising : stock_data :=
  series_of [(1, 1000); (2, 1000); (6, 1000); (12, 1000); (36, 1000); (72, 1000);
             (216, 1000)].

(** Daily returns alternate between +100% and -50%. *)
Definition zigzag : stock_data :=
  series_of [(100, 1000); (200, 1000); (100, 1000); (200, 1000); (100, 1000);
             (200, 1000); (100, 1000)].

(** Scenario A of the specification: closes 100, 101, ..., 129 at a
    constant volume. *)
Definition scenario_a : stock_data :=
  series_of (map (fun i => (inject_Z (Z.of_nat (100 + i)), 1000)) (seq 0 30)).

(** Twenty-one bars whose twenty most recent volumes are above the overall
    average. *)
Definition busy : stock_data := series_of ((100, 500) :: repeat (100, 1000) 20).

Definition busy_volumes : list num := Fin 500 :: repeat (Fin 1000) 20.

(** A renderer that always succeeds, and one that always fails. *)
Definition blank_chart (_ : figure) : res string := Ok "".

Definition broken_chart (_ : figure) : res string :=
  Raise (mk_exn RuntimeError "no display").

(** A standard output that takes every line, and one that has been closed. *)
Definition stdout (_ : string) : res unit := Ok tt.

Definition closed_stdout (_ : string) : res unit :=
  Raise (mk_exn ValueError "I/O operation on closed file.").

(** One bar whose close is the text n/a. *)
Definition unpriced : stock_data :=
  mk_stock_data [(day_key 0, mk_bar (Text_bad "'n/a'") (Text_num (Fin 1000)))]
    (Some "IBM").

(** Thirty sampled returns, +100% first, and the same returns with -50%
    first. *)
Definition up_first : list num :=
  List.concat (repeat [Fin 1; Fin (-1 # 2)] 15).

Definition down_first : list num :=
  (tl up_first ++ [Fin 1])%list.

(** Raw draws 0, 1, 0, 1, ... for the first trial and 1, 0, 1, 0, ... for
    the second. *)
Definition flip_stream (i : N) : nat := N.to_nat ((i + i / 30) mod 2)%N.

Definition zero_stream (_ : N) : nat := 0%nat.


End Samples.

(** ** Reading the rest of the engine *)

(** Rows in ascending order of their date. *)
Definition key_le {A} (r r' : string * A) : Prop := String.leb (fst r) (fst r') = true.

Definition keys {A} (rows : list (string * A)) : list string := map fst rows.

(** The number a close field holds (nan for text that does not parse). *)
Definition close_or_nan (r : string * bar) : num :=
  match close (snd r) with Text_num x => x | Text_bad _ => NaN end.

(** The keys of the "reward_analysis" entry. *)
Definition reward_analysis_keys : list string :=
  ["sharpe_ratio"; "annualized_return_pct"; "risk_reward_ratio"; "success_probability";
   "rating"].

(** The four ratings, from the weakest to the best. *)
Definition rating_rank (rating : string) : nat :=
  if String.eqb rating "⭐️⭐️⭐️⭐️⭐️ EXCELLENT" then 3
  else if String.eqb rating "⭐️⭐️⭐️⭐️ GOOD" then 2
  else if String.eqb rating "⭐️⭐️⭐️ FAIR" then 1
  else 0.

(** ** The HTML routes of main.py *)

(** A value, or a Python exception given by the name of its class and its
    message (the routes meet exception classes the engine never raises). *)
Inductive outcome (A : Type) : Type :=
| Done (a : A)
| Fails (class_name message : string).
Arguments Done {A} a.
Arguments Fails {A} class_name message.

Definition outcome_bind {A B} (r : outcome A) (k : A -> outcome B) : outcome B :=
  match r with
  | Done a => k a
  | Fails c m => Fails c m
  end.

Notation "x <~~ r ;; k" := (outcome_bind r (fun x => k))
  (at level 61, r at next level, right associativity).

Definition class_name_of (c : exn_class) : string :=
  match c with
  | ZeroDivisionError => "ZeroDivisionError"
  | ValueError => "ValueError"
  | KeyError => "KeyError"
  | TypeError => "TypeError"
  | RuntimeError => "RuntimeError"
  | UnicodeEncodeError => "UnicodeEncodeError"
  | OSError => "OSError"
  end.

Definition of_res {A} (r : res A) : outcome A :=
  match r with
  | Ok a => Done a
  | Raise e => Fails (class_name_of (exn_type e)) (exn_msg e)
  end.

(** The double quote.  The templates below are written with a backtick
    wherever main.py has a double quote; [q] puts the double quotes back. *)
Definition double_quote : Ascii.ascii := Ascii.ascii_of_nat 34.

Fixpoint q (s : string) : string :=
  match s with
  | EmptyString => EmptyString
  | String c s' => String (if Ascii.eqb c "`" then double_quote else c) (q s')
  end.

(** [str.lower()] and [str.upper()], on ASCII letters. *)
Definition lower_ascii (c : Ascii.ascii) : Ascii.ascii :=
  let n := Ascii.nat_of_ascii c in
  if (65 <=? n)%nat && (n <=? 90)%nat then Ascii.ascii_of_nat (n + 32) else c.

Definition upper_ascii (c : Ascii.ascii) : Ascii.ascii :=
  let n := Ascii.nat_of_ascii c in
  if (97 <=? n)%nat && (n <=? 122)%nat then Ascii.ascii_of_nat (n - 32) else c.

Fixpoint lower (s : string) : string :=
  match s with
  | EmptyString => EmptyString
  | String c s' => String (lower_ascii c) (lower s')
  end.

Fixpoint upper (s : string) : string :=
  match s with
  | EmptyString => EmptyString
  | String c s' => String (upper_ascii c) (upper s')
  end.

(** [s.split()[0]]: the first run of characters that are not (ASCII)
    whitespace, if there is one. *)
Definition is_space (c : Ascii.ascii) : bool :=
  let n := Ascii.nat_of_ascii c in
  ((9 <=? n)%nat && (n <=? 13)%nat) || ((28 <=? n)%nat && (n <=? 32)%nat).

Fixpoint take_word (s : string) : string :=
  match s with
  | EmptyString => EmptyString
  | String c s' => if is_space c then EmptyString else String c (take_word s')
  end.

Fixpoint first_token (s : string) : option string :=
  match s with
  | EmptyString => None
  | String c s' => if is_space c then first_token s' else Some (take_word s)
  end.

Definition type_name (v : pyval) : string :=
  match v with
  | VNone => "NoneType"
  | VNum _ => "float"
  | VStr _ => "str"
  | VDict _ => "dict"
  end.

(** [str(n)] for an int. *)
Definition str_of_int (n : Z) : string :=
  DecimalString.NilZero.string_of_int (Z.to_int n).

(** What [requests.get], [raise_for_status] and [json] give: the decoded
    reply, or a [RequestException]. *)
Record api_reply : Type := mk_api_reply {
  error_message : option string;
  note : option string;
  payload : stock_data
}.

Inductive fetched : Type :=
| Reply (data : api_reply)
| RequestException (message : string).

(** How a route ends: the HTML it returns, an [HTTPException], or another
    exception that it lets through. *)
Inductive route_result : Type :=
| Returns (body : string)
| HTTPException (status_code : Z) (detail : string)
| Propagates (class_name message : string).

(** An f-string: its pieces in order; the first piece that raises ends it. *)
Fixpoint fstring (pieces : list (outcome string)) : outcome string :=
  match pieces with
  | [] => Done EmptyString
  | piece :: pieces' =>
      s <~~ piece ;;
      rest <~~ fstring pieces' ;;
      Done (s ++ rest)
  end.

Definition item (d : dict) (k : string) : outcome pyval := of_res (subscript d k).

Definition item2 (d : dict) (k1 k2 : string) : outcome pyval :=
  of_res (v <- subscript d k1 ;; d1 <- as_dict v ;; subscript d1 k2).

(** [v.lower()] and [v.split()[0].lower()]. *)
Definition str_lower (v : outcome pyval) : outcome string :=
  v <~~ v ;;
  match v with
  | VStr s => Done (lower s)
  | _ => Fails "AttributeError"
           ("'" ++ type_name v ++ "' object has no attribute 'lower'")
  end.

Definition first_token_lower (v : outcome pyval) : outcome string :=
  v <~~ v ;;
  match v with
  | VStr s =>
      match first_token s with
      | Some w => Done (lower w)
      | None => Fails "IndexError" "list index out of range"
      end
  | _ => Fails "AttributeError"
           ("'" ++ type_name v ++ "' object has no attribute 'split'")
  end.

Definition key_missing (api_key : option string) : bool :=
  match api_key with
  | None => true
  | Some k => String.eqb k EmptyString
  end.

Definition key_text (api_key : option string) : string :=
  match api_key with Some k => k | None => EmptyString end.

Section Routes.

(** The collaborators: matplotlib, the HTTP client, and the builtin
    [format]: of a float (for the format specs of the templates), and of the
    values the templates never format in the way asked. *)
Variable savefig : figure -> res string.
Variable print : string -> res unit.
Variable http_get : string -> string -> string -> fetched.
Variable format_float : num -> string -> string.
Variable format_other : pyval -> string -> outcome string.

(** [format(v, spec)], as a replacement field [{v:spec}] computes it. *)
Definition format_value (v : pyval) (spec : string) : outcome string :=
  match v with
  | VNum x => Done (format_float x spec)
  | VNone =>
      if String.eqb spec EmptyString then Done "None"
      else Fails "TypeError" "unsupported format string passed to NoneType.__format__"
  | VStr s => if String.eqb spec EmptyString then Done s else format_other v spec
  | VDict _ =>
      if String.eqb spec EmptyString then format_other v spec
      else Fails "TypeError" "unsupported format string passed to dict.__format__"
  end.

Definition fmt (v : outcome pyval) (spec : string) : outcome string :=
  v <~~ v ;; format_value v spec.

(** The page of plot_risk_analysis for an analysis error (lines 174-181). *)
Definition risk_error_page (risk_analysis : dict) : outcome string :=
  fstring
    [Done "
            <html>
                <body>
                    <h1>Error</h1>
                    <p>";
     fmt (item risk_analysis "error") EmptyString;
     Done "</p>
                </body>
            </html>
            "].

(** The page of plot_risk_analysis (lines 184-238). *)
Definition risk_page (risk_analysis : dict) : outcome string :=
  fstring
    [Done "
        <!DOCTYPE html>
        <html>
        <head>
            <title>Risk Analysis for ";
     fmt (item risk_analysis "symbol") EmptyString;
     Done (q "</title>
            <style>
                body { font-family: Arial, sans-serif; margin: 20px; }
                .container { max-width: 1200px; margin: 0 auto; }
                .plot { text-align: center; margin: 20px 0; }
                .plot img { max-width: 100%; height: auto; }
                .data { background: #f5f5f5; padding: 20px; border-radius: 8px; margin: 20px 0; }
                .data h3 { margin-top: 0; }
                .data table { width: 100%; border-collapse: collapse; }
                .data td, .data th { padding: 8px; text-align: left; border-bottom: 1px solid #ddd; }
                .risk-level { font-weight: bold; padding: 5px 10px; border-radius: 4px; }
                .risk-high { background: #ffebee; color: #c62828; }
                .risk-medium { background: #fff3e0; color: #ef6c00; }
                .risk-low { background: #e8f5e8; color: #2e7d32; }
            </style>
        </head>
        <body>
            <div class=`container`>
                <h1>Risk Analysis for ");
     fmt (item risk_analysis "symbol") EmptyString;
     Done (q "</h1>
                
                <div class=`data`>
                    <h3>Trade Parameters</h3>
                    <table>
                        <tr><td>Current Price:</td><td>$");
     fmt (item risk_analysis "current_price") ".2f";
     Done "</td></tr>
                        <tr><td>Target Selling Price:</td><td>$";
     fmt (item risk_analysis "target_selling_price") ".2f";
     Done "</td></tr>
                        <tr><td>Stop Loss:</td><td>$";
     fmt (item risk_analysis "stop_loss") ".2f";
     Done "</td></tr>
                        <tr><td>User Volume:</td><td>";
     fmt (item risk_analysis "user_volume") ",";
     Done " shares</td></tr>
                        <tr><td>Recent Average Volume:</td><td>";
     fmt (item risk_analysis "recent_avg_volume") ",.0f";
     Done " shares</td></tr>
                        <tr><td>Volume Impact:</td><td>";
     fmt (item risk_analysis "volume_impact") ".1%";
     Done (q "</td></tr>
                    </table>
                </div>
                
                <div class=`data`>
                    <h3>Risk Analysis</h3>
                    <table>
                        <tr><td>Volatility:</td><td>");
     fmt (item2 risk_analysis "risk_analysis" "volatility") ".2%";
     Done "</td></tr>
                        <tr><td>Drawdown Risk:</td><td>";
     fmt (item2 risk_analysis "risk_analysis" "drawdown_risk") ".2%";
     Done "</td></tr>
                        <tr><td>Liquidity Risk:</td><td>";
     fmt (item2 risk_analysis "risk_analysis" "liquidity_risk") ".2%";
     Done "</td></tr>
                        <tr><td>Bearish Frequency:</td><td>";
     fmt (item2 risk_analysis "risk_analysis" "bearish_frequency") ".2%";
     Done (q "</td></tr>
                        <tr><td>Overall Risk Level:</td><td><span class=`risk-level risk-");
     str_lower (item2 risk_analysis "risk_analysis" "risk_level");
     Done (q "`>");
     fmt (item2 risk_analysis "risk_analysis" "risk_level") EmptyString;
     Done (q "</span></td></tr>
                    </table>
                </div>
                
                <div class=`plot`>
                    <h3>Risk Profile Radar Chart</h3>
                    <img src=`data:image/png;base64,");
     fmt (item risk_analysis "plot") EmptyString;
     Done (q "` alt=`Risk Profile Chart`>
                </div>
            </div>
        </body>
        </html>
        ")].

(** The page of plot_risk_reward_analysis for an analysis error
    (lines 300-307). *)
Definition risk_reward_error_page (analysis_result : dict) : outcome string :=
  fstring
    [Done "
            <html>
                <body>
                    <h1>Error</h1>
                    <p>";
     fmt (item analysis_result "error") EmptyString;
     Done "</p>
                </body>
            </html>
            "].

(** The page of plot_risk_reward_analysis (lines 310-385). *)
Definition risk_reward_page (analysis_result : dict)
    (target_price stop_loss user_volume : num) (holding_period_days : Z)
    (risk_free_rate : num) : outcome string :=
  fstring
    [Done "
        <!DOCTYPE html>
        <html>
        <head>
            <title>Risk/Reward Analysis for ";
     fmt (item analysis_result "symbol") EmptyString;
     Done (q "</title>
            <style>
                body { font-family: Arial, sans-serif; margin: 20px; }
                .container { max-width: 1200px; margin: 0 auto; }
                .plot { text-align: center; margin: 20px 0; }
                .plot img { max-width: 100%; height: auto; }
                .data { background: #f5f5f5; padding: 20px; border-radius: 8px; margin: 20px 0; }
                .data h3 { margin-top: 0; }
                .data table { width: 100%; border-collapse: collapse; }
                .data td, .data th { padding: 8px; text-align: left; border-bottom: 1px solid #ddd; }
                .risk-level { font-weight: bold; padding: 5px 10px; border-radius: 4px; }
                .risk-high { background: #ffebee; color: #c62828; }
                .risk-medium { background: #fff3e0; color: #ef6c00; }
                .risk-low { background: #e8f5e8; color: #2e7d32; }
                .rating { font-size: 18px; font-weight: bold; padding: 10px; border-radius: 8px; text-align: center; margin: 10px 0; }
                .rating-excellent { background: #e8f5e8; color: #2e7d32; }
                .rating-good { background: #e3f2fd; color: #1565c0; }
                .rating-fair { background: #fff3e0; color: #ef6c00; }
                .rating-weak { background: #ffebee; color: #c62828; }
            </style>
        </head>
        <body>
            <div class=`container`>
                <h1>Risk/Reward Analysis for ");
     fmt (item analysis_result "symbol") EmptyString;
     Done (q "</h1>
                
                <div class=`data`>
                    <h3>Trade Parameters</h3>
                    <table>
                        <tr><td>Current Price:</td><td>$");
     fmt (item analysis_result "current_price") ".2f";
     Done "</td></tr>
                        <tr><td>Target Price:</td><td>$";
     Done (format_float target_price ".2f");
     Done "</td></tr>
                        <tr><td>Stop Loss:</td><td>$";
     Done (format_float stop_loss ".2f");
     Done "</td></tr>
                        <tr><td>User Volume:</td><td>";
     Done (format_float user_volume ",");
     Done " shares</td></tr>
                        <tr><td>Holding Period:</td><td>";
     Done (str_of_int holding_period_days);
     Done " days</td></tr>
                        <tr><td>Risk-Free Rate:</td><td>";
     Done (format_float risk_free_rate ".1%");
     Done "</td></tr>
                        <tr><td>Recent Average Volume:</td><td>";
     fmt (item analysis_result "recent_avg_volume") ",.0f";
     Done " shares</td></tr>
                        <tr><td>Volume Impact:</td><td>";
     fmt (item analysis_result "volume_impact") ".1%";
     Done (q "</td></tr>
                    </table>
                </div>
                
                <div class=`data`>
                    <h3>Risk Analysis</h3>
                    <table>
                        <tr><td>Volatility:</td><td>");
     fmt (item2 analysis_result "risk_analysis" "volatility") ".2%";
     Done "</td></tr>
                        <tr><td>Drawdown Risk:</td><td>";
     fmt (item2 analysis_result "risk_analysis" "drawdown_risk") ".2%";
     Done "</td></tr>
                        <tr><td>Liquidity Risk:</td><td>";
     fmt (item2 analysis_result "risk_analysis" "liquidity_risk") ".2%";
     Done "</td></tr>
                        <tr><td>Bearish Frequency:</td><td>";
     fmt (item2 analysis_result "risk_analysis" "bearish_frequency") ".2%";
     Done (q "</td></tr>
                        <tr><td>Overall Risk Level:</td><td><span class=`risk-level risk-");
     str_lower (item2 analysis_result "risk_analysis" "risk_level");
     Done (q "`>");
     fmt (item2 analysis_result "risk_analysis" "risk_level") EmptyString;
     Done (q "</span></td></tr>
                    </table>
                </div>
                
                <div class=`data`>
                    <h3>Reward Analysis</h3>
                    <table>
                        <tr><td>Sharpe Ratio:</td><td>");
     fmt (item2 analysis_result "reward_analysis" "sharpe_ratio") ".3f";
     Done "</td></tr>
                        <tr><td>Annualized Return:</td><td>";
     fmt (item2 analysis_result "reward_analysis" "annualized_return_pct") ".2f";
     Done "%</td></tr>
                        <tr><td>Risk/Reward Ratio:</td><td>";
     fmt (item2 analysis_result "reward_analysis" "risk_reward_ratio") ".3f";
     Done "</td></tr>
                        <tr><td>Success Probability:</td><td>";
     fmt (item2 analysis_result "reward_analysis" "success_probability") ".1%";
     Done (q "</td></tr>
                    </table>
                </div>
                
                <div class=`rating rating-");
     first_token_lower (item2 analysis_result "reward_analysis" "rating");
     Done (q "`>
                    ");
     fmt (item2 analysis_result "reward_analysis" "rating") EmptyString;
     Done (q "
                </div>
                
                <div class=`plot`>
                    <h3>Risk Profile Radar Chart</h3>
                    <img src=`data:image/png;base64,");
     fmt (item analysis_result "plot") EmptyString;
     Done (q "` alt=`Risk Profile Chart`>
                </div>
            </div>
        </body>
        </html>
        ")].

Definition page (html : outcome string) : route_result :=
  match html with
  | Done body => Returns body
  | Fails c m => Propagates c m
  end.

(** The common start of both routes: the key, the request, the API errors. *)
Definition fetch_daily (api_key : option string) (symbol : string)
  : route_result + api_reply :=
  if key_missing api_key
  then inl (HTTPException 500
              "Alpha Vantage API key not configured. Please set ALPHA_VANTAGE_API_KEY environment variable.")
  else
    match http_get "TIME_SERIES_DAILY" (upper symbol) (key_text api_key) with
    | RequestException message =>
        inl (HTTPException 500 ("Error fetching data: " ++ message))
    | Reply data =>
        match error_message data with
        | Some detail => inl (HTTPException 400 detail)
        | None =>
            match note data with
            | Some _ => inl (HTTPException 429 "API rate limit exceeded")
            | None => inr data
            end
        end
    end.

Definition plot_risk_analysis (api_key : option string) (symbol : string)
    (target_selling_price stop_loss user_volume : num) : route_result :=
  match fetch_daily api_key symbol with
  | inl failure => failure
  | inr data =>
      match analyse_risk savefig print (payload data) target_selling_price stop_loss
              (Some user_volume) with
      | Raise e => Propagates (class_name_of (exn_type e)) (exn_msg e)
      | Ok risk_analysis =>
          if dict_in "error" risk_analysis
          then page (risk_error_page risk_analysis)
          else page (risk_page risk_analysis)
      end
  end.

Definition plot_risk_reward_analysis (api_key : option string) (symbol : string)
    (target_price stop_loss user_volume : num) (holding_period_days : Z)
    (risk_free_rate : num) (g : rng) : route_result * rng :=
  match fetch_daily api_key symbol with
  | inl failure => (failure, g)
  | inr data =>
      match calculate_risk_reward savefig print (payload data) target_price stop_loss
              (Some user_volume) holding_period_days risk_free_rate g with
      | (Raise e, g') => (Propagates (class_name_of (exn_type e)) (exn_msg e), g')
      | (Ok analysis_result, g') =>
          if dict_in "error" analysis_result
          then (page (risk_reward_error_page analysis_result), g')
          else (page (risk_reward_page analysis_result target_price stop_loss
                        user_volume holding_period_days risk_free_rate), g')
      end
  end.

End Routes.

(** Sample collaborators of the routes. *)
Module RouteSamples.

(** A client whose every request is answered with the series [sd]. *)
Definition daily (sd : stock_data) (_ _ _ : string) : fetched :=
  Reply (mk_api_reply None None sd).

Definition plain_float (_ : num) (spec : string) : string := "<" ++ spec ++ ">".

Definition plain_other (_ : pyval) (_ : string) : outcome string := Done "".

End RouteSamples.

(** * Properties *)

(** ** Order and arithmetic on [num] *)

#[local] Arguments Qcompare : simpl never.
#[local] Arguments Qeq_bool : simpl never.
#[local] Arguments Qplus : simpl never.
#[local] Arguments Qmult : simpl never.
#[local] Arguments Qopp : simpl never.
#[local] Arguments Qinv : simpl never.
#[local] Arguments Qdiv : simpl never.
#[local] Arguments Qabs : simpl never.

Ltac q_compare :=
  repeat (match goal with
          | |- context [(?a ?= ?b)%Q] => destruct (Qcompare_spec a b)
          | H : context [(?a ?= ?b)%Q] |- _ => destruct (Qcompare_spec a b)
          end; cbn in *).

Ltac num_order :=
  intros;
  repeat match goal with x : num |- _ => destruct x end;
  cbn in *; try discriminate; try reflexivity;
  q_compare; cbn in *; try discriminate; try reflexivity;
  try (exfalso; lra).

Lemma Qeq_bool_false_neq (a b : Q) : Qeq_bool a b = false -> ~ a == b.
Proof. intros H E. apply Qeq_bool_iff in E. congruence. Qed.

Lemma is_nan_np_max2 (x y : num) : is_nan (np_max2 x y) = is_nan x || is_nan y.
Proof. unfold np_max2. destruct x, y; cbn; try reflexivity. q_compare; reflexivity. Qed.

Lemma is_nan_np_min2 (x y : num) : is_nan (np_min2 x y) = is_nan x || is_nan y.
Proof. unfold np_min2. destruct x, y; cbn; try reflexivity. q_compare; reflexivity. Qed.

Lemma leb_np_max2 (t x y : num) :
  is_nan x = false -> is_nan y = false ->
  (t <=? np_max2 x y)%num = (t <=? x)%num || (t <=? y)%num.
Proof. unfold np_max2. num_order. Qed.

Lemma py_min_nan (x : num) : is_nan (py_min x (Fin 1.0)) = is_nan x.
Proof. unfold py_min. num_order. Qed.

Lemma py_min_le_cap (x : num) :
  is_nan x = false -> (py_min x (Fin 1.0) <=? Fin 1.0)%num = true.
Proof. unfold py_min. num_order. Qed.

Lemma py_min_below_cap (x : num) :
  (x <? Fin 1.0)%num = true -> py_min x (Fin 1.0) = x.
Proof. unfold py_min. num_order. Qed.

Lemma ltb_below_cap (x : num) :
  (x <? zero)%num = true -> (x <? Fin 1.0)%num = true.
Proof. unfold zero. num_order. Qed.

Lemma div_negative (x : num) (c : Q) :
  0 < c -> (x <? zero)%num = true -> (x / Fin c <? zero)%num = true.
Proof.
  intros Hc Hx. destruct x as [q | | |]; cbn in *; try discriminate.
  - destruct (Qeq_bool c 0) eqn:E.
    + apply Qeq_bool_iff in E. lra.
    + cbn. destruct (Qcompare_spec q 0) as [H | H | H]; try discriminate.
      assert (Hd : q / c < 0).
      { apply Qlt_shift_div_r; lra. }
      destruct (Qcompare_spec (q / c) 0); try reflexivity; lra.
  - destruct (Qcompare_spec c 0); try reflexivity; lra.
Qed.

Lemma is_nan_div_cap (x : num) (c : Q) : 0 < c -> is_nan (x / Fin c) = is_nan x.
Proof.
  intros Hc. destruct x as [q | | |]; cbn; try reflexivity.
  - destruct (Qeq_bool c 0) eqn:E; [apply Qeq_bool_iff in E; lra | reflexivity].
  - destruct (Qcompare_spec c 0); reflexivity.
  - destruct (Qcompare_spec c 0); reflexivity.
Qed.

Lemma norm_spec_py_min (raw : num) (cap : Q) :
  0 < cap -> norm_spec raw cap (py_min (raw / Fin cap) (Fin 1.0)).
Proof.
  intros Hc. unfold norm_spec. repeat split.
  - rewrite py_min_nan. now apply is_nan_div_cap.
  - intros Hn. apply py_min_le_cap. now rewrite is_nan_div_cap.
  - apply py_min_below_cap.
  - apply py_min_below_cap, ltb_below_cap. now apply div_negative.
  - rewrite py_min_below_cap by (apply ltb_below_cap; now apply div_negative).
    now apply div_negative.
Qed.

(** ** The shape of what analyse_risk returns *)

Lemma analyse_risk_body_ok savefig sd t s uv d :
  analyse_risk_body savefig sd t s uv = Ok d ->
  (time_series sd = [] /\ d = [("error", VStr "No time series data available")])
  \/ (exists current_price closes volumes drawdown img,
        time_series sd <> []
        /\ float_of (last (map close (values (sort_index (time_series sd))))
                          (Text_bad "")) = Ok current_price
        /\ astype_float (map close (values (sort_index (time_series sd)))) = Ok closes
        /\ astype_float (map volume (values (sort_index (time_series sd)))) = Ok volumes
        /\ drawdown_of current_price s = Ok drawdown
        /\ savefig (radar_figure (symbol_of sd) current_price t s uv
                      (volume_impact_of uv (recent_volume_of volumes))
                      (norm_volatility_of (volatility_of closes))
                      (norm_drawdown_of drawdown)
                      (norm_liquidity_of (liquidity_risk_of volumes uv))
                      (norm_bearish_of (bearish_freq_of closes)))
           = Ok img
        /\ d = risk_report (symbol_of sd) current_price t s uv
                 (recent_volume_of volumes)
                 (volume_impact_of uv (recent_volume_of volumes))
                 (volatility_of closes) drawdown
                 (liquidity_risk_of volumes uv) (bearish_freq_of closes)
                 (risk_level_of
                    (norm_volatility_of (volatility_of closes))
                    (norm_drawdown_of drawdown)
                    (norm_liquidity_of (liquidity_risk_of volumes uv))
                    (norm_bearish_of (bearish_freq_of closes)))
                 img).
Proof.
  unfold analyse_risk_body. intros H.
  destruct (time_series sd) as [| r rows] eqn:Hts.
  - left. split; [reflexivity | congruence].
  - right. set (df := sort_index (r :: rows)) in *.
    destruct (float_of (last (map close (values df)) (Text_bad ""))) as [cp |] eqn:Hcp;
      [| discriminate].
    destruct (astype_float (map close (values df))) as [closes |] eqn:Hc; [| discriminate].
    destruct (astype_float (map volume (values df))) as [volumes |] eqn:Hv; [| discriminate].
    cbn [res_bind] in H.
    destruct (drawdown_of cp s) as [dd |] eqn:Hd; [| discriminate].
    cbn [res_bind] in H.
    match type of H with
    | res_bind (savefig ?f) _ = _ =>
        destruct (savefig f) as [img |] eqn:Hfig; [| discriminate]
    end.
    cbn [res_bind] in H. injection H as <-.
    exists cp, closes, volumes, dd, img. repeat split; try assumption. discriminate.
Qed.

Lemma analyse_risk_cases savefig print sd t s uv :
  match analyse_risk_body savefig sd t s uv with
  | Ok d => analyse_risk savefig print sd t s uv = Ok d
  | Raise e =>
      analyse_risk savefig print sd t s uv
      = (_ <- print ("Error in risk analysis: " ++ exn_msg e) ;;
         Ok [("error", VStr ("Error in risk analysis: " ++ exn_msg e))])
  end.
Proof. unfold analyse_risk, try_except. now destruct analyse_risk_body. Qed.

Lemma risk_report_keys sym cp t s uv rv vi vol dd liq bf lvl img :
  let d := risk_report sym cp t s uv rv vi vol dd liq bf lvl img in
  dict_in "error" d = false
  /\ dict_in "reward_analysis" d = false
  /\ forallb (fun k => dict_in k d) report_keys = true
  /\ forallb (fun k => match dict_get2 "risk_analysis" k d with
                       | Some _ => true
                       | None => false
                       end) risk_analysis_keys = true.
Proof. cbn. repeat split. Qed.

(** Whatever [analyse_risk] returns is a one-entry error dictionary or a
    full report; when it returns nothing, the body has raised and the
    [print] of the handler has raised in its turn. *)
Lemma analyse_risk_total savefig print sd t s uv :
  (exists d,
    analyse_risk savefig print sd t s uv = Ok d
    /\ ((exists msg, d = [("error", VStr msg)]
         /\ (time_series sd = [] -> msg = "No time series data available")
         /\ (forall e, analyse_risk_body savefig sd t s uv = Raise e ->
             msg = "Error in risk analysis: " ++ exn_msg e))
        \/ (exists current_price closes volumes drawdown img,
              time_series sd <> []
              /\ float_of (last (map close (values (sort_index (time_series sd))))
                                (Text_bad "")) = Ok current_price
              /\ astype_float (map close (values (sort_index (time_series sd))))
                 = Ok closes
              /\ astype_float (map volume (values (sort_index (time_series sd))))
                 = Ok volumes
              /\ drawdown_of current_price s = Ok drawdown
              /\ savefig (radar_figure (symbol_of sd) current_price t s uv
                      (volume_impact_of uv (recent_volume_of volumes))
                      (norm_volatility_of (volatility_of closes))
                      (norm_drawdown_of drawdown)
                      (norm_liquidity_of (liquidity_risk_of volumes uv))
                      (norm_bearish_of (bearish_freq_of closes)))
                 = Ok img
              /\ d = risk_report (symbol_of sd) current_price t s uv
                       (recent_volume_of volumes)
                       (volume_impact_of uv (recent_volume_of volumes))
                       (volatility_of closes) drawdown
                       (liquidity_risk_of volumes uv) (bearish_freq_of closes)
                       (risk_level_of
                          (norm_volatility_of (volatility_of closes))
                          (norm_drawdown_of drawdown)
                          (norm_liquidity_of (liquidity_risk_of volumes uv))
                          (norm_bearish_of (bearish_freq_of closes)))
                       img)))
  \/ (exists e0 e,
        analyse_risk_body savefig sd t s uv = Raise e0
        /\ print ("Error in risk analysis: " ++ exn_msg e0) = Raise e
        /\ analyse_risk savefig print sd t s uv = Raise e).
Proof.
  pose proof (analyse_risk_cases savefig print sd t s uv) as Hc.
  destruct (analyse_risk_body savefig sd t s uv) as [d | e] eqn:Hb.
  - left. exists d. split; [exact Hc |].
    destruct (analyse_risk_body_ok _ _ _ _ _ _ Hb) as [[Hts ->] | Hrep].
    + left. eexists. split; [reflexivity |]. split; [reflexivity | discriminate].
    + right. exact Hrep.
  - destruct (print ("Error in risk analysis: " ++ exn_msg e)) as [[] | e'] eqn:Hp.
    + left. eexists. split; [exact Hc |]. left. eexists. split; [reflexivity |]. split.
      * intros Hts. unfold analyse_risk_body in Hb. rewrite Hts in Hb. discriminate.
      * intros e1 [= <-]. reflexivity.
    + right. exists e, e'. split; [reflexivity |]. split; [exact Hp | exact Hc].
Qed.

(** The same for a call that has returned. *)
Lemma analyse_risk_returned savefig print sd t s uv d0 :
  analyse_risk savefig print sd t s uv = Ok d0 ->
  exists d,
    analyse_risk savefig print sd t s uv = Ok d
    /\ ((exists msg, d = [("error", VStr msg)]
         /\ (time_series sd = [] -> msg = "No time series data available")
         /\ (forall e, analyse_risk_body savefig sd t s uv = Raise e ->
             msg = "Error in risk analysis: " ++ exn_msg e))
        \/ (exists current_price closes volumes drawdown img,
              time_series sd <> []
              /\ float_of (last (map close (values (sort_index (time_series sd))))
                                (Text_bad "")) = Ok current_price
              /\ astype_float (map close (values (sort_index (time_series sd))))
                 = Ok closes
              /\ astype_float (map volume (values (sort_index (time_series sd))))
                 = Ok volumes
              /\ drawdown_of current_price s = Ok drawdown
              /\ savefig (radar_figure (symbol_of sd) current_price t s uv
                      (volume_impact_of uv (recent_volume_of volumes))
                      (norm_volatility_of (volatility_of closes))
                      (norm_drawdown_of drawdown)
                      (norm_liquidity_of (liquidity_risk_of volumes uv))
                      (norm_bearish_of (bearish_freq_of closes)))
                 = Ok img
              /\ d = risk_report (symbol_of sd) current_price t s uv
                       (recent_volume_of volumes)
                       (volume_impact_of uv (recent_volume_of volumes))
                       (volatility_of closes) drawdown
                       (liquidity_risk_of volumes uv) (bearish_freq_of closes)
                       (risk_level_of
                          (norm_volatility_of (volatility_of closes))
                          (norm_drawdown_of drawdown)
                          (norm_liquidity_of (liquidity_risk_of volumes uv))
                          (norm_bearish_of (bearish_freq_of closes)))
                       img)).
Proof.
  intros H0.
  destruct (analyse_risk_total savefig print sd t s uv) as [H | (e0 & e & _ & _ & H)].
  - exact H.
  - rewrite H in H0. discriminate.
Qed.

(** ** C10: analyse_risk at its interface *)

(** C10.  [analyse_risk] is not total at its interface: the handler prints
    the message before it returns the error dictionary, outside any [try],
    so when the body raises and that [print] raises in its turn, the
    exception of [print] reaches the caller and no dictionary is returned. *)
Theorem C10_failed_print_reaches_the_caller
    (savefig : figure -> res string) (print : string -> res unit)
    (sd : stock_data)
    (target_selling_price stop_loss : num) (user_volume : option num) (e0 e : exn) :
  analyse_risk_body savefig sd target_selling_price stop_loss user_volume = Raise e0 ->
  print ("Error in risk analysis: " ++ exn_msg e0) = Raise e ->
  analyse_risk savefig print sd target_selling_price stop_loss user_volume = Raise e.
Proof.
  intros Hbody Hprint.
  pose proof (analyse_risk_cases savefig print sd target_selling_price stop_loss
                user_volume) as Hc.
  rewrite Hbody in Hc. rewrite Hc, Hprint. reflexivity.
Qed.

Lemma C10_failed_print_reaches_the_caller_witness :
  analyse_risk Samples.blank_chart Samples.closed_stdout Samples.unpriced
    (Fin 120) (Fin 95) (Some (Fin 10))
  = Raise (mk_exn ValueError "I/O operation on closed file.").
Proof.
  apply (C10_failed_print_reaches_the_caller Samples.blank_chart
           Samples.closed_stdout Samples.unpriced (Fin 120) (Fin 95) (Some (Fin 10))
           (mk_exn ValueError "could not convert string to float: 'n/a'")).
  - reflexivity.
  - reflexivity.
Defined.

(** ** C9: the composite risk level *)

(** C9.  Whenever [analyse_risk] returns a report, its risk level is read
    off the arithmetic average of the four normalized scores of the raw
    values it reports: HIGH if the average is greater than 0.7, MEDIUM if it
    is greater than 0.4, LOW otherwise. *)
Theorem C9_risk_level_from_average
    (savefig : figure -> res string) (print : string -> res unit)
    (sd : stock_data)
    (target_selling_price stop_loss : num) (user_volume : option num) (d : dict) :
  analyse_risk savefig print sd target_selling_price stop_loss user_volume = Ok d ->
  dict_in "error" d = false ->
  exists volatility drawdown liquidity_risk bearish_freq,
    dict_get2 "risk_analysis" "volatility" d = Some (VNum volatility)
    /\ dict_get2 "risk_analysis" "drawdown_risk" d = Some (VNum drawdown)
    /\ dict_get2 "risk_analysis" "liquidity_risk" d = Some (VNum liquidity_risk)
    /\ dict_get2 "risk_analysis" "bearish_frequency" d = Some (VNum bearish_freq)
    /\ let average :=
         ((norm_volatility_of volatility + norm_drawdown_of drawdown
           + norm_liquidity_of liquidity_risk + norm_bearish_of bearish_freq)
          / Fin 4)%num in
       dict_get2 "risk_analysis" "risk_level" d
       = Some (VStr (if (average >? Fin 0.7)%num then "HIGH"
                     else if (average >? Fin 0.4)%num then "MEDIUM"
                     else "LOW")).
Proof.
  intros Hd Herr.
  destruct (analyse_risk_returned savefig print sd target_selling_price stop_loss user_volume _ Hd)
    as (d' & Hd' & Hshape).
  rewrite Hd in Hd'. injection Hd' as <-.
  destruct Hshape as [(msg & -> & _) | Hrep]; [discriminate |].
  destruct Hrep as (cp & closes & volumes & dd & img & _ & _ & _ & _ & _ & Hfig & ->).
  exists (volatility_of closes), dd, (liquidity_risk_of volumes user_volume),
    (bearish_freq_of closes).
  repeat split.
Qed.

Lemma C9_risk_level_from_average_witness :
  exists d,
    analyse_risk Samples.blank_chart Samples.stdout Samples.rising (Fin 300) (Fin 95)
      (Some (Fin 0)) = Ok d
    /\ dict_get2 "risk_analysis" "risk_level" d = Some (VStr "MEDIUM").
Proof.
  eexists. split; [vm_compute; reflexivity |].
  destruct (C9_risk_level_from_average Samples.blank_chart Samples.stdout Samples.rising
              (Fin 300) (Fin 95) (Some (Fin 0)) _ ltac:(vm_compute; reflexivity)
              ltac:(vm_compute; reflexivity))
    as (vol & dd & liq & bf & Hvol & Hdd & Hliq & Hbf & Hlvl).
  vm_compute in Hvol, Hdd, Hliq, Hbf.
  injection Hvol as <-. injection Hdd as <-. injection Hliq as <-. injection Hbf as <-.
  rewrite Hlvl. vm_compute. reflexivity.
Defined.

(** ** C2: the normalized scores *)

(** C2 (as stated, refuted).  On the well-formed two-bar series 100, 101
    there is a single daily return, its sample standard deviation is nan,
    and so is the normalized volatility: it is not at most 1.0. *)
Lemma C2_two_bars_norm_volatility_is_nan :
  exists closes d,
    astype_float (map close (values (sort_index (time_series Samples.two_bars))))
    = Ok closes
    /\ analyse_risk Samples.blank_chart Samples.stdout Samples.two_bars (Fin 140) (Fin 95)
         (Some (Fin 0)) = Ok d
    /\ dict_get2 "risk_analysis" "volatility" d = Some (VNum (volatility_of closes))
    /\ is_nan (norm_volatility_of (volatility_of closes)) = true
    /\ (norm_volatility_of (volatility_of closes) <=? Fin 1.0)%num = false.
Proof.
  do 2 eexists. split; [vm_compute; reflexivity |].
  split; [vm_compute; reflexivity |]. repeat split.
Qed.

(** C2 (amended).  Whenever [analyse_risk] returns a report, the chart was
    drawn from four normalized scores, each the [min(raw/cap, 1.0)] of the
    raw value in the report, with caps 0.50 (volatility), 0.30 (drawdown),
    0.70 (liquidity) and 0.30 (bearish): a normalized score is nan exactly
    when its raw value is nan and at most 1.0 otherwise, it equals raw/cap
    whenever raw/cap < 1, and it is never floored at 0: a negative raw value
    gives the negative value raw/cap. *)
Theorem C2_normalized_scores
    (savefig : figure -> res string) (print : string -> res unit)
    (sd : stock_data)
    (target_selling_price stop_loss : num) (user_volume : option num) (d : dict) :
  analyse_risk savefig print sd target_selling_price stop_loss user_volume = Ok d ->
  dict_in "error" d = false ->
  exists volatility drawdown liquidity_risk bearish_freq fig img,
    dict_get2 "risk_analysis" "volatility" d = Some (VNum volatility)
    /\ dict_get2 "risk_analysis" "drawdown_risk" d = Some (VNum drawdown)
    /\ dict_get2 "risk_analysis" "liquidity_risk" d = Some (VNum liquidity_risk)
    /\ dict_get2 "risk_analysis" "bearish_frequency" d = Some (VNum bearish_freq)
    /\ savefig fig = Ok img
    /\ dict_get "plot" d = Some (VStr img)
    /\ exists norm_volatility norm_drawdown norm_liquidity norm_bearish,
         fig_values fig
         = [norm_volatility; norm_drawdown; norm_liquidity; norm_bearish; norm_volatility]
         /\ norm_spec volatility 0.5 norm_volatility
         /\ norm_spec drawdown 0.3 norm_drawdown
         /\ norm_spec liquidity_risk 0.7 norm_liquidity
         /\ norm_spec bearish_freq 0.3 norm_bearish.
Proof.
  intros Hd Herr.
  destruct (analyse_risk_returned savefig print sd target_selling_price stop_loss user_volume _ Hd)
    as (d' & Hd' & Hshape).
  rewrite Hd in Hd'. injection Hd' as <-.
  destruct Hshape as [(msg & -> & _) | Hrep]; [discriminate |].
  destruct Hrep as (cp & closes & volumes & dd & img & _ & _ & _ & _ & _ & Hfig & ->).
  exists (volatility_of closes), dd, (liquidity_risk_of volumes user_volume),
    (bearish_freq_of closes).
  eexists. exists img.
  do 4 (split; [reflexivity |]). split; [exact Hfig |]. split; [reflexivity |].
  do 4 eexists. split; [reflexivity |].
  unfold norm_volatility_of, norm_drawdown_of, norm_liquidity_of, norm_bearish_of.
  split; [| split; [| split]]; apply norm_spec_py_min; reflexivity.
Qed.

Lemma C2_normalized_scores_witness :
  exists d norm_drawdown,
    analyse_risk Samples.blank_chart Samples.stdout Samples.rising (Fin 300) (Fin 240) (Some (Fin 0))
    = Ok d
    /\ norm_spec (Fin (216 + - (240)) / Fin 216)%num 0.3 norm_drawdown
    /\ (norm_drawdown <? zero)%num = true.
Proof.
  destruct (C2_normalized_scores Samples.blank_chart Samples.stdout Samples.rising
              (Fin 300) (Fin 240) (Some (Fin 0)) _
              ltac:(vm_compute; reflexivity) ltac:(vm_compute; reflexivity))
    as (vol & dd & liq & bf & fig & img & _ & Hdd & _ & _ & _ & _
        & nv & nd & nl & nb & _ & _ & Hnd & _ & _).
  vm_compute in Hdd. injection Hdd as <-.
  eexists. exists nd. split; [vm_compute; reflexivity |]. split; [exact Hnd |].
  apply Hnd. vm_compute. reflexivity.
Defined.

(** ** C3: the empty series and the propagation of errors *)

(** C3.  An empty time series makes [analyse_risk] return the error
    dictionary "No time series data available", and whenever [analyse_risk]
    returns a dictionary with an "error" key, [calculate_risk_reward]
    returns that very dictionary: nothing is raised, no trial is run, and no
    "reward_analysis" entry is attached. *)
Theorem C3_errors_short_circuit
    (savefig : figure -> res string) (print : string -> res unit)
    (sd : stock_data)
    (target_price stop_loss : num) (user_volume : option num)
    (holding_period_days : Z) (risk_free_rate : num) (g : rng) :
  (time_series sd = [] ->
   analyse_risk savefig print sd target_price stop_loss user_volume
   = Ok [("error", VStr "No time series data available")]
   /\ calculate_risk_reward savefig print sd target_price stop_loss user_volume
        holding_period_days risk_free_rate g
      = (Ok [("error", VStr "No time series data available")], g))
  /\ (forall d,
        analyse_risk savefig print sd target_price stop_loss user_volume = Ok d ->
        dict_in "error" d = true ->
        calculate_risk_reward savefig print sd target_price stop_loss user_volume
          holding_period_days risk_free_rate g
        = (Ok d, g)
        /\ dict_in "reward_analysis" d = false).
Proof.
  assert (Hprop : forall d,
            analyse_risk savefig print sd target_price stop_loss user_volume = Ok d ->
            dict_in "error" d = true ->
            calculate_risk_reward savefig print sd target_price stop_loss user_volume
              holding_period_days risk_free_rate g
            = (Ok d, g)
            /\ dict_in "reward_analysis" d = false).
  { intros d Hd Herr. split.
    - unfold calculate_risk_reward, M_bind, M_lift, M_ret. rewrite Hd, Herr. reflexivity.
    - destruct (analyse_risk_returned savefig print sd target_price stop_loss user_volume _ Hd)
        as (d' & Hd' & Hshape).
      rewrite Hd in Hd'. injection Hd' as <-.
      destruct Hshape as [(msg & -> & _) | Hrep]; [reflexivity |].
      destruct Hrep as (cp & closes & volumes & dd & img & _ & _ & _ & _ & _ & Hfig & ->).
      discriminate. }
  split; [| exact Hprop].
  intros Hts.
  assert (Ha : analyse_risk savefig print sd target_price stop_loss user_volume
               = Ok [("error", VStr "No time series data available")]).
  { unfold analyse_risk, analyse_risk_body. rewrite Hts. reflexivity. }
  split; [exact Ha |]. now apply Hprop.
Qed.

Lemma C3_errors_short_circuit_witness :
  calculate_risk_reward Samples.blank_chart Samples.stdout (mk_stock_data [] None)
    (Fin 140) (Fin 95) (Some (Fin 0)) 30 (Fin 0.04) (seed Samples.zero_stream)
  = (Ok [("error", VStr "No time series data available")], seed Samples.zero_stream)
  /\ calculate_risk_reward Samples.broken_chart Samples.stdout Samples.rising
       (Fin 140) (Fin 95) (Some (Fin 0)) 30 (Fin 0.04) (seed Samples.zero_stream)
     = (Ok [("error", VStr "Error in risk analysis: no display")],
        seed Samples.zero_stream).
Proof.
  split.
  - exact (proj2 (proj1 (C3_errors_short_circuit Samples.blank_chart Samples.stdout
                           (mk_stock_data [] None) (Fin 140) (Fin 95) (Some (Fin 0))
                           30 (Fin 0.04) (seed Samples.zero_stream))
                        eq_refl)).
  - refine (proj1 (proj2 (C3_errors_short_circuit Samples.broken_chart Samples.stdout
                            Samples.rising (Fin 140) (Fin 95) (Some (Fin 0))
                            30 (Fin 0.04) (seed Samples.zero_stream))
                         _ _ _)).
    + vm_compute. reflexivity.
    + reflexivity.
Defined.

(** ** C5: the neutral probability *)

(** C5.  When the lookback window holds fewer than 5 daily returns (an
    empty series included), the simulator returns exactly 0.5 and runs no
    trial: the generator is left where it was. *)
Theorem C5_neutral_probability_without_trials
    (sd : stock_data) (entry_price target_price stop_loss : num)
    (n_simulations lookback_days : Z) (g : rng) (recent_returns : list num) :
  recent_returns_of (time_series sd) lookback_days = Ok recent_returns ->
  (List.length recent_returns < 5)%nat ->
  estimate_success_probability sd entry_price target_price stop_loss
    n_simulations lookback_days g
  = (Ok (Fin 0.5), g).
Proof.
  intros Hrr Hlen. unfold estimate_success_probability.
  destruct (time_series sd) as [| r rows]; [reflexivity |].
  unfold M_bind, M_lift. rewrite Hrr.
  apply Nat.ltb_lt in Hlen. rewrite Hlen. reflexivity.
Qed.

Lemma C5_neutral_probability_without_trials_witness :
  estimate_success_probability Samples.two_bars (Fin 101) (Fin 140) (Fin 95) 1000 60
    (seed Samples.zero_stream)
  = (Ok (Fin 0.5), seed Samples.zero_stream).
Proof.
  apply (C5_neutral_probability_without_trials Samples.two_bars (Fin 101) (Fin 140)
           (Fin 95) 1000 60 (seed Samples.zero_stream) [Fin ((101 # 100) + - (1))]).
  - vm_compute. reflexivity.
  - cbn. lia.
Defined.

(** ** C6: the user's volume and the raw liquidity risk *)

(** With a base risk that is not negative (recent average volume at most
    the overall average) a larger order above the threshold never lowers the
    raw liquidity risk. *)
Lemma liquidity_risk_monotone_nonneg_base (volumes : list num) (r a u1 u2 : Q) :
  recent_volume_of volumes = Fin r -> series_mean volumes = Fin a ->
  0 < r -> r <= a -> 0.05 < u1 / r -> u1 <= u2 ->
  (liquidity_risk_of volumes (Some (Fin u1))
   <=? liquidity_risk_of volumes (Some (Fin u2)))%num = true.
Proof.
  intros Hr Ha Hr0 Hra Hu1 Hu.
  unfold liquidity_risk_of. rewrite Hr, Ha.
  assert (Ea : Qeq_bool a 0 = false).
  { destruct (Qeq_bool a 0) eqn:E; [apply Qeq_bool_iff in E; lra | reflexivity]. }
  assert (Er : Qeq_bool r 0 = false).
  { destruct (Qeq_bool r 0) eqn:E; [apply Qeq_bool_iff in E; lra | reflexivity]. }
  assert (Hu12 : u1 / r <= u2 / r).
  { apply Qmult_le_compat_r; [exact Hu |]. apply Qlt_le_weak, Qinv_lt_0_compat, Hr0. }
  assert (Hb : 0 <= 1 + - (r / a)).
  { assert (r / a <= 1) by (apply Qle_shift_div_r; lra). lra. }
  unfold gtb, one. cbn. rewrite Ea, Er. cbn.
  destruct (Qcompare_spec 0.05 (u1 / r)); try lra.
  destruct (Qcompare_spec 0.05 (u2 / r)); try lra.
  cbn.
  destruct (Qcompare_spec ((1 + - (r / a)) * (1 + u1 / r)) ((1 + - (r / a)) * (1 + u2 / r)));
    try reflexivity.
  exfalso. nra.
Qed.

(** With a negative base risk (recent average volume above the overall
    average) a larger order above the threshold strictly lowers it. *)
Lemma liquidity_risk_decreases_negative_base (volumes : list num) (r a u1 u2 : Q) :
  recent_volume_of volumes = Fin r -> series_mean volumes = Fin a ->
  0 < a -> a < r -> 0.05 < u1 / r -> u1 < u2 ->
  (liquidity_risk_of volumes (Some (Fin u2))
   <? liquidity_risk_of volumes (Some (Fin u1)))%num = true.
Proof.
  intros Hr Ha Ha0 Hra Hu1 Hu.
  unfold liquidity_risk_of. rewrite Hr, Ha.
  assert (Ea : Qeq_bool a 0 = false).
  { destruct (Qeq_bool a 0) eqn:E; [apply Qeq_bool_iff in E; lra | reflexivity]. }
  assert (Er : Qeq_bool r 0 = false).
  { destruct (Qeq_bool r 0) eqn:E; [apply Qeq_bool_iff in E; lra | reflexivity]. }
  assert (Hu12 : u1 / r < u2 / r).
  { apply Qmult_lt_compat_r; [| exact Hu]. apply Qinv_lt_0_compat. lra. }
  assert (Hb : 1 + - (r / a) < 0).
  { assert (1 < r / a) by (apply Qlt_shift_div_l; lra). lra. }
  unfold gtb, one. cbn. rewrite Ea, Er. cbn.
  destruct (Qcompare_spec 0.05 (u1 / r)); try lra.
  destruct (Qcompare_spec 0.05 (u2 / r)); try lra.
  cbn.
  destruct (Qcompare_spec ((1 + - (r / a)) * (1 + u2 / r)) ((1 + - (r / a)) * (1 + u1 / r)));
    try reflexivity; exfalso; nra.
Qed.

(** C6 (the code departs from the claim).  On the well-formed series
    [Samples.busy] the twenty most recent volumes average 1000 and the whole
    series less, so the base liquidity risk is negative (-1/41).  User
    volumes 100 and 1000 both exceed 5% of the recent average, and the
    larger one gets the smaller raw liquidity risk: -2/41 against
    -11/410. *)
Theorem C6_larger_order_lowers_liquidity_risk :
  astype_float (map volume (values (sort_index (time_series Samples.busy))))
  = Ok Samples.busy_volumes
  /\ (Fin 100 / recent_volume_of Samples.busy_volumes >? Fin 0.05)%num = true
  /\ (Fin 1000 / recent_volume_of Samples.busy_volumes >? Fin 0.05)%num = true
  /\ eqb (liquidity_risk_of Samples.busy_volumes (Some (Fin 100))) (Fin (-11 # 410)) = true
  /\ eqb (liquidity_risk_of Samples.busy_volumes (Some (Fin 1000))) (Fin (-2 # 41)) = true
  /\ (liquidity_risk_of Samples.busy_volumes (Some (Fin 1000))
      <? liquidity_risk_of Samples.busy_volumes (Some (Fin 100)))%num = true
  /\ (exists d100 d1000 l100 l1000,
        analyse_risk Samples.blank_chart Samples.stdout Samples.busy (Fin 140) (Fin 95)
          (Some (Fin 100)) = Ok d100
        /\ analyse_risk Samples.blank_chart Samples.stdout Samples.busy (Fin 140) (Fin 95)
             (Some (Fin 1000)) = Ok d1000
        /\ dict_get2 "risk_analysis" "liquidity_risk" d100 = Some (VNum l100)
        /\ dict_get2 "risk_analysis" "liquidity_risk" d1000 = Some (VNum l1000)
        /\ (l1000 <? l100)%num = true).
Proof.
  repeat (split; [vm_compute; reflexivity |]).
  do 4 eexists.
  split; [vm_compute; reflexivity |]. split; [vm_compute; reflexivity |].
  split; [vm_compute; reflexivity |]. split; [vm_compute; reflexivity |].
  vm_compute. reflexivity.
Qed.

(** ** C7: series with fewer than two bars *)

Lemma volatility_of_single (c : num) : volatility_of [c] = NaN.
Proof. reflexivity. Qed.

Lemma risk_level_of_nan (nd nl nb : num) :
  risk_level_of (norm_volatility_of NaN) nd nl nb = "LOW".
Proof. reflexivity. Qed.

(** C7 (as stated, refuted).  On a series of one bar [analyse_risk] raises
    nothing and returns a report without an "error" key. *)
Lemma C7_one_bar_is_analysed :
  exists d,
    analyse_risk Samples.blank_chart Samples.stdout Samples.one_bar (Fin 140) (Fin 95) (Some (Fin 0))
    = Ok d
    /\ dict_in "error" d = false
    /\ dict_get2 "risk_analysis" "volatility" d = Some (VNum NaN).
Proof. eexists. split; [vm_compute; reflexivity |]. split; reflexivity. Qed.

(** C7 (amended).  There is no minimum-length guard: for a series of exactly
    one bar whose fields parse and whose close is not zero, and a chart that
    renders, [analyse_risk] returns a complete report, with a nan volatility
    and the risk level LOW. *)
Theorem C7_single_bar_report
    (savefig : figure -> res string) (print : string -> res unit) (date : string) (c v : num)
    (symbol : option string) (target_selling_price stop_loss : num)
    (user_volume : option num) :
  is_zero c = false ->
  (forall f, exists img, savefig f = Ok img) ->
  exists d,
    analyse_risk savefig print
      (mk_stock_data [(date, mk_bar (Text_num c) (Text_num v))] symbol)
      target_selling_price stop_loss user_volume
    = Ok d
    /\ dict_in "error" d = false
    /\ forallb (fun k => dict_in k d) report_keys = true
    /\ dict_get "current_price" d = Some (VNum c)
    /\ dict_get2 "risk_analysis" "volatility" d = Some (VNum NaN)
    /\ dict_get2 "risk_analysis" "risk_level" d = Some (VStr "LOW").
Proof.
  intros Hc Hfig.
  unfold analyse_risk, analyse_risk_body.
  cbn [time_series sort_index insert_row values map snd last close volume
       float_of astype_float res_bind].
  unfold drawdown_of, py_div. rewrite Hc. cbn [res_bind].
  rewrite volatility_of_single.
  match goal with
  | |- context [savefig ?f] => destruct (Hfig f) as [img ->]
  end.
  cbn [res_bind try_except]. eexists. split; [reflexivity |].
  rewrite risk_level_of_nan. repeat split.
Qed.

Lemma C7_single_bar_report_witness :
  exists d,
    analyse_risk Samples.blank_chart Samples.stdout Samples.one_bar (Fin 140) (Fin 95) (Some (Fin 0))
    = Ok d
    /\ dict_get2 "risk_analysis" "risk_level" d = Some (VStr "LOW").
Proof.
  destruct (C7_single_bar_report Samples.blank_chart Samples.stdout "2024-01-01" (Fin 100) (Fin 1000)
              (Some "IBM") (Fin 140) (Fin 95) (Some (Fin 0))
              ltac:(reflexivity)
              (fun f => ex_intro _ "" eq_refl))
    as (d & Hd & _ & _ & _ & _ & Hlvl).
  exists d. split; [exact Hd | exact Hlvl].
Defined.

(** ** C4: division by zero in the reward metrics *)

Lemma py_int_truediv_ok (a b : Z) :
  b <> 0%Z -> py_int_truediv a b = Ok (Fin ((a # 1) / (b # 1))).
Proof.
  intros Hb. unfold py_int_truediv.
  destruct (b =? 0)%Z eqn:E; [apply Z.eqb_eq in E; contradiction |].
  unfold div. destruct (Qeq_bool (b # 1) 0) eqn:E0; [| reflexivity].
  apply Qeq_bool_iff in E0. unfold Qeq in E0. cbn in E0. lia.
Qed.

(** The simulator never returns an infinity or nan. *)
Lemma estimate_success_probability_finite sd e t s n lb g p g' :
  estimate_success_probability sd e t s n lb g = (Ok p, g') -> is_finite p = true.
Proof.
  unfold estimate_success_probability.
  destruct (time_series sd) as [| r rows]; [intros [= <- _]; reflexivity |].
  unfold M_bind, M_lift, M_ret.
  destruct (recent_returns_of (r :: rows) lb) as [rr |]; [| discriminate].
  destruct (List.length rr <? 5)%nat; [intros [= <- _]; reflexivity |].
  destruct (simulate (Z.to_nat n) rr e t s 0 g) as [hits g1].
  destruct (Z.eq_dec n 0) as [-> | Hn]; [discriminate |].
  rewrite (py_int_truediv_ok hits n Hn). intros [= <- _]. reflexivity.
Qed.

Lemma zero_denominator_of_sure_success (p s cp : num) :
  eqb p one = true -> is_finite s = true -> is_finite cp = true ->
  is_zero cp = false ->
  is_zero ((one - p) * abs (s / cp - one))%num = true.
Proof.
  intros Hp Hs Hcp Hz.
  destruct p as [qp | | |]; try discriminate.
  destruct s as [qs | | |]; try discriminate.
  destruct cp as [qc | | |]; try discriminate.
  cbn in *. rewrite Hz. cbn. apply Qeq_bool_iff in Hp. apply Qeq_bool_iff.
  assert (H0 : 1 + - qp == 0) by lra. rewrite H0. ring.
Qed.

Lemma zero_denominator_of_stop_at_price (p s cp : num) :
  is_finite p = true -> eqb s cp = true -> is_finite cp = true ->
  is_zero cp = false ->
  is_zero ((one - p) * abs (s / cp - one))%num = true.
Proof.
  intros Hp Hs Hcp Hz.
  destruct p as [qp | | |]; try discriminate.
  destruct cp as [qc | | |]; try discriminate.
  destruct s as [qs | | |]; try discriminate.
  cbn in *. rewrite Hz. cbn. apply Qeq_bool_iff in Hs. apply Qeq_bool_iff.
  pose proof (Qeq_bool_false_neq _ _ Hz) as Hqc.
  assert (H0 : qs / qc + - (1) == 0) by (rewrite Hs; field; exact Hqc).
  rewrite H0. change (Qabs 0) with 0. ring.
Qed.

(** C4 (as stated, refuted).  On the constant series [Samples.flat] the
    annualized volatility is exactly 0 and [calculate_risk_reward] returns
    no result: the [ZeroDivisionError] of the Sharpe ratio reaches the
    caller. *)
Lemma C4_flat_series_raises :
  (exists d volatility,
     analyse_risk Samples.blank_chart Samples.stdout Samples.flat (Fin 140) (Fin 95) (Some (Fin 0))
     = Ok d
     /\ dict_get2 "risk_analysis" "volatility" d = Some (VNum volatility)
     /\ is_zero volatility = true)
  /\ fst (calculate_risk_reward Samples.blank_chart Samples.stdout Samples.flat (Fin 140) (Fin 95)
            (Some (Fin 0)) 30 (Fin 0.04) (seed Samples.zero_stream))
     = Raise (mk_exn ZeroDivisionError "float division by zero").
Proof.
  split; [do 2 eexists; split; [| split] |]; vm_compute; reflexivity.
Qed.

(** C4 (amended).  The reward metrics have no sentinel and no flag.  When
    [analyse_risk] has returned a report (holding period not 0):
    if the reported volatility is exactly 0, [calculate_risk_reward] raises
    [ZeroDivisionError] at the Sharpe ratio, before any trial is run;
    otherwise, if the denominator (1 - p) * |stop/current - 1| of the
    risk/reward ratio is exactly 0, it raises [ZeroDivisionError] there, and
    that denominator is 0 whenever the success probability is 1 (stop and
    current price finite) and whenever the stop equals a finite current
    price.  In each case the caller gets the exception and no report. *)
Theorem C4_zero_division_reaches_the_caller
    (savefig : figure -> res string) (print : string -> res unit)
    (sd : stock_data)
    (target_price stop_loss : num) (user_volume : option num)
    (holding_period_days : Z) (risk_free_rate : num) (g : rng)
    (d : dict) (current_price volatility : num) :
  analyse_risk savefig print sd target_price stop_loss user_volume = Ok d ->
  dict_in "error" d = false ->
  dict_get "current_price" d = Some (VNum current_price) ->
  dict_get2 "risk_analysis" "volatility" d = Some (VNum volatility) ->
  holding_period_days <> 0%Z ->
  let run :=
    calculate_risk_reward savefig print sd target_price stop_loss user_volume
      holding_period_days risk_free_rate g in
  let zero_division := Raise (mk_exn ZeroDivisionError "float division by zero") in
  (is_zero volatility = true -> run = (zero_division, g))
  /\ (is_zero volatility = false ->
      forall p g',
        estimate_success_probability sd current_price target_price stop_loss 1000 60 g
        = (Ok p, g') ->
        (is_zero ((one - p) * abs (stop_loss / current_price - one))%num = true ->
         run = (zero_division, g'))
        /\ (eqb p one = true -> is_finite stop_loss = true ->
            is_finite current_price = true -> run = (zero_division, g'))
        /\ (eqb stop_loss current_price = true -> is_finite current_price = true ->
            run = (zero_division, g'))).
Proof.
  intros Hd Herr Hcp Hvol Hh run zero_division.
  destruct (analyse_risk_returned savefig print sd target_price stop_loss user_volume _ Hd)
    as (d' & Hd' & Hshape).
  rewrite Hd in Hd'. injection Hd' as <-.
  destruct Hshape as [(msg & -> & _) | Hrep]; [discriminate |].
  destruct Hrep as (cp & closes & volumes & dd & img & _ & _ & _ & _ & Hdd & _ & ->).
  cbn in Hcp, Hvol. injection Hcp as ->. injection Hvol as Hv.
  assert (Hz : is_zero current_price = false).
  { unfold drawdown_of, py_div in Hdd.
    destruct (is_zero current_price); [discriminate | reflexivity]. }
  assert (Hrun : run =
            match py_div (((target_price / current_price - one)
                           * Fin ((252 # 1) / (holding_period_days # 1)))
                          - risk_free_rate)%num volatility with
            | Raise e => (Raise e, g)
            | Ok sharpe_ratio =>
                match estimate_success_probability sd current_price target_price
                        stop_loss 1000 60 g with
                | (Raise e, g') => (Raise e, g')
                | (Ok p, g') =>
                    match py_div (p * (target_price / current_price - one))%num
                            ((one - p) * abs (stop_loss / current_price - one))%num with
                    | Raise e => (Raise e, g')
                    | Ok rr =>
                        (Ok (dict_set "reward_analysis"
                               (VDict
                                  [("sharpe_ratio", VNum sharpe_ratio);
                                   ("annualized_return_pct",
                                    VNum (((target_price / current_price - one)
                                           * Fin ((252 # 1) / (holding_period_days # 1)))
                                          * Fin 100)%num);
                                   ("risk_reward_ratio", VNum rr);
                                   ("success_probability", VNum p);
                                   ("rating", VStr (get_rating sharpe_ratio rr))])
                               (risk_report (symbol_of sd) current_price target_price
                                  stop_loss user_volume (recent_volume_of volumes)
                                  (volume_impact_of user_volume (recent_volume_of volumes))
                                  (volatility_of closes) dd
                                  (liquidity_risk_of volumes user_volume)
                                  (bearish_freq_of closes)
                                  (risk_level_of
                                     (norm_volatility_of (volatility_of closes))
                                     (norm_drawdown_of dd)
                                     (norm_liquidity_of
                                        (liquidity_risk_of volumes user_volume))
                                     (norm_bearish_of (bearish_freq_of closes)))
                                  img)), g')
                    end
                end
            end).
  { subst run. unfold calculate_risk_reward, M_bind, M_lift, M_ret. rewrite Hd.
    cbn [risk_report dict_in dict_get String.eqb Ascii.eqb Bool.eqb subscript as_num
         as_dict res_bind].
    rewrite (py_int_truediv_ok 252 holding_period_days Hh).
    subst volatility. unfold py_div. rewrite !Hz. cbn [res_bind].
    destruct (is_zero (volatility_of closes)); [reflexivity |].
    destruct (estimate_success_probability sd current_price target_price stop_loss
                1000 60 g) as [[p |] g']; [| reflexivity].
    cbn [res_bind].
    match goal with
    | |- context [is_zero ?x] => destruct (is_zero x); reflexivity
    end. }
  split.
  - intros Hvz. rewrite Hrun. unfold py_div. rewrite Hvz. reflexivity.
  - intros Hvz p g' Hest.
    assert (Hden : is_zero ((one - p) * abs (stop_loss / current_price - one))%num = true ->
                   run = (zero_division, g')).
    { intros Hden. rewrite Hrun. unfold py_div at 1. rewrite Hvz, Hest.
      unfold py_div. rewrite Hden. reflexivity. }
    split; [exact Hden |]. split.
    + intros Hp Hs Hfin. apply Hden.
      now apply zero_denominator_of_sure_success.
    + intros Hs Hfin. apply Hden.
      apply zero_denominator_of_stop_at_price; try assumption.
      exact (estimate_success_probability_finite _ _ _ _ _ _ _ _ _ Hest).
Qed.

Lemma C4_zero_division_reaches_the_caller_witness :
  calculate_risk_reward Samples.blank_chart Samples.stdout Samples.flat (Fin 140) (Fin 95)
    (Some (Fin 0)) 30 (Fin 0.04) (seed Samples.zero_stream)
  = (Raise (mk_exn ZeroDivisionError "float division by zero"), seed Samples.zero_stream)
  /\ fst (calculate_risk_reward Samples.blank_chart Samples.stdout Samples.rising (Fin 300) (Fin 95)
            (Some (Fin 0)) 30 (Fin 0.04) (seed Samples.zero_stream))
     = Raise (mk_exn ZeroDivisionError "float division by zero").
Proof.
  split.
  - refine (proj1 (C4_zero_division_reaches_the_caller Samples.blank_chart Samples.stdout
                     Samples.flat (Fin 140) (Fin 95) (Some (Fin 0)) 30 (Fin 0.04)
                     (seed Samples.zero_stream) _ _ _ _ _ _ _ _) _).
    + vm_compute. reflexivity.
    + vm_compute. reflexivity.
    + vm_compute. reflexivity.
    + vm_compute. reflexivity.
    + discriminate.
    + vm_compute. reflexivity.
  - refine (f_equal fst
              (proj1 (proj2 (proj2 (C4_zero_division_reaches_the_caller
                                      Samples.blank_chart Samples.stdout Samples.rising (Fin 300)
                                      (Fin 95) (Some (Fin 0)) 30 (Fin 0.04)
                                      (seed Samples.zero_stream) _ _ _ _ _ _ _ _)
                                   _ _ _ _))
                     _ _ _)).
    + vm_compute. reflexivity.
    + vm_compute. reflexivity.
    + vm_compute. reflexivity.
    + vm_compute. reflexivity.
    + discriminate.
    + vm_compute. reflexivity.
    + vm_compute. reflexivity.
    + vm_compute. reflexivity.
    + vm_compute. reflexivity.
    + vm_compute. reflexivity.
Defined.

(** ** C1: the classification of a trial and the probability *)

Lemma existsb_Permutation {A} (f : A -> bool) (l l' : list A) :
  Permutation l l' -> existsb f l = existsb f l'.
Proof.
  induction 1 as [| x l l' _ IH | x y l | l l' l'' _ IH1 _ IH2]; cbn.
  - reflexivity.
  - now rewrite IH.
  - now destruct (f x), (f y).
  - now rewrite IH1.
Qed.

Lemma leb_nan_r (t : num) : (t <=? NaN)%num = false.
Proof. now destruct t. Qed.

(** The target test on the maximum of a path: no entry is nan and some
    entry reaches the target. *)
Lemma geb_fold_np_max2 (t : num) (s : list num) (x : num) :
  (fold_left np_max2 s x >=? t)%num
  = negb (existsb is_nan (x :: s)) && existsb (fun y => (y >=? t)%num) (x :: s).
Proof.
  revert x. induction s as [| y s IH]; intros x; cbn [fold_left].
  - cbn. unfold geb. rewrite !orb_false_r.
    destruct (is_nan x) eqn:Hx; [| reflexivity].
    destruct x; try discriminate. apply leb_nan_r.
  - rewrite IH. cbn [existsb]. rewrite is_nan_np_max2.
    destruct (is_nan x) eqn:Hx; [reflexivity |].
    destruct (is_nan y) eqn:Hy; [reflexivity |].
    unfold geb. rewrite (leb_np_max2 t x y Hx Hy). cbn.
    now rewrite orb_assoc.
Qed.

Lemma geb_np_max_Permutation (t : num) (p p' : list num) :
  Permutation p p' -> (np_max p >=? t)%num = (np_max p' >=? t)%num.
Proof.
  intros Hp. destruct p as [| x s], p' as [| x' s'].
  - reflexivity.
  - now apply Permutation_nil_cons in Hp.
  - apply Permutation_sym in Hp. now apply Permutation_nil_cons in Hp.
  - unfold np_max. rewrite !geb_fold_np_max2.
    now rewrite (existsb_Permutation is_nan _ _ Hp),
      (existsb_Permutation (fun y => (y >=? t)%num) _ _ Hp).
Qed.

Lemma trial_hits_spec (p : list num) (e t s : num) :
  trial_hits p e t s = if trial_success p e t s then 1%Z else 0%Z.
Proof.
  unfold trial_hits, trial_success.
  destruct (np_max p >=? t)%num; [reflexivity |].
  destruct (np_min p <=? s)%num; [reflexivity |].
  now destruct (last p NaN >? e)%num.
Qed.

Lemma length_choice (a : list num) (k : nat) (g : rng) :
  List.length (fst (choice a k g)) = k.
Proof.
  revert g. induction k as [| k IH]; intros g; cbn; [reflexivity |].
  specialize (IH (mk_rng (stream g) (N.succ (cursor g)))).
  destruct (choice a k _). cbn in *. now rewrite IH.
Qed.

Lemma length_cumprod_from (acc : num) (s : list num) :
  List.length (cumprod_from acc s) = List.length s.
Proof. revert acc. induction s as [| x s IH]; intros acc; cbn; [| rewrite IH]; reflexivity. Qed.

Lemma length_price_path_of (e : num) (rr : list num) :
  List.length (price_path_of e rr) = List.length rr.
Proof.
  unfold price_path_of, cumprod. rewrite length_map.
  destruct rr as [| r rr]; [reflexivity |].
  cbn. now rewrite length_cumprod_from, length_map.
Qed.

Lemma trial_paths_shape (n : nat) (rr : list num) (e : num) (g : rng) :
  List.length (trial_paths n rr e g) = n
  /\ Forall (fun p => List.length p = 30%nat) (trial_paths n rr e g).
Proof.
  revert g. induction n as [| n IH]; intros g.
  - split; [reflexivity | constructor].
  - cbn [trial_paths].
    pose proof (length_choice rr 30 g) as Hl.
    destruct (choice rr 30 g) as [r g1]. cbn [fst] in Hl.
    destruct (IH g1) as [IH1 IH2]. split.
    + cbn. now rewrite IH1.
    + constructor; [now rewrite length_price_path_of | exact IH2].
Qed.

(** The loop counts the successful trials. *)
Lemma simulate_counts (n : nat) (rr : list num) (e t s : num) (hits : Z) (g : rng) :
  fst (simulate n rr e t s hits g)
  = (hits + Z.of_nat (List.length (filter (fun p => trial_success p e t s)
                                          (trial_paths n rr e g))))%Z.
Proof.
  revert hits g. induction n as [| n IH]; intros hits g.
  - cbn. lia.
  - cbn [simulate trial_paths]. destruct (choice rr 30 g) as [r g1].
    rewrite IH, trial_hits_spec. cbn [filter].
    destruct (trial_success (price_path_of e r) e t s); cbn [List.length]; lia.
Qed.

Lemma filter_length_le {A} (f : A -> bool) (l : list A) :
  (List.length (filter f l) <= List.length l)%nat.
Proof.
  induction l as [| x l IH]; cbn; [lia |]. destruct (f x); cbn; lia.
Qed.

Lemma ratio_in_unit_interval (k n : Z) :
  (0 <= k <= n)%Z -> (0 < n)%Z -> 0 <= (k # 1) / (n # 1) <= 1.
Proof.
  intros Hk Hn.
  assert (Hq : 0 < n # 1) by (unfold Qlt; cbn; lia).
  split.
  - apply Qle_shift_div_l; [exact Hq |]. unfold Qle, Qmult. cbn [Qnum Qden]. lia.
  - apply Qle_shift_div_r; [exact Hq |]. unfold Qle, Qmult. cbn [Qnum Qden]. lia.
Qed.

(** C1 (as stated, refuted).  The outcome of a trial is not independent of
    the order of the sampled returns.  The thirty returns +100%, -50%,
    +100%, -50%, ... and the same returns started at -50% are permutations
    of each other; from the entry price 100 the first path reaches 200 and
    is a success for the target 150, the second never exceeds 100, never
    falls to the stop 10, ends at 100, and is a failure.  Fed to the
    simulator as the draws of one trial they give the probabilities 1
    and 0. *)
Lemma C1_order_of_sampled_returns_matters :
  Permutation Samples.up_first Samples.down_first
  /\ List.length Samples.up_first = 30%nat
  /\ trial_hits (price_path_of (Fin 100) Samples.up_first)
       (Fin 100) (Fin 150) (Fin 10) = 1%Z
  /\ trial_hits (price_path_of (Fin 100) Samples.down_first)
       (Fin 100) (Fin 150) (Fin 10) = 0%Z
  /\ fst (choice [Fin 1; Fin (-1 # 2)] 30 (seed Samples.flip_stream)) = Samples.up_first
  /\ fst (choice [Fin 1; Fin (-1 # 2)] 30 (mk_rng Samples.flip_stream 30))
     = Samples.down_first
  /\ fst (estimate_success_probability Samples.zigzag (Fin 100) (Fin 150) (Fin 10)
            1 60 (seed Samples.flip_stream)) = Ok (Fin (1 / 1))
  /\ fst (estimate_success_probability Samples.zigzag (Fin 100) (Fin 150) (Fin 10)
            1 60 (mk_rng Samples.flip_stream 30)) = Ok (Fin (0 / 1)).
Proof.
  split.
  - change Samples.up_first with (Fin 1 :: tl Samples.up_first).
    unfold Samples.down_first. apply Permutation_cons_append.
  - repeat split; vm_compute; reflexivity.
Qed.

(** C1 (amended).  For every run with at least 5 lookback returns and a
    positive number of trials, every trial has a path of 30 prices and is
    counted as a success exactly when the maximum of the path reaches or
    exceeds the target price (a test that does not depend on the order of
    the prices within the path, so neither on whether the stop was touched
    first) or else, when the minimum does not reach the stop loss, exactly
    when the final price strictly exceeds the entry price; the returned
    probability is the number of successful trials divided by the number of
    trials, and lies in [0, 1]. *)
Theorem C1_trial_classification_and_probability
    (sd : stock_data) (entry_price target_price stop_loss : num)
    (n_simulations lookback_days : Z) (g : rng) (recent_returns : list num) :
  recent_returns_of (time_series sd) lookback_days = Ok recent_returns ->
  (5 <= List.length recent_returns)%nat ->
  (0 < n_simulations)%Z ->
  let paths := trial_paths (Z.to_nat n_simulations) recent_returns entry_price g in
  let successes :=
    filter (fun p => trial_success p entry_price target_price stop_loss) paths in
  List.length paths = Z.to_nat n_simulations
  /\ Forall (fun p => List.length p = 30%nat) paths
  /\ (forall p,
        trial_hits p entry_price target_price stop_loss
        = if trial_success p entry_price target_price stop_loss then 1%Z else 0%Z)
  /\ (forall p p',
        Permutation p p' ->
        (np_max p >=? target_price)%num = (np_max p' >=? target_price)%num)
  /\ fst (estimate_success_probability sd entry_price target_price stop_loss
            n_simulations lookback_days g)
     = Ok (Fin ((Z.of_nat (List.length successes) # 1) / (n_simulations # 1)))
  /\ 0 <= (Z.of_nat (List.length successes) # 1) / (n_simulations # 1) <= 1.
Proof.
  intros Hrr Hlen Hn paths successes.
  destruct (trial_paths_shape (Z.to_nat n_simulations) recent_returns entry_price g)
    as [Hcount Hshape].
  split; [exact Hcount |]. split; [exact Hshape |].
  split; [intros p; apply trial_hits_spec |].
  split; [intros p p'; apply geb_np_max_Permutation |].
  split.
  - unfold estimate_success_probability.
    destruct (time_series sd) as [| r rows].
    + cbn in Hrr. injection Hrr as <-. exfalso.
      unfold slice_from in Hlen.
      destruct (- lookback_days <? 0)%Z; rewrite skipn_nil in Hlen; cbn in Hlen; lia.
    + unfold M_bind, M_lift. rewrite Hrr.
      apply Nat.ltb_ge in Hlen. rewrite Hlen.
      pose proof (simulate_counts (Z.to_nat n_simulations) recent_returns entry_price
                    target_price stop_loss 0%Z g) as Hsim.
      destruct (simulate (Z.to_nat n_simulations) recent_returns entry_price
                  target_price stop_loss 0 g) as [hits g1].
      cbn [fst] in *. rewrite Hsim, Z.add_0_l.
      apply py_int_truediv_ok. lia.
  - apply ratio_in_unit_interval; [| exact Hn].
    pose proof (filter_length_le
                  (fun p => trial_success p entry_price target_price stop_loss) paths).
    fold successes in H. unfold paths in H. rewrite Hcount in H. lia.
Qed.

Lemma C1_trial_classification_and_probability_witness :
  fst (estimate_success_probability Samples.zigzag (Fin 100) (Fin 150) (Fin 10)
         2 60 (seed Samples.flip_stream))
  = Ok (Fin ((1 # 1) / (2 # 1))).
Proof.
  destruct (C1_trial_classification_and_probability Samples.zigzag
              (Fin 100) (Fin 150) (Fin 10) 2 60 (seed Samples.flip_stream)
              [Fin (200 / 100 - 1); Fin (100 / 200 - 1); Fin (200 / 100 - 1);
               Fin (100 / 200 - 1); Fin (200 / 100 - 1); Fin (100 / 200 - 1)]
              ltac:(vm_compute; reflexivity) ltac:(cbn; lia) ltac:(lia))
    as (_ & _ & _ & _ & Hp & _).
  rewrite Hp. vm_compute. reflexivity.
Defined.

(** ** C8: the random source *)





(** * Further properties of the engine *)

(** ** sort_index: chronological order *)

Lemma ascii_compare_trans_le (a b c : Ascii.ascii) :
  Ascii.compare a b <> Gt -> Ascii.compare b c <> Gt -> Ascii.compare a c <> Gt.
Proof.
  unfold Ascii.compare.
  destruct (N.compare_spec (Ascii.N_of_ascii a) (Ascii.N_of_ascii b)),
    (N.compare_spec (Ascii.N_of_ascii b) (Ascii.N_of_ascii c)),
    (N.compare_spec (Ascii.N_of_ascii a) (Ascii.N_of_ascii c));
    intros; try congruence; lia.
Qed.

Lemma string_compare_trans_le (s1 s2 s3 : string) :
  String.compare s1 s2 <> Gt -> String.compare s2 s3 <> Gt ->
  String.compare s1 s3 <> Gt.
Proof.
  revert s2 s3. induction s1 as [| a s1 IH]; intros [| b s2] [| c s3]; cbn;
    try congruence.
  unfold Ascii.compare.
  destruct (N.compare_spec (Ascii.N_of_ascii a) (Ascii.N_of_ascii b)),
    (N.compare_spec (Ascii.N_of_ascii b) (Ascii.N_of_ascii c)),
    (N.compare_spec (Ascii.N_of_ascii a) (Ascii.N_of_ascii c));
    intros; try congruence; try lia.
  now apply (IH s2 s3).
Qed.

Lemma string_leb_trans (s1 s2 s3 : string) :
  String.leb s1 s2 = true -> String.leb s2 s3 = true -> String.leb s1 s3 = true.
Proof.
  unfold String.leb. intros H12 H23.
  pose proof (string_compare_trans_le s1 s2 s3) as H.
  destruct (String.compare s1 s2), (String.compare s2 s3), (String.compare s1 s3);
    try reflexivity; try discriminate; exfalso; apply H; congruence.
Qed.

Lemma key_le_trans {A} : Relations_1.Transitive (@key_le A).
Proof. intros x y z. unfold key_le. apply string_leb_trans. Qed.

Lemma insert_row_Permutation {A} (r : string * A) (rows : list (string * A)) :
  Permutation (r :: rows) (insert_row r rows).
Proof.
  induction rows as [| r' rows IH]; cbn; [reflexivity |].
  destruct (String.leb (fst r) (fst r')); [reflexivity |].
  rewrite perm_swap. now constructor.
Qed.

Lemma sort_index_Permutation {A} (rows : list (string * A)) :
  Permutation rows (sort_index rows).
Proof.
  induction rows as [| r rows IH]; cbn; [constructor |].
  rewrite <- insert_row_Permutation. now constructor.
Qed.

Lemma insert_row_Sorted {A} (r : string * A) (rows : list (string * A)) :
  Sorted key_le rows -> Sorted key_le (insert_row r rows).
Proof.
  induction 1 as [| r' rows Hs IH Hhd]; cbn.
  - repeat constructor.
  - destruct (String.leb (fst r) (fst r')) eqn:E.
    + repeat constructor; assumption.
    + constructor; [exact IH |].
      assert (Hr : key_le r' r).
      { unfold key_le. destruct (String.leb_total (fst r) (fst r')); congruence. }
      destruct Hhd as [| r'' rows' Hle]; cbn.
      * now constructor.
      * destruct (String.leb (fst r) (fst r'')); now constructor.
Qed.

Lemma sort_index_Sorted {A} (rows : list (string * A)) :
  Sorted key_le (sort_index rows).
Proof.
  induction rows as [| r rows IH]; cbn; [constructor | now apply insert_row_Sorted].
Qed.

(** Two chronological lists with the same rows and no repeated date are the
    same list. *)
Lemma sorted_rows_unique {A} (l1 l2 : list (string * A)) :
  StronglySorted key_le l1 -> StronglySorted key_le l2 ->
  Permutation l1 l2 -> NoDup (keys l1) -> l1 = l2.
Proof.
  revert l2. induction l1 as [| r1 l1 IH]; intros l2 H1 H2 Hp Hnd.
  - now apply Permutation_nil in Hp.
  - destruct l2 as [| r2 l2]; [now apply Permutation_sym, Permutation_nil_cons in Hp |].
    assert (Hnd2 : NoDup (keys (r2 :: l2))).
    { unfold keys. eapply Permutation_NoDup; [apply Permutation_map, Hp | exact Hnd]. }
    inversion H1 as [| ? ? Hs1 Hall1]; subst.
    inversion H2 as [| ? ? Hs2 Hall2]; subst.
    assert (Hin1 : In r1 (r2 :: l2)) by (eapply Permutation_in; [exact Hp | now left]).
    assert (Hin2 : In r2 (r1 :: l1)).
    { eapply Permutation_in; [apply Permutation_sym, Hp | now left]. }
    assert (Hk : fst r1 = fst r2).
    { destruct Hin1 as [-> | Hin1]; [reflexivity |].
      destruct Hin2 as [-> | Hin2]; [reflexivity |].
      rewrite Forall_forall in Hall1, Hall2.
      apply String.leb_antisym; [now apply Hall1 | now apply Hall2]. }
    assert (Hr : r1 = r2).
    { destruct Hin1 as [-> | Hin1]; [reflexivity |].
      exfalso. cbn in Hnd2. inversion Hnd2 as [| ? ? Hnot _]; subst.
      apply Hnot. rewrite <- Hk. now apply in_map. }
    subst r2. f_equal. apply IH; try assumption.
    + now apply Permutation_cons_inv in Hp.
    + cbn in Hnd. now inversion Hnd.
Qed.

(** [sort_index] does not depend on the order in which the entries of the
    mapping arrive. *)
Lemma sort_index_order_independent {A} (rows rows' : list (string * A)) :
  Permutation rows rows' -> NoDup (keys rows) -> sort_index rows = sort_index rows'.
Proof.
  intros Hp Hnd. apply sorted_rows_unique.
  - apply Sorted_StronglySorted; [apply key_le_trans | apply sort_index_Sorted].
  - apply Sorted_StronglySorted; [apply key_le_trans | apply sort_index_Sorted].
  - rewrite <- (sort_index_Permutation rows), <- (sort_index_Permutation rows'). exact Hp.
  - unfold keys. eapply Permutation_NoDup; [| exact Hnd].
    apply Permutation_map, sort_index_Permutation.
Qed.

Lemma key_le_refl {A} (r : string * A) : key_le r r.
Proof. unfold key_le. now destruct (String.leb_total (fst r) (fst r)). Qed.

(** The last row of a chronological list carries the latest date. *)
Lemma sorted_rows_last {A B} (f : string * A -> B) (d : B) (l : list (string * A)) :
  StronglySorted key_le l -> l <> [] ->
  exists r, In r l /\ (forall x, In x l -> key_le x r) /\ last (map f l) d = f r.
Proof.
  induction 1 as [| r l Hs IH Hall]; intros Hne; [contradiction |].
  destruct l as [| r' l'].
  - exists r. split; [now left |]. split; [| reflexivity].
    intros x [<- | []]. apply key_le_refl.
  - destruct (IH ltac:(discriminate)) as (m & Hin & Hmax & Hlast).
    exists m. split; [now right |]. split.
    + intros x [<- | Hx]; [| now apply Hmax].
      rewrite Forall_forall in Hall. now apply Hall.
    + exact Hlast.
Qed.

(** ** analyse_risk: the order of the entries and the current price *)

(** The risk analysis does not depend on the order in which the entries of
    the time series arrive, as long as no date is repeated. *)
Theorem analyse_risk_order_independent
    (savefig : figure -> res string) (print : string -> res unit)
    (rows rows' : list (string * bar))
    (symbol : option string) (target_selling_price stop_loss : num)
    (user_volume : option num) :
  Permutation rows rows' ->
  NoDup (keys rows) ->
  analyse_risk savefig print (mk_stock_data rows symbol)
    target_selling_price stop_loss user_volume
  = analyse_risk savefig print (mk_stock_data rows' symbol)
      target_selling_price stop_loss user_volume.
Proof.
  intros Hp Hnd. unfold analyse_risk, analyse_risk_body, symbol_of. cbn [time_series meta_symbol].
  destruct rows as [| r rows], rows' as [| r' rows'].
  - reflexivity.
  - now apply Permutation_nil_cons in Hp.
  - now apply Permutation_sym, Permutation_nil_cons in Hp.
  - now rewrite (sort_index_order_independent _ _ Hp Hnd).
Qed.

Lemma analyse_risk_order_independent_witness :
  analyse_risk Samples.blank_chart Samples.stdout
    (mk_stock_data [("2024-01-02", mk_bar (Text_num (Fin 101)) (Text_num (Fin 1000)));
                    ("2024-01-01", mk_bar (Text_num (Fin 100)) (Text_num (Fin 1000)))]
       None)
    (Fin 140) (Fin 95) None
  = analyse_risk Samples.blank_chart Samples.stdout
      (mk_stock_data [("2024-01-01", mk_bar (Text_num (Fin 100)) (Text_num (Fin 1000)));
                      ("2024-01-02", mk_bar (Text_num (Fin 101)) (Text_num (Fin 1000)))]
         None)
      (Fin 140) (Fin 95) None.
Proof.
  apply analyse_risk_order_independent.
  - apply perm_swap.
  - repeat constructor; cbn; intuition discriminate.
Defined.

(** Whenever a report is returned, its current price is the close of the
    entry with the latest date, wherever that entry stands in the input. *)
Theorem analyse_risk_current_price_is_latest_close
    (savefig : figure -> res string) (print : string -> res unit)
    (sd : stock_data)
    (target_selling_price stop_loss : num) (user_volume : option num) (d : dict) :
  analyse_risk savefig print sd target_selling_price stop_loss user_volume = Ok d ->
  dict_in "error" d = false ->
  exists date b current_price,
    In (date, b) (time_series sd)
    /\ (forall date' b', In (date', b') (time_series sd) -> String.leb date' date = true)
    /\ close b = Text_num current_price
    /\ is_zero current_price = false
    /\ dict_get "current_price" d = Some (VNum current_price).
Proof.
  intros Hd Herr.
  destruct (analyse_risk_returned savefig print sd target_selling_price stop_loss user_volume _ Hd)
    as (d' & Hd' & Hshape).
  rewrite Hd in Hd'. injection Hd' as <-.
  destruct Hshape as [(msg & -> & _) | Hrep]; [discriminate |].
  destruct Hrep as (cp & closes & volumes & dd & img & Hne & Hcp & _ & _ & Hdd & _ & ->).
  assert (Hsorted : StronglySorted key_le (sort_index (time_series sd))).
  { apply Sorted_StronglySorted; [apply key_le_trans | apply sort_index_Sorted]. }
  assert (Hne' : sort_index (time_series sd) <> []).
  { intros E. apply Hne. apply Permutation_nil.
    rewrite <- E. apply Permutation_sym, sort_index_Permutation. }
  destruct (sorted_rows_last (fun r => close (snd r)) (Text_bad "") _ Hsorted Hne')
    as ([date b] & Hin & Hmax & Hlast).
  unfold values in Hcp. rewrite map_map, Hlast in Hcp. cbn [snd] in Hcp.
  exists date, b, cp. split.
  { eapply Permutation_in; [apply Permutation_sym, sort_index_Permutation | exact Hin]. }
  split.
  { intros date' b' Hin'. apply (Hmax (date', b')).
    eapply Permutation_in; [apply sort_index_Permutation | exact Hin']. }
  split.
  { destruct (close b) as [x | t]; cbn in Hcp; [now injection Hcp as -> | discriminate]. }
  split; [| reflexivity].
  unfold drawdown_of, py_div in Hdd. now destruct (is_zero cp).
Qed.

Lemma analyse_risk_current_price_is_latest_close_witness :
  exists d,
    analyse_risk Samples.blank_chart Samples.stdout
      (mk_stock_data [("2024-01-02", mk_bar (Text_num (Fin 101)) (Text_num (Fin 1000)));
                      ("2024-01-01", mk_bar (Text_num (Fin 100)) (Text_num (Fin 1000)))]
         None)
      (Fin 140) (Fin 95) None = Ok d
    /\ dict_get "current_price" d = Some (VNum (Fin 101)).
Proof.
  eexists. split; [vm_compute; reflexivity |].
  destruct (analyse_risk_current_price_is_latest_close Samples.blank_chart Samples.stdout
              (mk_stock_data
                 [("2024-01-02", mk_bar (Text_num (Fin 101)) (Text_num (Fin 1000)));
                  ("2024-01-01", mk_bar (Text_num (Fin 100)) (Text_num (Fin 1000)))]
                 None)
              (Fin 140) (Fin 95) None _
              ltac:(vm_compute; reflexivity) ltac:(vm_compute; reflexivity))
    as (date & b & cp & _ & _ & _ & _ & Hcp).
  vm_compute in Hcp. injection Hcp as <-. vm_compute. reflexivity.
Defined.

(** ** analyse_risk: unparseable fields and a zero price *)

Lemma astype_float_Ok (col : list raw_field) (xs : list num) :
  astype_float col = Ok xs <-> col = map Text_num xs.
Proof.
  revert xs. induction col as [| f col IH]; intros xs; cbn.
  - split; [intros [= <-]; reflexivity |].
    destruct xs; [reflexivity | discriminate].
  - destruct f as [x | t]; cbn.
    + destruct (astype_float col) as [ys |] eqn:E; cbn.
      * split.
        -- intros [= <-]. cbn. f_equal. now apply IH.
        -- destruct xs as [| x' xs]; [discriminate |]. cbn. intros [= -> H].
           apply IH in H. now injection H as ->.
      * split; [discriminate |].
        destruct xs as [| x' xs]; [discriminate |]. cbn. intros [= -> H].
        apply IH in H. discriminate.
    + split; [discriminate |]. destruct xs; discriminate.
Qed.

Lemma astype_float_Raise (col : list raw_field) (e : exn) :
  astype_float col = Raise e ->
  exists t, In (Text_bad t) col
            /\ e = mk_exn ValueError ("could not convert string to float: " ++ t).
Proof.
  induction col as [| f col IH]; cbn; [discriminate |].
  destruct f as [x | t]; cbn.
  - destruct (astype_float col) as [ys |]; cbn; [discriminate |].
    intros [= <-]. destruct (IH eq_refl) as (t & Hin & He). exists t. split; [now right | exact He].
  - intros [= <-]. exists t. split; [now left | reflexivity].
Qed.

Lemma astype_float_length (col : list raw_field) (xs : list num) :
  astype_float col = Ok xs -> List.length xs = List.length col.
Proof. intros H. apply astype_float_Ok in H. subst. now rewrite length_map. Qed.

Lemma last_In {A} (l : list A) (d : A) : l <> [] -> In (last l d) l.
Proof.
  induction l as [| x l IH]; [contradiction |]. intros _.
  destruct l as [| y l]; [now left |]. right. apply IH. discriminate.
Qed.

(** A field that [float()] rejects, anywhere in the series, sends the
    analysis to its handler, whatever the other bars hold: the message that
    shows such a field (as Python shows it) is printed, and the error
    dictionary with that message is returned, unless the [print] raises; no
    report is returned. *)
Theorem analyse_risk_rejects_unparseable_field
    (savefig : figure -> res string) (print : string -> res unit)
    (sd : stock_data)
    (target_selling_price stop_loss : num) (user_volume : option num)
    (date : string) (b : bar) (t : string) :
  In (date, b) (time_series sd) ->
  close b = Text_bad t \/ volume b = Text_bad t ->
  exists t' date' b',
    In (date', b') (time_series sd)
    /\ (close b' = Text_bad t' \/ volume b' = Text_bad t')
    /\ analyse_risk savefig print sd target_selling_price stop_loss user_volume
       = (_ <- print ("Error in risk analysis: could not convert string to float: "
                      ++ t') ;;
          Ok [("error",
               VStr ("Error in risk analysis: could not convert string to float: "
                     ++ t'))]).
Proof.
  intros Hin Hbad.
  pose proof (analyse_risk_cases savefig print sd target_selling_price stop_loss user_volume)
    as Hcases.
  unfold analyse_risk_body in Hcases.
  destruct (time_series sd) as [| r rows] eqn:Hts; [destruct Hin |].
  rewrite <- Hts in *. clear r rows Hts.
  set (df := sort_index (time_series sd)) in *.
  assert (Hdf : forall r, In r df <-> In r (time_series sd)).
  { intros r. split; apply Permutation_in;
      [apply Permutation_sym |]; apply sort_index_Permutation. }
  assert (Hsrc : forall (g : bar -> raw_field) t',
             In (Text_bad t') (map g (values df)) ->
             exists date' b', In (date', b') (time_series sd) /\ g b' = Text_bad t').
  { intros g t' H. unfold values in H. rewrite map_map in H.
    apply in_map_iff in H. destruct H as ([date' b'] & Hg & Hin').
    exists date', b'. split; [now apply Hdf | exact Hg]. }
  assert (Hne : map close (values df) <> []).
  { apply Hdf in Hin. destruct df; [destruct Hin | discriminate]. }
  destruct (float_of (last (map close (values df)) (Text_bad ""))) as [cp | e] eqn:Hcp.
  - cbn [res_bind] in Hcases.
    destruct (astype_float (map close (values df))) as [closes | e] eqn:Hc.
    + cbn [res_bind] in Hcases.
      destruct (astype_float (map volume (values df))) as [volumes | e] eqn:Hv.
      * exfalso. apply astype_float_Ok in Hc, Hv. apply Hdf in Hin.
        destruct Hbad as [Hb | Hb].
        -- assert (H : In (Text_bad t) (map close (values df))).
           { rewrite <- Hb. unfold values. rewrite map_map.
             apply (in_map (fun r => close (snd r)) _ _ Hin). }
           rewrite Hc in H. apply in_map_iff in H. destruct H as (x & Hx & _).
           discriminate.
        -- assert (H : In (Text_bad t) (map volume (values df))).
           { rewrite <- Hb. unfold values. rewrite map_map.
             apply (in_map (fun r => volume (snd r)) _ _ Hin). }
           rewrite Hv in H. apply in_map_iff in H. destruct H as (x & Hx & _).
           discriminate.
      * cbn [res_bind] in Hcases.
        destruct (astype_float_Raise _ _ Hv) as (t' & Hin' & ->).
        destruct (Hsrc volume t' Hin') as (date' & b' & Hb' & Hvb).
        exists t', date', b'. split; [exact Hb' |]. split; [now right | exact Hcases].
    + cbn [res_bind] in Hcases.
      destruct (astype_float_Raise _ _ Hc) as (t' & Hin' & ->).
      destruct (Hsrc close t' Hin') as (date' & b' & Hb' & Hcb).
      exists t', date', b'. split; [exact Hb' |]. split; [now left | exact Hcases].
  - cbn [res_bind] in Hcases.
    pose proof (last_In (map close (values df)) (Text_bad "") Hne) as Hl.
    destruct (last (map close (values df)) (Text_bad "")) as [x | t']; [discriminate |].
    cbn in Hcp. injection Hcp as <-.
    destruct (Hsrc close t' Hl) as (date' & b' & Hb' & Hcb).
    exists t', date', b'. split; [exact Hb' |]. split; [now left | exact Hcases].
Qed.

Lemma analyse_risk_rejects_unparseable_field_witness :
  exists t',
    analyse_risk Samples.blank_chart Samples.stdout
      (mk_stock_data [("2024-01-01", mk_bar (Text_num (Fin 100)) (Text_bad "'n/a'"))]
         None)
      (Fin 140) (Fin 95) None
    = Ok [("error",
           VStr ("Error in risk analysis: could not convert string to float: " ++ t'))].
Proof.
  destruct (analyse_risk_rejects_unparseable_field Samples.blank_chart Samples.stdout
              (mk_stock_data
                 [("2024-01-01", mk_bar (Text_num (Fin 100)) (Text_bad "'n/a'"))] None)
              (Fin 140) (Fin 95) None "2024-01-01"
              (mk_bar (Text_num (Fin 100)) (Text_bad "'n/a'")) "'n/a'"
              ltac:(now left) ltac:(now right))
    as (t' & _ & _ & _ & _ & H).
  exists t'. exact H.
Defined.

Lemma astype_float_all_parse (col : list raw_field) :
  (forall f, In f col -> exists x, f = Text_num x) -> exists xs, astype_float col = Ok xs.
Proof.
  induction col as [| f col IH]; intros H; [now exists [] |].
  destruct (H f ltac:(now left)) as [x ->].
  destruct IH as [xs Hxs]; [intros g Hg; apply H; now right |].
  exists (x :: xs). cbn. now rewrite Hxs.
Qed.

Lemma NoDup_keys_inj {A} (l : list (string * A)) (r1 r2 : string * A) :
  NoDup (keys l) -> In r1 l -> In r2 l -> fst r1 = fst r2 -> r1 = r2.
Proof.
  induction l as [| r l IH]; cbn; [intros _ [] |].
  intros Hnd [-> | H1] [-> | H2] Hk; try reflexivity; inversion Hnd as [| ? ? Hnot Hnd']; subst.
  - exfalso. apply Hnot. rewrite Hk. now apply in_map.
  - exfalso. apply Hnot. rewrite <- Hk. now apply in_map.
  - now apply IH.
Qed.

(** When every field parses and the close of the latest date is 0, the
    drawdown division fails, whatever the other inputs are: the handler
    prints "Error in risk analysis: float division by zero" and returns the
    error dictionary with that message, unless the [print] raises. *)
Theorem analyse_risk_zero_latest_close
    (savefig : figure -> res string) (print : string -> res unit)
    (sd : stock_data)
    (target_selling_price stop_loss : num) (user_volume : option num)
    (date : string) (b : bar) (c : num) :
  NoDup (keys (time_series sd)) ->
  (forall date' b', In (date', b') (time_series sd) ->
                    String.leb date' date = true
                    /\ exists c' v', close b' = Text_num c' /\ volume b' = Text_num v') ->
  In (date, b) (time_series sd) ->
  close b = Text_num c ->
  is_zero c = true ->
  analyse_risk savefig print sd target_selling_price stop_loss user_volume
  = (_ <- print "Error in risk analysis: float division by zero" ;;
     Ok [("error", VStr "Error in risk analysis: float division by zero")]).
Proof.
  intros Hnd Hall Hin Hc Hz.
  pose proof (analyse_risk_cases savefig print sd target_selling_price stop_loss user_volume)
    as Hcases.
  unfold analyse_risk_body in Hcases.
  destruct (time_series sd) as [| r rows] eqn:Hts; [destruct Hin |].
  rewrite <- Hts in *. clear r rows Hts.
  set (df := sort_index (time_series sd)) in *.
  assert (Hdf : forall r, In r df <-> In r (time_series sd)).
  { intros r. split; apply Permutation_in;
      [apply Permutation_sym |]; apply sort_index_Permutation. }
  assert (Hsorted : StronglySorted key_le df).
  { apply Sorted_StronglySorted; [apply key_le_trans | apply sort_index_Sorted]. }
  assert (Hne : df <> []).
  { apply Hdf in Hin. destruct df; [destruct Hin | discriminate]. }
  destruct (sorted_rows_last (fun r => close (snd r)) (Text_bad "") df Hsorted Hne)
    as ([date1 b1] & Hin1 & Hmax & Hlast).
  assert (Hsame : (date1, b1) = (date, b)).
  { apply (NoDup_keys_inj (time_series sd)); try assumption; [now apply Hdf |].
    cbn. apply String.leb_antisym.
    - apply (Hall date1 b1). now apply Hdf.
    - apply (Hmax (date, b)). now apply Hdf. }
  injection Hsame as -> ->.
  unfold values in Hcases. rewrite !map_map in Hcases. rewrite Hlast in Hcases.
  cbn [snd] in Hcases. rewrite Hc in Hcases. cbn [float_of res_bind] in Hcases.
  destruct (astype_float_all_parse (map (fun x => close (snd x)) df)) as [closes Hcl].
  { intros f Hf. apply in_map_iff in Hf. destruct Hf as ([d' b'] & <- & Hin').
    destruct (Hall d' b' ltac:(now apply Hdf)) as (_ & c' & v' & Hc' & _). now exists c'. }
  destruct (astype_float_all_parse (map (fun x => volume (snd x)) df)) as [volumes Hvl].
  { intros f Hf. apply in_map_iff in Hf. destruct Hf as ([d' b'] & <- & Hin').
    destruct (Hall d' b' ltac:(now apply Hdf)) as (_ & c' & v' & _ & Hv'). now exists v'. }
  rewrite Hcl, Hvl in Hcases. cbn [res_bind] in Hcases.
  unfold drawdown_of, py_div in Hcases. rewrite Hz in Hcases. exact Hcases.
Qed.

Lemma analyse_risk_zero_latest_close_witness :
  analyse_risk Samples.broken_chart Samples.stdout
    (mk_stock_data [("2024-01-02", mk_bar (Text_num (Fin 0)) (Text_num (Fin 1000)));
                    ("2024-01-01", mk_bar (Text_num (Fin 100)) (Text_num (Fin 1000)))]
       None)
    (Fin 140) (Fin 95) None
  = Ok [("error", VStr "Error in risk analysis: float division by zero")].
Proof.
  apply (analyse_risk_zero_latest_close Samples.broken_chart Samples.stdout _
           (Fin 140) (Fin 95) None
           "2024-01-02" (mk_bar (Text_num (Fin 0)) (Text_num (Fin 1000))) (Fin 0)).
  - repeat constructor; cbn; intuition discriminate.
  - intros date' b' [[= <- <-] | [[= <- <-] | []]];
      (split; [reflexivity | do 2 eexists; split; reflexivity]).
  - now left.
  - reflexivity.
  - reflexivity.
Defined.

(** ** analyse_risk: what it returns when the handler can print *)

(** Whenever the [print] of the handler succeeds on the message it is given,
    [analyse_risk] returns a dictionary, for every input and whatever the
    chart renderer does: the no-data error for an empty series, the error
    dictionary with the message of the exception when the body raises, and
    otherwise the report, which has every report key, every key of its
    "risk_analysis" entry and no "error" key. *)
Theorem analyse_risk_returns_when_print_succeeds
    (savefig : figure -> res string) (print : string -> res unit)
    (sd : stock_data)
    (target_selling_price stop_loss : num) (user_volume : option num) :
  (forall e,
     analyse_risk_body savefig sd target_selling_price stop_loss user_volume = Raise e ->
     print ("Error in risk analysis: " ++ exn_msg e) = Ok tt) ->
  exists d,
    analyse_risk savefig print sd target_selling_price stop_loss user_volume = Ok d
    /\ (time_series sd = [] -> d = [("error", VStr "No time series data available")])
    /\ (forall e,
          analyse_risk_body savefig sd target_selling_price stop_loss user_volume
          = Raise e ->
          d = [("error", VStr ("Error in risk analysis: " ++ exn_msg e))])
    /\ (time_series sd <> [] ->
        (forall e,
           analyse_risk_body savefig sd target_selling_price stop_loss user_volume
           <> Raise e) ->
        dict_in "error" d = false
        /\ forallb (fun k => dict_in k d) report_keys = true
        /\ forallb (fun k => match dict_get2 "risk_analysis" k d with
                             | Some _ => true
                             | None => false
                             end) risk_analysis_keys = true).
Proof.
  intros Hprint.
  destruct (analyse_risk_total savefig print sd target_selling_price stop_loss
              user_volume)
    as [(d & Hd & Hshape) | (e0 & e & Hbody & Hfail & _)].
  2:{ rewrite (Hprint e0 Hbody) in Hfail. discriminate. }
  exists d. split; [exact Hd |].
  destruct Hshape as [(msg & -> & Hempty & Hraise) | Hrep].
  - split; [intros Hts; now rewrite (Hempty Hts) |].
    split; [intros e He; now rewrite (Hraise e He) |].
    intros Hne Hok. exfalso.
    pose proof (analyse_risk_cases savefig print sd target_selling_price stop_loss
                  user_volume) as Hc.
    destruct (analyse_risk_body savefig sd target_selling_price stop_loss user_volume)
      as [d0 | e] eqn:Hbody; [| now apply (Hok e)].
    destruct (analyse_risk_body_ok _ _ _ _ _ _ Hbody) as [[Hts _] | Hrep];
      [contradiction |].
    destruct Hrep as (cp & closes & volumes & dd & img & _ & _ & _ & _ & _ & _ & ->).
    rewrite Hd in Hc. discriminate.
  - destruct Hrep as (cp & closes & volumes & dd & img & Hne & _ & _ & _ & _ & _ & ->).
    split; [intros Hts; contradiction |].
    split.
    + intros e He.
      pose proof (analyse_risk_cases savefig print sd target_selling_price stop_loss
                    user_volume) as Hc.
      rewrite He, (Hprint e He) in Hc. rewrite Hd in Hc. discriminate.
    + intros _ _. repeat split.
Qed.

Lemma analyse_risk_returns_when_print_succeeds_witness :
  analyse_risk Samples.broken_chart Samples.stdout Samples.rising (Fin 300) (Fin 95)
    (Some (Fin 0))
  = Ok [("error", VStr "Error in risk analysis: no display")].
Proof.
  destruct (analyse_risk_returns_when_print_succeeds Samples.broken_chart
              Samples.stdout Samples.rising (Fin 300) (Fin 95) (Some (Fin 0)))
    as (d & Hd & _ & Hraise & _).
  - intros e _. reflexivity.
  - rewrite Hd. f_equal. apply (Hraise (mk_exn RuntimeError "no display")).
    vm_compute. reflexivity.
Defined.

(** ** analyse_risk: ranges of the raw scores *)

Lemma length_pairwise (f : num -> num -> num) (s : list num) :
  List.length (pairwise f s) = pred (List.length s).
Proof.
  induction s as [| x s IH]; [reflexivity |].
  destruct s as [| y s]; [reflexivity |]. cbn [pairwise List.length] in *. now rewrite IH.
Qed.

Lemma length_diff (s : list num) : List.length (diff s) = List.length s.
Proof.
  unfold diff. destruct s as [| x s]; [reflexivity |].
  cbn [List.length]. now rewrite length_pairwise.
Qed.

Lemma length_rolling_mean (w : nat) (s : list num) :
  List.length (rolling_mean w s) = List.length s.
Proof. unfold rolling_mean. now rewrite length_map, length_seq. Qed.

Lemma length_rsi_of (closes : list num) : List.length (rsi_of closes) = List.length closes.
Proof.
  unfold rsi_of.
  rewrite !length_map, length_combine, length_map, !length_rolling_mean, !length_map,
    length_diff.
  apply Nat.min_id.
Qed.

Lemma bearish_freq_of_range (closes : list num) :
  closes <> [] -> exists q, bearish_freq_of closes = Fin q /\ 0 <= q <= 1.
Proof.
  intros Hne. unfold bearish_freq_of.
  set (rsi := rsi_of closes).
  set (below := filter (fun r => (r <? Fin 30)%num) rsi).
  assert (Hlen : (0 < List.length rsi)%nat).
  { unfold rsi. rewrite length_rsi_of. destruct closes; [contradiction | cbn; lia]. }
  assert (Hle : (List.length below <= List.length rsi)%nat) by apply filter_length_le.
  exists ((Z.of_nat (List.length below) # 1) / (Z.of_nat (List.length rsi) # 1)). split.
  - unfold of_Z, inject_Z, div.
    destruct (Qeq_bool (Z.of_nat (List.length rsi) # 1) 0) eqn:E; [| reflexivity].
    apply Qeq_bool_iff in E. unfold Qeq in E. cbn in E. lia.
  - apply ratio_in_unit_interval; lia.
Qed.

Lemma risk_report_closes_nonempty (sd : stock_data) (closes : list num) :
  time_series sd <> [] ->
  astype_float (map close (values (sort_index (time_series sd)))) = Ok closes ->
  List.length closes = List.length (time_series sd) /\ closes <> [].
Proof.
  intros Hne Hc. apply astype_float_length in Hc.
  unfold values in Hc. rewrite !length_map in Hc.
  rewrite <- (Permutation_length (sort_index_Permutation (time_series sd))) in Hc.
  split; [exact Hc |]. intros ->. destruct (time_series sd); [contradiction | discriminate].
Qed.

(** The bearish frequency of every report is a fraction between 0 and 1. *)
Theorem analyse_risk_bearish_frequency_is_a_fraction
    (savefig : figure -> res string) (print : string -> res unit)
    (sd : stock_data)
    (target_selling_price stop_loss : num) (user_volume : option num) (d : dict) :
  analyse_risk savefig print sd target_selling_price stop_loss user_volume = Ok d ->
  dict_in "error" d = false ->
  exists q,
    dict_get2 "risk_analysis" "bearish_frequency" d = Some (VNum (Fin q))
    /\ 0 <= q <= 1.
Proof.
  intros Hd Herr.
  destruct (analyse_risk_returned savefig print sd target_selling_price stop_loss user_volume _ Hd)
    as (d' & Hd' & Hshape).
  rewrite Hd in Hd'. injection Hd' as <-.
  destruct Hshape as [(msg & -> & _) | Hrep]; [discriminate |].
  destruct Hrep as (cp & closes & volumes & dd & img & Hne & _ & Hc & _ & _ & _ & ->).
  destruct (risk_report_closes_nonempty sd closes Hne Hc) as [_ Hcl].
  destruct (bearish_freq_of_range closes Hcl) as (q & Hq & Hrange).
  exists q. split; [rewrite <- Hq; reflexivity | exact Hrange].
Qed.

Lemma analyse_risk_bearish_frequency_is_a_fraction_witness :
  exists q,
    bearish_freq_of [Fin 100; Fin 90; Fin 80; Fin 85] = Fin q /\ 0 <= q <= 1.
Proof.
  destruct (analyse_risk_bearish_frequency_is_a_fraction Samples.blank_chart Samples.stdout
              (Samples.series_of [(100, 1000); (90, 1000); (80, 1000); (85, 1000)])
              (Fin 140) (Fin 70) None _
              ltac:(vm_compute; reflexivity) ltac:(vm_compute; reflexivity))
    as (q & Hq & Hrange).
  exists q. split; [| exact Hrange].
  vm_compute in Hq. injection Hq as <-. vm_compute. reflexivity.
Defined.

Lemma Qsqrt_nonneg (q : Q) : 0 <= Qsqrt q.
Proof.
  unfold Qsqrt, Qle. cbn [Qnum Qden]. rewrite Z.mul_0_l, Z.mul_1_r. apply Z.sqrt_nonneg.
Qed.

Lemma sqrt_nan_or_nonneg (x : num) :
  is_nan (sqrt x) = true \/ (zero <=? sqrt x)%num = true.
Proof.
  destruct x as [q | | |]; cbn; try (now left); try (now right).
  destruct (q ?= 0)%Q; try (now left); right; unfold zero;
    cbn; pose proof (Qsqrt_nonneg q);
    destruct (Qcompare_spec 0 (Qsqrt q)); try reflexivity; lra.
Qed.

Lemma mul_nan_or_nonneg (x y : num) :
  is_nan x = true \/ (zero <=? x)%num = true ->
  is_nan y = true \/ (zero <=? y)%num = true ->
  is_nan (x * y)%num = true \/ (zero <=? x * y)%num = true.
Proof.
  unfold zero.
  intros [Hx | Hx] [Hy | Hy];
    destruct x as [a | | |], y as [b | | |]; cbn in *; try discriminate;
    try (now left); try (now right).
  - right. destruct (Qcompare_spec 0 a), (Qcompare_spec 0 b); try discriminate;
      destruct (Qcompare_spec 0 (a * b)); try reflexivity; exfalso; nra.
  - destruct (Qcompare_spec a 0); cbn; try (now left); try (now right).
    destruct (Qcompare_spec 0 a); try discriminate; lra.
  - destruct (Qcompare_spec b 0); cbn; try (now left); try (now right).
    destruct (Qcompare_spec 0 b); try discriminate; lra.
Qed.

(** The volatility of every report is nan or not negative. *)
Theorem analyse_risk_volatility_is_nan_or_nonnegative
    (savefig : figure -> res string) (print : string -> res unit)
    (sd : stock_data)
    (target_selling_price stop_loss : num) (user_volume : option num) (d : dict) :
  analyse_risk savefig print sd target_selling_price stop_loss user_volume = Ok d ->
  dict_in "error" d = false ->
  exists volatility,
    dict_get2 "risk_analysis" "volatility" d = Some (VNum volatility)
    /\ (is_nan volatility = true \/ (zero <=? volatility)%num = true).
Proof.
  intros Hd Herr.
  destruct (analyse_risk_returned savefig print sd target_selling_price stop_loss user_volume _ Hd)
    as (d' & Hd' & Hshape).
  rewrite Hd in Hd'. injection Hd' as <-.
  destruct Hshape as [(msg & -> & _) | Hrep]; [discriminate |].
  destruct Hrep as (cp & closes & volumes & dd & img & _ & _ & _ & _ & _ & _ & ->).
  exists (volatility_of closes). split; [reflexivity |].
  unfold volatility_of, series_std. apply mul_nan_or_nonneg; apply sqrt_nan_or_nonneg.
Qed.

Lemma analyse_risk_volatility_is_nan_or_nonnegative_witness :
  exists volatility,
    volatility_of [Fin 1; Fin 2; Fin 6; Fin 12; Fin 36; Fin 72; Fin 216] = volatility
    /\ (zero <=? volatility)%num = true.
Proof.
  destruct (analyse_risk_volatility_is_nan_or_nonnegative Samples.blank_chart Samples.stdout
              Samples.rising (Fin 300) (Fin 95) None _
              ltac:(vm_compute; reflexivity) ltac:(vm_compute; reflexivity))
    as (vol & Hvol & _).
  eexists. split; [reflexivity |]. vm_compute. reflexivity.
Defined.

(** ** analyse_risk: liquidity on short series, and the target price *)

Lemma slice_from_short {A} (k : nat) (s : list A) :
  (List.length s <= k)%nat -> slice_from (- Z.of_nat k) s = s.
Proof.
  intros H. unfold slice_from.
  destruct (- Z.of_nat k <? 0)%Z eqn:E.
  - replace (Z.max (Z.of_nat (List.length s) + - Z.of_nat k) 0) with 0%Z by lia.
    reflexivity.
  - apply Z.ltb_ge in E. replace (- Z.of_nat k)%Z with 0%Z by lia. reflexivity.
Qed.

Lemma liquidity_risk_of_short (volumes : list num) (user_volume : option num) (m : Q) :
  (List.length volumes <= 20)%nat ->
  series_mean volumes = Fin m -> ~ m == 0 ->
  (forall uv, user_volume = Some uv -> is_finite uv = true) ->
  recent_volume_of volumes = Fin m
  /\ exists q, liquidity_risk_of volumes user_volume = Fin q /\ q == 0.
Proof.
  intros Hlen Hm Hm0 Hfin.
  assert (Hr : recent_volume_of volumes = Fin m).
  { unfold recent_volume_of. change (-20)%Z with (- Z.of_nat 20)%Z.
    now rewrite slice_from_short. }
  split; [exact Hr |].
  unfold liquidity_risk_of. rewrite Hr, Hm.
  assert (Em : Qeq_bool m 0 = false).
  { destruct (Qeq_bool m 0) eqn:E; [apply Qeq_bool_iff in E; contradiction | reflexivity]. }
  assert (Hb : 1 + - (m / m) == 0) by (field; exact Hm0).
  destruct user_volume as [uv |].
  - specialize (Hfin uv eq_refl). destruct uv as [u | | |]; try discriminate.
    unfold one. cbn. rewrite Em. cbn.
    destruct (0.05 ?= u / m)%Q.
    + eexists. split; [reflexivity | exact Hb].
    + eexists. split; [reflexivity |]. rewrite Hb. ring.
    + eexists. split; [reflexivity | exact Hb].
  - unfold one. cbn. rewrite Em. cbn. eexists. split; [reflexivity | exact Hb].
Qed.

(** On a series of at most 20 bars the recent window is the whole series, so
    a report with a finite, non-zero average volume has a raw liquidity risk
    of 0, whatever the (finite) volume of the user's order. *)
Theorem analyse_risk_liquidity_is_zero_on_short_series
    (savefig : figure -> res string) (print : string -> res unit)
    (sd : stock_data)
    (target_selling_price stop_loss : num) (user_volume : option num) (d : dict)
    (m : Q) :
  analyse_risk savefig print sd target_selling_price stop_loss user_volume = Ok d ->
  dict_in "error" d = false ->
  (List.length (time_series sd) <= 20)%nat ->
  dict_get "recent_avg_volume" d = Some (VNum (Fin m)) ->
  ~ m == 0 ->
  (forall uv, user_volume = Some uv -> is_finite uv = true) ->
  exists q,
    dict_get2 "risk_analysis" "liquidity_risk" d = Some (VNum (Fin q)) /\ q == 0.
Proof.
  intros Hd Herr Hlen Hm Hm0 Hfin.
  destruct (analyse_risk_returned savefig print sd target_selling_price stop_loss user_volume _ Hd)
    as (d' & Hd' & Hshape).
  rewrite Hd in Hd'. injection Hd' as <-.
  destruct Hshape as [(msg & -> & _) | Hrep]; [discriminate |].
  destruct Hrep as (cp & closes & volumes & dd & img & Hne & _ & _ & Hv & _ & _ & ->).
  cbn in Hm. injection Hm as Hm.
  assert (Hlv : (List.length volumes <= 20)%nat).
  { apply astype_float_length in Hv. unfold values in Hv. rewrite !length_map in Hv.
    rewrite <- (Permutation_length (sort_index_Permutation (time_series sd))) in Hv. lia. }
  assert (Hmean : series_mean volumes = Fin m).
  { rewrite <- Hm. unfold recent_volume_of. change (-20)%Z with (- Z.of_nat 20)%Z.
    now rewrite slice_from_short. }
  destruct (liquidity_risk_of_short volumes user_volume m Hlv Hmean Hm0 Hfin)
    as (_ & q & Hq & Hq0).
  exists q. split; [rewrite <- Hq; reflexivity | exact Hq0].
Qed.

Lemma analyse_risk_liquidity_is_zero_on_short_series_witness :
  exists q,
    liquidity_risk_of (repeat (Fin 1000) 7) (Some (Fin 5000)) = Fin q /\ q == 0.
Proof.
  destruct (analyse_risk_liquidity_is_zero_on_short_series Samples.blank_chart Samples.stdout
              Samples.rising (Fin 300) (Fin 95) (Some (Fin 5000)) _ (7000 # 7)
              ltac:(vm_compute; reflexivity) ltac:(vm_compute; reflexivity)
              ltac:(cbn; lia) ltac:(vm_compute; reflexivity)
              ltac:(unfold Qeq; cbn; lia)
              ltac:(intros uv [= <-]; reflexivity))
    as (q & Hq & Hq0).
  exists q. split; [| exact Hq0].
  vm_compute in Hq. injection Hq as <-. vm_compute. reflexivity.
Defined.

(** The target price is only echoed: two analyses that differ in the target
    alone and both return a report agree on the whole "risk_analysis"
    entry, on the current price and on the volumes. *)
Theorem analyse_risk_scores_ignore_the_target
    (savefig : figure -> res string) (print : string -> res unit)
    (sd : stock_data)
    (target1 target2 stop_loss : num) (user_volume : option num) (d1 d2 : dict) :
  analyse_risk savefig print sd target1 stop_loss user_volume = Ok d1 ->
  analyse_risk savefig print sd target2 stop_loss user_volume = Ok d2 ->
  dict_in "error" d1 = false ->
  dict_in "error" d2 = false ->
  dict_get "target_selling_price" d1 = Some (VNum target1)
  /\ dict_get "target_selling_price" d2 = Some (VNum target2)
  /\ forall k, k <> "target_selling_price" -> k <> "plot" ->
               dict_get k d1 = dict_get k d2.
Proof.
  intros H1 H2 E1 E2.
  destruct (analyse_risk_returned savefig print sd target1 stop_loss user_volume _ H1)
    as (d1' & Hd1 & Hs1).
  destruct (analyse_risk_returned savefig print sd target2 stop_loss user_volume _ H2)
    as (d2' & Hd2 & Hs2).
  rewrite H1 in Hd1. injection Hd1 as <-. rewrite H2 in Hd2. injection Hd2 as <-.
  destruct Hs1 as [(msg & -> & _) | Hr1]; [discriminate |].
  destruct Hs2 as [(msg & -> & _) | Hr2]; [discriminate |].
  destruct Hr1 as (cp1 & c1 & v1 & dd1 & img1 & _ & Hcp1 & Hc1 & Hv1 & Hdd1 & _ & ->).
  destruct Hr2 as (cp2 & c2 & v2 & dd2 & img2 & _ & Hcp2 & Hc2 & Hv2 & Hdd2 & _ & ->).
  rewrite Hcp1 in Hcp2. injection Hcp2 as <-.
  rewrite Hc1 in Hc2. injection Hc2 as <-.
  rewrite Hv1 in Hv2. injection Hv2 as <-.
  rewrite Hdd1 in Hdd2. injection Hdd2 as <-.
  split; [reflexivity |]. split; [reflexivity |].
  intros k Hk Hp. unfold risk_report. cbn [dict_get].
  apply String.eqb_neq in Hk, Hp. rewrite Hk, Hp. reflexivity.
Qed.

Lemma analyse_risk_scores_ignore_the_target_witness :
  exists d1 d2,
    analyse_risk Samples.blank_chart Samples.stdout Samples.rising (Fin 300) (Fin 95) None = Ok d1
    /\ analyse_risk Samples.blank_chart Samples.stdout Samples.rising (Fin 400) (Fin 95) None = Ok d2
    /\ dict_get "risk_analysis" d1 = dict_get "risk_analysis" d2.
Proof.
  do 2 eexists. split; [vm_compute; reflexivity |]. split; [vm_compute; reflexivity |].
  apply (analyse_risk_scores_ignore_the_target Samples.blank_chart Samples.stdout Samples.rising
           (Fin 300) (Fin 400) (Fin 95) None);
    try (vm_compute; reflexivity); discriminate.
Defined.

(** ** analyse_risk: the bearish frequency of a series that never falls *)

Lemma In_skipn_In {A} (n : nat) (l : list A) (x : A) : In x (skipn n l) -> In x l.
Proof. intros H. rewrite <- (firstn_skipn n l). apply in_or_app. now right. Qed.

Lemma In_firstn_In {A} (n : nat) (l : list A) (x : A) : In x (firstn n l) -> In x l.
Proof. intros H. rewrite <- (firstn_skipn n l). apply in_or_app. now left. Qed.

Lemma In_slice_from_In {A} (start : Z) (l : list A) (x : A) :
  In x (slice_from start l) -> In x l.
Proof. unfold slice_from. destruct (start <? 0)%Z; apply In_skipn_In. Qed.

Lemma slice_from_nonempty {A} (w : nat) (l : list A) :
  l <> [] -> slice_from (- Z.of_nat (S w)) l <> [].
Proof.
  intros Hne. unfold slice_from.
  replace (- Z.of_nat (S w) <? 0)%Z with true by (symmetry; apply Z.ltb_lt; lia).
  intros E. apply (f_equal (@List.length _)) in E. rewrite length_skipn in E.
  cbn [List.length] in E. destruct l; [contradiction |]. cbn [List.length] in E. lia.
Qed.

Lemma fold_add_zeros (s : list num) (a : Q) :
  Forall (fun x => x = (- zero)%num) s ->
  exists a', fold_left add s (Fin a) = Fin a' /\ a' == a.
Proof.
  revert a. induction s as [| x s IH]; intros a H.
  - exists a. split; reflexivity.
  - inversion H as [| ? ? Hx Hs]; subst. cbn [fold_left].
    change (Fin a + - zero)%num with (Fin (a + - 0)).
    destruct (IH (a + - 0) Hs) as (a' & Ha & Hq). exists a'. split; [exact Ha |].
    rewrite Hq. ring.
Qed.

Lemma series_mean_zeros (s : list num) :
  s <> [] -> Forall (fun x => x = (- zero)%num) s -> eqb (series_mean s) zero = true.
Proof.
  intros Hne H. unfold series_mean.
  assert (Hd : dropna s = s).
  { unfold dropna. apply forallb_filter_id. apply forallb_forall.
    rewrite Forall_forall in H. intros x Hx. now rewrite (H x Hx). }
  rewrite Hd. destruct s as [| x s]; [contradiction |].
  unfold series_sum, zero at 1.
  destruct (fold_add_zeros (x :: s) 0 H) as (a & -> & Ha).
  unfold of_Z, inject_Z, div.
  destruct (Qeq_bool (Z.of_nat (List.length (x :: s)) # 1) 0) eqn:E.
  - apply Qeq_bool_iff in E. unfold Qeq in E. cbn in E. lia.
  - unfold eqb, zero. apply Qeq_bool_iff. rewrite Ha.
    unfold Qdiv. ring.
Qed.

Lemma rolling_mean_zeros (w : nat) (s : list num) :
  Forall (fun x => x = (- zero)%num) s ->
  Forall (fun a => eqb a zero = true) (rolling_mean (S w) s).
Proof.
  intros H. unfold rolling_mean. apply Forall_forall. intros a Ha.
  apply in_map_iff in Ha. destruct Ha as (i & <- & Hi). apply in_seq in Hi.
  apply series_mean_zeros.
  - apply slice_from_nonempty. intros E. apply (f_equal (@List.length _)) in E.
    rewrite length_firstn in E. cbn [List.length] in E. lia.
  - apply Forall_forall. intros x Hx. rewrite Forall_forall in H. apply H.
    eapply In_firstn_In, In_slice_from_In, Hx.
Qed.

Lemma div_nan_r (x : num) : (x / NaN)%num = NaN.
Proof. now destruct x. Qed.

Lemma bearish_freq_of_without_falls (closes : list num) :
  closes <> [] ->
  Forall (fun d => (d <? zero)%num = false) (diff closes) ->
  exists q, bearish_freq_of closes = Fin q /\ q == 0.
Proof.
  intros Hne Hup.
  assert (Hrsi : Forall (fun r => r = NaN) (rsi_of closes)).
  { unfold rsi_of.
    set (delta := diff closes) in *.
    set (gain := map (fun d => if (d >? zero)%num then d else zero) delta).
    set (loss := map (fun d => (- (if (d <? zero)%num then d else zero))%num) delta).
    assert (Hloss : Forall (fun x => x = (- zero)%num) loss).
    { unfold loss. apply Forall_forall. intros x Hx. apply in_map_iff in Hx.
      destruct Hx as (dl & <- & Hdl). rewrite Forall_forall in Hup.
      now rewrite (Hup dl Hdl). }
    pose proof (rolling_mean_zeros 13 loss Hloss) as Havg.
    apply Forall_forall. intros r Hr.
    apply in_map_iff in Hr. destruct Hr as (rs & <- & Hrs).
    apply in_map_iff in Hrs. destruct Hrs as ([g l] & <- & Hp).
    apply in_combine_r in Hp. apply in_map_iff in Hp. destruct Hp as (a & <- & Ha).
    rewrite Forall_forall in Havg. rewrite (Havg a Ha). cbn [fst snd].
    rewrite div_nan_r. reflexivity. }
  unfold bearish_freq_of.
  assert (Hbelow : filter (fun r => (r <? Fin 30)%num) (rsi_of closes) = []).
  { induction (rsi_of closes) as [| r rs IH]; [reflexivity |].
    inversion Hrsi as [| ? ? -> Hrs]; subst. cbn. now apply IH. }
  rewrite Hbelow.
  assert (Hlen : (0 < List.length (rsi_of closes))%nat).
  { rewrite length_rsi_of. destruct closes; [contradiction | cbn; lia]. }
  unfold of_Z, inject_Z, div. cbn [List.length Z.of_nat].
  destruct (Qeq_bool (Z.of_nat (List.length (rsi_of closes)) # 1) 0) eqn:E.
  - apply Qeq_bool_iff in E. unfold Qeq in E. cbn in E. lia.
  - eexists. split; [reflexivity |]. unfold Qdiv. ring.
Qed.

(** When no close is below the close of the day before, no average loss is
    positive, the relative strength is undefined on every day, no RSI is below
    30, and the reported bearish frequency is 0. *)
Theorem analyse_risk_no_bearish_day_without_falls
    (savefig : figure -> res string) (print : string -> res unit)
    (sd : stock_data)
    (target_selling_price stop_loss : num) (user_volume : option num) (d : dict)
    (closes : list num) :
  analyse_risk savefig print sd target_selling_price stop_loss user_volume = Ok d ->
  dict_in "error" d = false ->
  astype_float (map close (values (sort_index (time_series sd)))) = Ok closes ->
  Forall (fun dl => (dl <? zero)%num = false) (diff closes) ->
  exists q,
    dict_get2 "risk_analysis" "bearish_frequency" d = Some (VNum (Fin q)) /\ q == 0.
Proof.
  intros Hd Herr Hcl Hup.
  destruct (analyse_risk_returned savefig print sd target_selling_price stop_loss user_volume _ Hd)
    as (d' & Hd' & Hshape).
  rewrite Hd in Hd'. injection Hd' as <-.
  destruct Hshape as [(msg & -> & _) | Hrep]; [discriminate |].
  destruct Hrep as (cp & closes' & volumes & dd & img & Hne & _ & Hc & _ & _ & _ & ->).
  rewrite Hcl in Hc. injection Hc as <-.
  destruct (risk_report_closes_nonempty sd closes Hne Hcl) as [_ Hnonempty].
  destruct (bearish_freq_of_without_falls closes Hnonempty Hup) as (q & Hq & Hq0).
  exists q. split; [rewrite <- Hq; reflexivity | exact Hq0].
Qed.

Lemma analyse_risk_no_bearish_day_without_falls_witness :
  exists q,
    bearish_freq_of [Fin 1; Fin 2; Fin 6; Fin 12; Fin 36; Fin 72; Fin 216] = Fin q
    /\ q == 0.
Proof.
  destruct (analyse_risk_no_bearish_day_without_falls Samples.blank_chart Samples.stdout
              Samples.rising (Fin 300) (Fin 95) None _
              [Fin 1; Fin 2; Fin 6; Fin 12; Fin 36; Fin 72; Fin 216]
              ltac:(vm_compute; reflexivity) ltac:(vm_compute; reflexivity)
              ltac:(vm_compute; reflexivity)
              ltac:(repeat constructor))
    as (q & Hq & Hq0).
  exists q. split; [| exact Hq0].
  vm_compute in Hq. injection Hq as <-. vm_compute. reflexivity.
Defined.

(** ** estimate_success_probability: draws, trial counts and the window *)

Lemma snd_choice (a : list num) (k : nat) (g : rng) :
  snd (choice a k g) = mk_rng (stream g) (cursor g + N.of_nat k).
Proof.
  revert g. induction k as [| k IH]; intros g.
  - cbn. rewrite N.add_0_r. now destruct g.
  - cbn [choice randint].
    specialize (IH (mk_rng (stream g) (N.succ (cursor g)))).
    destruct (choice a k _) as [r g']. cbn [snd stream cursor] in *. rewrite IH.
    f_equal. lia.
Qed.

Lemma snd_simulate (n : nat) (rr : list num) (e t s : num) (hits : Z) (g : rng) :
  snd (simulate n rr e t s hits g) = mk_rng (stream g) (cursor g + N.of_nat (30 * n)).
Proof.
  revert hits g. induction n as [| n IH]; intros hits g.
  - cbn. rewrite N.add_0_r. now destruct g.
  - cbn [simulate]. pose proof (snd_choice rr 30 g) as Hc.
    destruct (choice rr 30 g) as [r g1]. cbn [snd] in Hc. rewrite IH, Hc.
    cbn [stream cursor]. f_equal. lia.
Qed.

(** A run that simulates takes exactly 30 draws per trial from the global
    generator, also when the final division fails. *)
Theorem estimate_success_probability_consumes_30_draws_per_trial
    (sd : stock_data) (entry_price target_price stop_loss : num)
    (n_simulations lookback_days : Z) (g : rng) (recent_returns : list num) :
  recent_returns_of (time_series sd) lookback_days = Ok recent_returns ->
  (5 <= List.length recent_returns)%nat ->
  snd (estimate_success_probability sd entry_price target_price stop_loss
         n_simulations lookback_days g)
  = mk_rng (stream g) (cursor g + N.of_nat (30 * Z.to_nat n_simulations)).
Proof.
  intros Hrr Hlen. unfold estimate_success_probability.
  destruct (time_series sd) as [| r rows].
  - cbn in Hrr. injection Hrr as <-. exfalso.
    unfold slice_from in Hlen.
    destruct (- lookback_days <? 0)%Z; rewrite skipn_nil in Hlen; cbn in Hlen; lia.
  - unfold M_bind, M_lift. rewrite Hrr.
    apply Nat.ltb_ge in Hlen. rewrite Hlen.
    pose proof (snd_simulate (Z.to_nat n_simulations) recent_returns entry_price
                  target_price stop_loss 0%Z g) as Hsim.
    destruct (simulate (Z.to_nat n_simulations) recent_returns entry_price
                target_price stop_loss 0 g) as [hits g1].
    exact Hsim.
Qed.

Lemma estimate_success_probability_consumes_30_draws_per_trial_witness :
  snd (estimate_success_probability Samples.zigzag (Fin 100) (Fin 150) (Fin 10)
         2 60 (seed Samples.flip_stream))
  = mk_rng Samples.flip_stream 60.
Proof.
  rewrite (estimate_success_probability_consumes_30_draws_per_trial Samples.zigzag
             (Fin 100) (Fin 150) (Fin 10) 2 60 (seed Samples.flip_stream)
             [Fin (200 / 100 - 1); Fin (100 / 200 - 1); Fin (200 / 100 - 1);
              Fin (100 / 200 - 1); Fin (200 / 100 - 1); Fin (100 / 200 - 1)]
             ltac:(vm_compute; reflexivity) ltac:(cbn; lia)).
  reflexivity.
Defined.

(** With at least 5 lookback returns, a trial count of 0 makes the final
    division raise [ZeroDivisionError], and a negative trial count runs no
    trial and returns 0. *)
Theorem estimate_success_probability_without_trials
    (sd : stock_data) (entry_price target_price stop_loss : num)
    (n_simulations lookback_days : Z) (g : rng) (recent_returns : list num) :
  recent_returns_of (time_series sd) lookback_days = Ok recent_returns ->
  (5 <= List.length recent_returns)%nat ->
  (n_simulations <= 0)%Z ->
  (n_simulations = 0%Z ->
   estimate_success_probability sd entry_price target_price stop_loss
     n_simulations lookback_days g
   = (Raise (mk_exn ZeroDivisionError "division by zero"), g))
  /\ (n_simulations < 0 ->
      exists q,
        estimate_success_probability sd entry_price target_price stop_loss
          n_simulations lookback_days g
        = (Ok (Fin q), g)
        /\ q == 0)%Z.
Proof.
  intros Hrr Hlen Hn.
  assert (Hrun : estimate_success_probability sd entry_price target_price stop_loss
                   n_simulations lookback_days g
                 = (py_int_truediv 0 n_simulations, g)).
  { unfold estimate_success_probability.
    destruct (time_series sd) as [| r rows].
    - cbn in Hrr. injection Hrr as <-. exfalso.
      unfold slice_from in Hlen.
      destruct (- lookback_days <? 0)%Z; rewrite skipn_nil in Hlen; cbn in Hlen; lia.
    - unfold M_bind, M_lift. rewrite Hrr.
      apply Nat.ltb_ge in Hlen. rewrite Hlen.
      replace (Z.to_nat n_simulations) with 0%nat by lia. reflexivity. }
  split.
  - intros ->. exact Hrun.
  - intros Hneg. rewrite Hrun, py_int_truediv_ok by lia.
    eexists. split; [reflexivity |]. unfold Qdiv. ring.
Qed.

Lemma estimate_success_probability_without_trials_witness :
  estimate_success_probability Samples.zigzag (Fin 100) (Fin 150) (Fin 10)
    0 60 (seed Samples.flip_stream)
  = (Raise (mk_exn ZeroDivisionError "division by zero"), seed Samples.flip_stream).
Proof.
  refine (proj1 (estimate_success_probability_without_trials Samples.zigzag
                   (Fin 100) (Fin 150) (Fin 10) 0 60 (seed Samples.flip_stream)
                   [Fin (200 / 100 - 1); Fin (100 / 200 - 1); Fin (200 / 100 - 1);
                    Fin (100 / 200 - 1); Fin (200 / 100 - 1); Fin (100 / 200 - 1)]
                   _ _ _) eq_refl).
  - vm_compute. reflexivity.
  - cbn. lia.
  - lia.
Defined.

Lemma choice_In (a : list num) (k : nat) (g : rng) :
  a <> [] -> Forall (fun x => In x a) (fst (choice a k g)).
Proof.
  intros Hne. revert g. induction k as [| k IH]; intros g; cbn [choice randint].
  - constructor.
  - specialize (IH (mk_rng (stream g) (N.succ (cursor g)))).
    destruct (choice a k _) as [r g']. cbn [fst] in *. constructor; [| exact IH].
    apply nth_In, Nat.mod_upper_bound. destruct a; [contradiction | discriminate].
Qed.

Lemma trial_paths_Forall (P : list num -> Prop) (n : nat) (rr : list num) (e : num)
    (g : rng) :
  rr <> [] ->
  (forall rs, rs <> [] -> Forall (fun x => In x rr) rs -> P (price_path_of e rs)) ->
  Forall P (trial_paths n rr e g).
Proof.
  intros Hne HP. revert g. induction n as [| n IH]; intros g; cbn [trial_paths].
  - constructor.
  - pose proof (choice_In rr 30 g Hne) as Hin.
    pose proof (length_choice rr 30 g) as Hlen.
    destruct (choice rr 30 g) as [rs g1]. cbn [fst] in *.
    constructor; [| apply IH]. apply HP; [| exact Hin].
    intros ->. discriminate.
Qed.

Lemma simulate_all_failures (n : nat) (rr : list num) (e t s : num) (g : rng) :
  Forall (fun p => trial_hits p e t s = 0%Z) (trial_paths n rr e g) ->
  fst (simulate n rr e t s 0 g) = 0%Z.
Proof.
  intros H. rewrite simulate_counts.
  assert (Hf : filter (fun p => trial_success p e t s) (trial_paths n rr e g) = []).
  { induction (trial_paths n rr e g) as [| p ps IH]; [reflexivity |].
    inversion H as [| ? ? Hp Hps]; subst. cbn.
    rewrite trial_hits_spec in Hp.
    destruct (trial_success p e t s); [discriminate | now apply IH]. }
  now rewrite Hf.
Qed.

Lemma simulate_all_successes (n : nat) (rr : list num) (e t s : num) (g : rng) :
  Forall (fun p => trial_hits p e t s = 1%Z) (trial_paths n rr e g) ->
  fst (simulate n rr e t s 0 g) = Z.of_nat n.
Proof.
  intros H. rewrite simulate_counts.
  assert (Hf : filter (fun p => trial_success p e t s) (trial_paths n rr e g)
               = trial_paths n rr e g).
  { induction (trial_paths n rr e g) as [| p ps IH]; [reflexivity |].
    inversion H as [| ? ? Hp Hps]; subst. cbn.
    rewrite trial_hits_spec in Hp.
    destruct (trial_success p e t s); [now rewrite IH | discriminate]. }
  rewrite Hf. now rewrite (proj1 (trial_paths_shape n rr e g)).
Qed.

Lemma cumprod_from_unit (a : Q) (s : list num) :
  0 <= a <= 1 ->
  Forall (fun f => exists q, f = Fin q /\ 0 <= q <= 1) s ->
  Forall (fun c => exists q, c = Fin q /\ 0 <= q <= 1) (cumprod_from (Fin a) s).
Proof.
  revert a. induction s as [| f s IH]; intros a Ha H; cbn [cumprod_from].
  - constructor.
  - inversion H as [| ? ? (q & -> & Hq) Hs]; subst.
    change (Fin a * Fin q)%num with (Fin (a * q)).
    assert (Haq : 0 <= a * q <= 1) by nra.
    constructor; [now exists (a * q) | now apply IH].
Qed.

Lemma price_path_never_above_entry (e : Q) (rs : list num) :
  0 <= e ->
  Forall (fun r => exists q, r = Fin q /\ -1 <= q <= 0) rs ->
  Forall (fun p => exists q, p = Fin q /\ q <= e) (price_path_of (Fin e) rs).
Proof.
  intros He H. unfold price_path_of.
  assert (Hf : Forall (fun f => exists q, f = Fin q /\ 0 <= q <= 1) (map (add one) rs)).
  { apply Forall_forall. intros f Hf. apply in_map_iff in Hf.
    destruct Hf as (r & <- & Hr). rewrite Forall_forall in H.
    destruct (H r Hr) as (q & -> & Hq). exists (1 + q). split; [reflexivity | lra]. }
  assert (Hc : Forall (fun c => exists q, c = Fin q /\ 0 <= q <= 1)
                 (cumprod (map (add one) rs))).
  { unfold cumprod. destruct (map (add one) rs) as [| f fs]; [constructor |].
    inversion Hf as [| ? ? (q & -> & Hq) Hfs]; subst.
    constructor; [now exists q | now apply cumprod_from_unit]. }
  apply Forall_forall. intros p Hp. apply in_map_iff in Hp.
  destruct Hp as (c & <- & Hc'). rewrite Forall_forall in Hc.
  destruct (Hc c Hc') as (q & -> & Hq). exists (e * q). split; [reflexivity | nra].
Qed.

Lemma leb_above_false (t : num) (e q : Q) :
  (Fin e <? t)%num = true -> q <= e -> (t <=? Fin q)%num = false.
Proof.
  intros Ht Hq. destruct t as [a | | |]; cbn in *; try discriminate; try reflexivity.
  destruct (Qcompare_spec e a); try discriminate.
  destruct (Qcompare_spec a q); try reflexivity; lra.
Qed.

Lemma trial_hits_never_above_entry (path : list num) (e : Q) (t s : num) :
  Forall (fun p => exists q, p = Fin q /\ q <= e) path ->
  (Fin e <? t)%num = true ->
  trial_hits path (Fin e) t s = 0%Z.
Proof.
  intros H Ht. unfold trial_hits.
  assert (Hmax : (np_max path >=? t)%num = false).
  { destruct path as [| x path]; [apply leb_nan_r |].
    unfold np_max. rewrite geb_fold_np_max2.
    assert (Hex : existsb (fun y => (y >=? t)%num) (x :: path) = false).
    { destruct (existsb (fun y => (y >=? t)%num) (x :: path)) eqn:E; [| reflexivity].
      apply existsb_exists in E. destruct E as (y & Hy & Hge).
      rewrite Forall_forall in H. destruct (H y Hy) as (q & -> & Hq).
      unfold geb in Hge. now rewrite (leb_above_false t e q Ht Hq) in Hge. }
    rewrite Hex. apply andb_false_r. }
  rewrite Hmax.
  destruct (np_min path <=? s)%num; [reflexivity |].
  assert (Hlast : (last path NaN >? Fin e)%num = false).
  { destruct path as [| x path]; [reflexivity |].
    pose proof (last_In (x :: path) NaN ltac:(discriminate)) as Hin.
    rewrite Forall_forall in H. destruct (H _ Hin) as (q & -> & Hq).
    unfold gtb. cbn. destruct (Qcompare_spec e q); try reflexivity; lra. }
  now rewrite Hlast.
Qed.

(** When no lookback return is positive (each lies between -100% and 0), no
    simulated price exceeds the entry price, so for a target above a
    non-negative entry price every trial fails and the estimate is 0,
    whatever the generator draws and wherever the stop is. *)
Theorem estimate_success_probability_zero_without_gains
    (sd : stock_data) (entry_price : Q) (target_price stop_loss : num)
    (n_simulations lookback_days : Z) (g : rng) (recent_returns : list num) :
  recent_returns_of (time_series sd) lookback_days = Ok recent_returns ->
  (5 <= List.length recent_returns)%nat ->
  (0 < n_simulations)%Z ->
  Forall (fun r => exists q, r = Fin q /\ -1 <= q <= 0) recent_returns ->
  0 <= entry_price ->
  (Fin entry_price <? target_price)%num = true ->
  exists q,
    fst (estimate_success_probability sd (Fin entry_price) target_price stop_loss
           n_simulations lookback_days g)
    = Ok (Fin q)
    /\ q == 0.
Proof.
  intros Hrr Hlen Hn Hdown He Ht. unfold estimate_success_probability.
  destruct (time_series sd) as [| r rows].
  - cbn in Hrr. injection Hrr as <-. exfalso.
    unfold slice_from in Hlen.
    destruct (- lookback_days <? 0)%Z; rewrite skipn_nil in Hlen; cbn in Hlen; lia.
  - unfold M_bind, M_lift. rewrite Hrr.
    assert (Hne : recent_returns <> []) by (intros ->; cbn in Hlen; lia).
    apply Nat.ltb_ge in Hlen. rewrite Hlen.
    assert (Hsim : fst (simulate (Z.to_nat n_simulations) recent_returns
                          (Fin entry_price) target_price stop_loss 0 g) = 0%Z).
    { apply simulate_all_failures, trial_paths_Forall; [exact Hne |].
      intros rs _ Hin. apply trial_hits_never_above_entry; [| exact Ht].
      apply price_path_never_above_entry; [exact He |].
      apply Forall_forall. intros x Hx. rewrite Forall_forall in Hin, Hdown.
      apply Hdown, Hin, Hx. }
    destruct (simulate (Z.to_nat n_simulations) recent_returns (Fin entry_price)
                target_price stop_loss 0 g) as [hits g1].
    cbn [fst] in *. subst hits. rewrite py_int_truediv_ok by lia.
    eexists. split; [reflexivity |]. unfold Qdiv. ring.
Qed.

Lemma estimate_success_probability_zero_without_gains_witness :
  exists q,
    fst (estimate_success_probability Samples.flat (Fin 100) (Fin (10001 # 100))
           (Fin 50) 2000 60 (seed Samples.flip_stream))
    = Ok (Fin q)
    /\ q == 0.
Proof.
  apply (estimate_success_probability_zero_without_gains Samples.flat 100
           (Fin (10001 # 100)) (Fin 50) 2000 60 (seed Samples.flip_stream)
           (repeat (Fin (100 / 100 - 1)) 6)).
  - vm_compute. reflexivity.
  - cbn. lia.
  - lia.
  - repeat constructor; (eexists; split; [reflexivity | split; vm_compute; discriminate]).
  - vm_compute. discriminate.
  - vm_compute. reflexivity.
Defined.

Lemma cumprod_from_finite (a : Q) (s : list num) :
  Forall (fun f => is_finite f = true) s ->
  Forall (fun c => is_finite c = true) (cumprod_from (Fin a) s).
Proof.
  revert a. induction s as [| f s IH]; intros a H; cbn [cumprod_from].
  - constructor.
  - inversion H as [| ? ? Hf Hs]; subst. destruct f as [q | | |]; try discriminate.
    change (Fin a * Fin q)%num with (Fin (a * q)).
    constructor; [reflexivity | now apply IH].
Qed.

Lemma price_path_first_move (e q : Q) (rs : list num) :
  Forall (fun r => is_finite r = true) rs ->
  exists rest,
    price_path_of (Fin e) (Fin q :: rs) = Fin (e * (1 + q)) :: rest
    /\ Forall (fun p => is_finite p = true) rest.
Proof.
  intros H. unfold price_path_of. cbn [map cumprod].
  eexists. split; [reflexivity |].
  assert (Hf : Forall (fun f => is_finite f = true) (map (add one) rs)).
  { apply Forall_forall. intros f Hf. apply in_map_iff in Hf.
    destruct Hf as (r & <- & Hr). rewrite Forall_forall in H.
    specialize (H r Hr). now destruct r. }
  change (one + Fin q)%num with (Fin (1 + q)).
  pose proof (cumprod_from_finite (1 + q) _ Hf) as Hc.
  apply Forall_forall. intros p Hp. apply in_map_iff in Hp.
  destruct Hp as (c & <- & Hc'). rewrite Forall_forall in Hc.
  specialize (Hc c Hc'). now destruct c.
Qed.

Lemma trial_hits_first_move_reaches_target (x : num) (rest : list num) (e t s : num) :
  is_finite x = true -> Forall (fun p => is_finite p = true) rest ->
  (t <=? x)%num = true ->
  trial_hits (x :: rest) e t s = 1%Z.
Proof.
  intros Hx Hrest Ht. unfold trial_hits, np_max. rewrite geb_fold_np_max2.
  assert (Hnan : existsb is_nan (x :: rest) = false).
  { destruct (existsb is_nan (x :: rest)) eqn:E; [| reflexivity].
    apply existsb_exists in E. destruct E as (y & [<- | Hy] & Hn).
    - now destruct x.
    - rewrite Forall_forall in Hrest. specialize (Hrest y Hy). now destruct y. }
  rewrite Hnan. cbn [existsb negb andb]. unfold geb at 1. now rewrite Ht.
Qed.

(** When every lookback return, applied once to the entry price, already
    reaches the target, the first simulated price of every trial reaches it,
    every trial succeeds and the estimate is 1, whatever the generator draws
    and wherever the stop is. *)
Theorem estimate_success_probability_one_when_every_move_reaches_target
    (sd : stock_data) (entry_price : Q) (target_price stop_loss : num)
    (n_simulations lookback_days : Z) (g : rng) (recent_returns : list num) :
  recent_returns_of (time_series sd) lookback_days = Ok recent_returns ->
  (5 <= List.length recent_returns)%nat ->
  (0 < n_simulations)%Z ->
  Forall (fun r => exists q, r = Fin q
                             /\ (target_price <=? Fin (entry_price * (1 + q)))%num = true)
         recent_returns ->
  exists q,
    fst (estimate_success_probability sd (Fin entry_price) target_price stop_loss
           n_simulations lookback_days g)
    = Ok (Fin q)
    /\ q == 1.
Proof.
  intros Hrr Hlen Hn Hup. unfold estimate_success_probability.
  destruct (time_series sd) as [| r rows].
  - cbn in Hrr. injection Hrr as <-. exfalso.
    unfold slice_from in Hlen.
    destruct (- lookback_days <? 0)%Z; rewrite skipn_nil in Hlen; cbn in Hlen; lia.
  - unfold M_bind, M_lift. rewrite Hrr.
    assert (Hne : recent_returns <> []) by (intros ->; cbn in Hlen; lia).
    apply Nat.ltb_ge in Hlen. rewrite Hlen.
    assert (Hsim : fst (simulate (Z.to_nat n_simulations) recent_returns
                          (Fin entry_price) target_price stop_loss 0 g)
                   = Z.of_nat (Z.to_nat n_simulations)).
    { apply simulate_all_successes, trial_paths_Forall; [exact Hne |].
      intros rs Hrs Hin. destruct rs as [| r0 rs]; [contradiction |].
      inversion Hin as [| ? ? Hr0 Hin']; subst.
      rewrite Forall_forall in Hup. destruct (Hup r0 Hr0) as (q & -> & Hq).
      assert (Hfin : Forall (fun x => is_finite x = true) rs).
      { apply Forall_forall. intros x Hx. rewrite Forall_forall in Hin'.
        destruct (Hup x (Hin' x Hx)) as (qx & -> & _). reflexivity. }
      destruct (price_path_first_move entry_price q rs Hfin) as (rest & -> & Hrest).
      now apply trial_hits_first_move_reaches_target. }
    destruct (simulate (Z.to_nat n_simulations) recent_returns (Fin entry_price)
                target_price stop_loss 0 g) as [hits g1].
    cbn [fst] in *. subst hits. rewrite py_int_truediv_ok by lia.
    eexists. split; [reflexivity |]. rewrite Z2Nat.id by lia.
    field. unfold Qeq. cbn. lia.
Qed.

Lemma estimate_success_probability_one_when_every_move_reaches_target_witness :
  exists q,
    fst (estimate_success_probability Samples.rising (Fin 216) (Fin 300) (Fin 95)
           1000 60 (seed Samples.flip_stream))
    = Ok (Fin q)
    /\ q == 1.
Proof.
  apply (estimate_success_probability_one_when_every_move_reaches_target
           Samples.rising 216 (Fin 300) (Fin 95) 1000 60 (seed Samples.flip_stream)
           [Fin (2 / 1 - 1); Fin (6 / 2 - 1); Fin (12 / 6 - 1); Fin (36 / 12 - 1);
            Fin (72 / 36 - 1); Fin (216 / 72 - 1)]).
  - vm_compute. reflexivity.
  - cbn. lia.
  - lia.
  - repeat constructor; (eexists; split; [reflexivity | vm_compute; reflexivity]).
Defined.

Lemma recent_returns_of_slice (rows : list (string * bar)) (lookback_days : Z)
    (rr : list num) :
  recent_returns_of rows lookback_days = Ok rr ->
  exists all_returns,
    recent_returns_of rows 0 = Ok all_returns
    /\ rr = slice_from (- lookback_days) all_returns.
Proof.
  unfold recent_returns_of.
  destruct (astype_float (map (fun r => close (snd r)) rows)) as [col |]; [| discriminate].
  cbn [res_bind]. intros [= <-]. eexists. split; reflexivity.
Qed.

(** The simulator resamples the most recent [lookback_days] daily returns:
    a suffix of all the daily returns, of length [lookback_days] or all of
    them when there are fewer.  A lookback of 0 does not give an empty
    window: it selects every return. *)
Theorem recent_returns_of_window
    (rows : list (string * bar)) (lookback_days : Z) (recent_returns : list num) :
  recent_returns_of rows lookback_days = Ok recent_returns ->
  exists all_returns older,
    recent_returns_of rows 0 = Ok all_returns
    /\ all_returns = (older ++ recent_returns)%list
    /\ (0 < lookback_days ->
        List.length recent_returns
        = Nat.min (Z.to_nat lookback_days) (List.length all_returns))%Z
    /\ (lookback_days = 0%Z -> recent_returns = all_returns).
Proof.
  intros H. destruct (recent_returns_of_slice rows lookback_days recent_returns H)
    as (all_returns & Hall & ->).
  exists all_returns. unfold slice_from.
  destruct (- lookback_days <? 0)%Z eqn:E.
  - apply Z.ltb_lt in E.
    set (k := Z.to_nat (Z.max (Z.of_nat (List.length all_returns) + - lookback_days) 0)).
    exists (firstn k all_returns). split; [exact Hall |].
    split; [symmetry; apply firstn_skipn |]. split; [| lia].
    intros _. rewrite length_skipn. unfold k. lia.
  - apply Z.ltb_ge in E.
    exists (firstn (Z.to_nat (- lookback_days)) all_returns). split; [exact Hall |].
    split; [symmetry; apply firstn_skipn |]. split; [lia |].
    intros ->. reflexivity.
Qed.

Lemma recent_returns_of_window_witness :
  exists rr,
    recent_returns_of (time_series Samples.zigzag) 2 = Ok rr /\ List.length rr = 2%nat.
Proof.
  destruct (recent_returns_of_window (time_series Samples.zigzag) 2
              [Fin (200 / 100 - 1); Fin (100 / 200 - 1)]
              ltac:(vm_compute; reflexivity))
    as (all_returns & older & Hall & _ & Hlen & _).
  eexists. split; [vm_compute; reflexivity | reflexivity].
Defined.

(** ** calculate_risk_reward: what it returns and what it raises *)

Lemma dict_get_set_same (k : string) (v : pyval) (d : dict) :
  dict_get k (dict_set k v d) = Some v.
Proof.
  induction d as [| [k' v'] d IH]; cbn.
  - now rewrite String.eqb_refl.
  - destruct (String.eqb k k') eqn:E; cbn; [now rewrite String.eqb_refl | now rewrite E].
Qed.

Lemma dict_get_set_other (k k0 : string) (v : pyval) (d : dict) :
  k <> k0 -> dict_get k (dict_set k0 v d) = dict_get k d.
Proof.
  intros Hk. apply String.eqb_neq in Hk.
  induction d as [| [k' v'] d IH]; cbn.
  - now rewrite Hk.
  - destruct (String.eqb k0 k') eqn:E; cbn.
    + apply String.eqb_eq in E. subst k'. now rewrite Hk.
    + now rewrite IH.
Qed.

(** The reward entry built from the four metrics. *)
Lemma calculate_risk_reward_on_report
    (savefig : figure -> res string) (print : string -> res unit)
    (sd : stock_data)
    (target_price stop_loss : num) (user_volume : option num)
    (holding_period_days : Z) (risk_free_rate : num) (g : rng) (d : dict) :
  analyse_risk savefig print sd target_price stop_loss user_volume = Ok d ->
  dict_in "error" d = false ->
  exists current_price volatility,
    dict_get "current_price" d = Some (VNum current_price)
    /\ dict_get2 "risk_analysis" "volatility" d = Some (VNum volatility)
    /\ is_zero current_price = false
    /\ (forall r, In r (time_series sd) -> exists x, close (snd r) = Text_num x)
    /\ calculate_risk_reward savefig print sd target_price stop_loss user_volume
         holding_period_days risk_free_rate g
       = match py_int_truediv 252 holding_period_days with
         | Raise e => (Raise e, g)
         | Ok periods =>
             let annualized_return :=
               ((target_price / current_price - one) * periods)%num in
             match py_div (annualized_return - risk_free_rate)%num volatility with
             | Raise e => (Raise e, g)
             | Ok sharpe_ratio =>
                 match estimate_success_probability sd current_price target_price
                         stop_loss 1000 60 g with
                 | (Raise e, g') => (Raise e, g')
                 | (Ok p, g') =>
                     match py_div (p * (target_price / current_price - one))%num
                             ((one - p) * abs (stop_loss / current_price - one))%num with
                     | Raise e => (Raise e, g')
                     | Ok rr =>
                         (Ok (dict_set "reward_analysis"
                                (VDict
                                   [("sharpe_ratio", VNum sharpe_ratio);
                                    ("annualized_return_pct",
                                     VNum (annualized_return * Fin 100)%num);
                                    ("risk_reward_ratio", VNum rr);
                                    ("success_probability", VNum p);
                                    ("rating", VStr (get_rating sharpe_ratio rr))])
                                d), g')
                     end
                 end
             end
         end.
Proof.
  intros Hd Herr.
  destruct (analyse_risk_returned savefig print sd target_price stop_loss user_volume _ Hd)
    as (d' & Hd' & Hshape).
  rewrite Hd in Hd'. injection Hd' as <-.
  destruct Hshape as [(msg & -> & _) | Hrep]; [discriminate |].
  destruct Hrep as (cp & closes & volumes & dd & img & _ & _ & Hc & _ & Hdd & _ & Hrep).
  exists cp, (volatility_of closes).
  assert (Hz : is_zero cp = false).
  { unfold drawdown_of, py_div in Hdd. destruct (is_zero cp); [discriminate | reflexivity]. }
  split; [now rewrite Hrep |]. split; [now rewrite Hrep |]. split; [exact Hz |]. split.
  { intros r Hr. apply astype_float_Ok in Hc.
    assert (Hin : In (close (snd r)) (map close (values (sort_index (time_series sd))))).
    { unfold values. rewrite map_map. apply (in_map (fun x => close (snd x))).
      eapply Permutation_in; [apply sort_index_Permutation | exact Hr]. }
    rewrite Hc in Hin. apply in_map_iff in Hin. destruct Hin as (x & Hx & _). now exists x. }
  assert (Hsub1 : subscript d "current_price" = Ok (VNum cp)) by now rewrite Hrep.
  assert (Hsub2 : (ra <- subscript d "risk_analysis" ;;
                   ra <- as_dict ra ;;
                   v <- subscript ra "volatility" ;;
                   as_num v) = Ok (volatility_of closes)) by now rewrite Hrep.
  unfold calculate_risk_reward, M_bind, M_lift, M_ret.
  rewrite Hd, Herr, Hsub1, Hsub2. cbn [res_bind as_num].
  unfold py_div at 1. rewrite Hz. cbn [res_bind].
  destruct (py_int_truediv 252 holding_period_days) as [periods |]; [| reflexivity].
  cbn [res_bind]. cbv zeta.
  match goal with
  | |- context [py_div ?a (volatility_of closes)] =>
      destruct (py_div a (volatility_of closes)) as [sharpe |]; [| reflexivity]
  end.
  destruct (estimate_success_probability sd cp target_price stop_loss 1000 60 g)
    as [[p |] g']; [| reflexivity].
  unfold py_div at 1. rewrite Hz. cbn [res_bind].
  match goal with
  | |- context [py_div ?a ?b] => destruct (py_div a b); reflexivity
  end.
Qed.

Lemma recent_returns_of_parses (rows : list (string * bar)) (lookback_days : Z) :
  (forall r, In r rows -> exists x, close (snd r) = Text_num x) ->
  exists rr, recent_returns_of rows lookback_days = Ok rr.
Proof.
  intros H. unfold recent_returns_of.
  destruct (astype_float_all_parse (map (fun r => close (snd r)) rows)) as [col Hcol].
  { intros f Hf. apply in_map_iff in Hf. destruct Hf as (r & <- & Hr). now apply H. }
  rewrite Hcol. cbn [res_bind]. now eexists.
Qed.

(** The simulator returns a probability between 0 and 1 whenever it returns,
    for a positive number of trials. *)
Lemma estimate_success_probability_range sd e t s n lb g p g' :
  (0 < n)%Z ->
  estimate_success_probability sd e t s n lb g = (Ok p, g') ->
  exists q, p = Fin q /\ 0 <= q <= 1.
Proof.
  intros Hn. unfold estimate_success_probability.
  destruct (time_series sd) as [| r rows].
  { intros [= <- _]. exists 0.5. split; [reflexivity | lra]. }
  unfold M_bind, M_lift, M_ret.
  destruct (recent_returns_of (r :: rows) lb) as [rr |]; [| discriminate].
  destruct (List.length rr <? 5)%nat.
  { intros [= <- _]. exists 0.5. split; [reflexivity | lra]. }
  pose proof (simulate_counts (Z.to_nat n) rr e t s 0%Z g) as Hsim.
  destruct (simulate (Z.to_nat n) rr e t s 0 g) as [hits g1]. cbn [fst] in Hsim.
  rewrite py_int_truediv_ok by lia. intros [= <- _].
  eexists. split; [reflexivity |]. apply ratio_in_unit_interval; [| exact Hn].
  pose proof (filter_length_le (fun p => trial_success p e t s)
                (trial_paths (Z.to_nat n) rr e g)) as Hle.
  rewrite (proj1 (trial_paths_shape (Z.to_nat n) rr e g)) in Hle. lia.
Qed.

Lemma estimate_success_probability_returns sd e t s n lb g :
  (forall r, In r (time_series sd) -> exists x, close (snd r) = Text_num x) ->
  n <> 0%Z ->
  exists p g', estimate_success_probability sd e t s n lb g = (Ok p, g').
Proof.
  intros Hparse Hn. unfold estimate_success_probability.
  destruct (time_series sd) as [| r rows]; [now do 2 eexists |].
  unfold M_bind, M_lift, M_ret.
  destruct (recent_returns_of_parses (r :: rows) lb Hparse) as [rr ->].
  destruct (List.length rr <? 5)%nat; [now do 2 eexists |].
  destruct (simulate (Z.to_nat n) rr e t s 0 g) as [hits g1].
  rewrite py_int_truediv_ok by exact Hn. now do 2 eexists.
Qed.

Lemma py_div_raises (x y : num) (e : exn) :
  py_div x y = Raise e -> e = mk_exn ZeroDivisionError "float division by zero".
Proof. unfold py_div. destruct (is_zero y); [now intros [= <-] | discriminate]. Qed.

Lemma py_int_truediv_raises (a b : Z) (e : exn) :
  py_int_truediv a b = Raise e ->
  b = 0%Z /\ e = mk_exn ZeroDivisionError "division by zero".
Proof.
  unfold py_int_truediv. destruct (b =? 0)%Z eqn:E; [| discriminate].
  intros [= <-]. apply Z.eqb_eq in E. now split.
Qed.

(** Whatever the input, an exception that [calculate_risk_reward] lets
    through is a [ZeroDivisionError] of its own divisions or the exception of
    the [print] in the handler of the risk analysis: the lookups in the risk
    report never fail, and the closes the simulator parses have already been
    parsed by the risk analysis. *)
Theorem calculate_risk_reward_raises_zero_division_or_failed_print
    (savefig : figure -> res string) (print : string -> res unit)
    (sd : stock_data)
    (target_price stop_loss : num) (user_volume : option num)
    (holding_period_days : Z) (risk_free_rate : num) (g g' : rng) (e : exn) :
  calculate_risk_reward savefig print sd target_price stop_loss user_volume
    holding_period_days risk_free_rate g
  = (Raise e, g') ->
  exn_type e = ZeroDivisionError
  \/ (exists e0,
        analyse_risk_body savefig sd target_price stop_loss user_volume = Raise e0
        /\ print ("Error in risk analysis: " ++ exn_msg e0) = Raise e).
Proof.
  intros Hrun.
  destruct (analyse_risk_total savefig print sd target_price stop_loss user_volume)
    as [(d & Hd & _) | (e0 & e' & Hbody & Hprint & Hd)].
  2:{ right. exists e0. split; [exact Hbody |].
      unfold calculate_risk_reward, M_bind, M_lift, M_ret in Hrun.
      rewrite Hd in Hrun. injection Hrun as <- _. exact Hprint. }
  left.
  destruct (dict_in "error" d) eqn:Herr.
  - unfold calculate_risk_reward, M_bind, M_lift, M_ret in Hrun.
    rewrite Hd, Herr in Hrun. discriminate.
  - destruct (calculate_risk_reward_on_report savefig print sd target_price stop_loss
                user_volume holding_period_days risk_free_rate g d Hd Herr)
      as (cp & vol & _ & _ & _ & Hparse & Heq).
    rewrite Heq in Hrun. clear Heq.
    destruct (py_int_truediv 252 holding_period_days) as [periods | e0] eqn:Hp.
    2:{ injection Hrun as <- _. now destruct (py_int_truediv_raises _ _ _ Hp) as [_ ->]. }
    cbv zeta in Hrun.
    match type of Hrun with
    | context [py_div ?a vol] => destruct (py_div a vol) as [sharpe | e0] eqn:Hs
    end.
    2:{ injection Hrun as <- _. now rewrite (py_div_raises _ _ _ Hs). }
    destruct (estimate_success_probability_returns sd cp target_price stop_loss
                1000 60 g Hparse ltac:(discriminate)) as (p & g1 & Hest).
    rewrite Hest in Hrun.
    match type of Hrun with
    | context [py_div ?a ?b] => destruct (py_div a b) as [rr | e0] eqn:Hr
    end; [discriminate |].
    injection Hrun as <- _. now rewrite (py_div_raises _ _ _ Hr).
Qed.

Lemma calculate_risk_reward_raises_zero_division_or_failed_print_witness :
  exists e g',
    calculate_risk_reward Samples.blank_chart Samples.closed_stdout Samples.unpriced
      (Fin 140) (Fin 95) (Some (Fin 0)) 30 (Fin 0.04) (seed Samples.zero_stream)
    = (Raise e, g')
    /\ (exn_type e = ZeroDivisionError
        \/ (exists e0,
              analyse_risk_body Samples.blank_chart Samples.unpriced (Fin 140) (Fin 95)
                (Some (Fin 0)) = Raise e0
              /\ Samples.closed_stdout ("Error in risk analysis: " ++ exn_msg e0)
                 = Raise e)).
Proof.
  do 2 eexists. split; [vm_compute; reflexivity |].
  apply (calculate_risk_reward_raises_zero_division_or_failed_print Samples.blank_chart
           Samples.closed_stdout Samples.unpriced (Fin 140) (Fin 95) (Some (Fin 0)) 30
           (Fin 0.04) (seed Samples.zero_stream) (seed Samples.zero_stream)).
  vm_compute. reflexivity.
Defined.

(** A reward analysis is returned only when the holding period and the
    reported volatility are not zero; it is the risk report with every entry
    unchanged and one new "reward_analysis" entry, which holds the five
    reward fields, a success probability between 0 and 1 and the rating of
    the reported Sharpe and risk/reward ratios. *)
Theorem calculate_risk_reward_extends_the_risk_report
    (savefig : figure -> res string) (print : string -> res unit)
    (sd : stock_data)
    (target_price stop_loss : num) (user_volume : option num)
    (holding_period_days : Z) (risk_free_rate : num) (g g' : rng) (d' : dict) :
  calculate_risk_reward savefig print sd target_price stop_loss user_volume
    holding_period_days risk_free_rate g
  = (Ok d', g') ->
  dict_in "error" d' = false ->
  exists d volatility sharpe_ratio risk_reward_ratio p,
    analyse_risk savefig print sd target_price stop_loss user_volume = Ok d
    /\ (forall k, k <> "reward_analysis" -> dict_get k d' = dict_get k d)
    /\ dict_in "reward_analysis" d = false
    /\ holding_period_days <> 0%Z
    /\ dict_get2 "risk_analysis" "volatility" d = Some (VNum volatility)
    /\ is_zero volatility = false
    /\ forallb (fun k => match dict_get2 "reward_analysis" k d' with
                         | Some _ => true
                         | None => false
                         end) reward_analysis_keys = true
    /\ dict_get2 "reward_analysis" "sharpe_ratio" d' = Some (VNum sharpe_ratio)
    /\ dict_get2 "reward_analysis" "risk_reward_ratio" d' = Some (VNum risk_reward_ratio)
    /\ dict_get2 "reward_analysis" "rating" d'
       = Some (VStr (get_rating sharpe_ratio risk_reward_ratio))
    /\ dict_get2 "reward_analysis" "success_probability" d' = Some (VNum (Fin p))
    /\ 0 <= p <= 1.
Proof.
  intros Hrun Herr'.
  destruct (analyse_risk_total savefig print sd target_price stop_loss user_volume)
    as [(d & Hd & Hshape) | (e0 & e & _ & _ & Hd)].
  2:{ unfold calculate_risk_reward, M_bind, M_lift, M_ret in Hrun.
      rewrite Hd in Hrun. discriminate. }
  destruct (dict_in "error" d) eqn:Herr.
  { unfold calculate_risk_reward, M_bind, M_lift, M_ret in Hrun.
    rewrite Hd, Herr in Hrun. injection Hrun as <- _. congruence. }
  assert (Hnoreward : dict_in "reward_analysis" d = false).
  { destruct Hshape as [(msg & -> & _) | Hrep]; [reflexivity |].
    destruct Hrep as (cp & closes & volumes & dd & img & _ & _ & _ & _ & _ & _ & ->).
    reflexivity. }
  destruct (calculate_risk_reward_on_report savefig print sd target_price stop_loss
              user_volume holding_period_days risk_free_rate g d Hd Herr)
    as (cp & vol & _ & Hvol & _ & _ & Heq).
  rewrite Heq in Hrun. clear Heq.
  destruct (py_int_truediv 252 holding_period_days) as [periods |] eqn:Hp;
    [| discriminate].
  cbv zeta in Hrun.
  match type of Hrun with
  | context [py_div ?a vol] => destruct (py_div a vol) as [sharpe |] eqn:Hs
  end; [| discriminate].
  destruct (estimate_success_probability sd cp target_price stop_loss 1000 60 g)
    as [[p |] g1] eqn:Hest; [| discriminate].
  match type of Hrun with
  | context [py_div ?a ?b] => destruct (py_div a b) as [rr |] eqn:Hr
  end; [| discriminate].
  injection Hrun as <- _.
  destruct (estimate_success_probability_range sd cp target_price stop_loss 1000 60
              g p g1 ltac:(lia) Hest)
    as (q & -> & Hq).
  exists d, vol, sharpe, rr, q.
  split; [exact Hd |].
  split; [intros k Hk; now apply dict_get_set_other |].
  split; [exact Hnoreward |].
  split.
  { intros ->. discriminate. }
  split; [exact Hvol |].
  split.
  { unfold py_div in Hs. destruct (is_zero vol); [discriminate | reflexivity]. }
  unfold dict_get2. rewrite dict_get_set_same. cbn. repeat split; apply Hq.
Qed.

Lemma calculate_risk_reward_extends_the_risk_report_witness :
  exists d' p,
    fst (calculate_risk_reward Samples.blank_chart Samples.stdout Samples.zigzag (Fin 150) (Fin 10)
           (Some (Fin 0)) 30 (Fin 0.04) (seed Samples.flip_stream))
    = Ok d'
    /\ dict_get2 "reward_analysis" "success_probability" d' = Some (VNum (Fin p))
    /\ 0 <= p <= 1.
Proof.
  destruct (calculate_risk_reward_extends_the_risk_report Samples.blank_chart Samples.stdout
              Samples.zigzag (Fin 150) (Fin 10) (Some (Fin 0)) 30 (Fin 0.04)
              (seed Samples.flip_stream) _ _
              ltac:(vm_compute; reflexivity) ltac:(vm_compute; reflexivity))
    as (d & vol & sharpe & rr & p & _ & _ & _ & _ & _ & _ & _ & _ & _ & _ & Hp & Hrange).
  eexists. exists p. split; [vm_compute; reflexivity |]. split; [exact Hp | exact Hrange].
Defined.

(** With a holding period of 0 days, a successful risk analysis is followed
    by [ZeroDivisionError] ("division by zero") from 252 / 0, before the
    Sharpe ratio and before any trial. *)
Theorem calculate_risk_reward_zero_holding_period
    (savefig : figure -> res string) (print : string -> res unit)
    (sd : stock_data)
    (target_price stop_loss : num) (user_volume : option num)
    (risk_free_rate : num) (g : rng) (d : dict) :
  analyse_risk savefig print sd target_price stop_loss user_volume = Ok d ->
  dict_in "error" d = false ->
  calculate_risk_reward savefig print sd target_price stop_loss user_volume
    0 risk_free_rate g
  = (Raise (mk_exn ZeroDivisionError "division by zero"), g).
Proof.
  intros Hd Herr.
  destruct (calculate_risk_reward_on_report savefig print sd target_price stop_loss
              user_volume 0 risk_free_rate g d Hd Herr)
    as (cp & vol & _ & _ & _ & _ & Heq).
  rewrite Heq. reflexivity.
Qed.

Lemma calculate_risk_reward_zero_holding_period_witness :
  calculate_risk_reward Samples.blank_chart Samples.stdout Samples.rising (Fin 300) (Fin 95)
    (Some (Fin 0)) 0 (Fin 0.04) (seed Samples.zero_stream)
  = (Raise (mk_exn ZeroDivisionError "division by zero"), seed Samples.zero_stream).
Proof.
  refine (calculate_risk_reward_zero_holding_period Samples.blank_chart Samples.stdout Samples.rising
            (Fin 300) (Fin 95) (Some (Fin 0)) (Fin 0.04) (seed Samples.zero_stream)
            _ _ _).
  - vm_compute. reflexivity.
  - vm_compute. reflexivity.
Defined.

(** ** calculate_risk_reward: the order of the entries *)

Lemma analyse_risk_permuted
    (savefig : figure -> res string) (print : string -> res unit)
    (rows rows' : list (string * bar))
    (symbol : option string) (t s : num) (uv : option num) :
  Permutation rows rows' -> NoDup (keys rows) ->
  analyse_risk savefig print (mk_stock_data rows symbol) t s uv
  = analyse_risk savefig print (mk_stock_data rows' symbol) t s uv.
Proof.
  intros Hp Hnd. unfold analyse_risk, analyse_risk_body, symbol_of.
  cbn [time_series meta_symbol].
  destruct rows as [| r rows], rows' as [| r' rows'].
  - reflexivity.
  - now apply Permutation_nil_cons in Hp.
  - now apply Permutation_sym, Permutation_nil_cons in Hp.
  - now rewrite (sort_index_order_independent _ _ Hp Hnd).
Qed.

Lemma combine_map_fst {A B} (f : A -> B) (h : A -> string) (l : list A) :
  combine (map h l) (map f l) = map (fun r => (h r, f r)) l.
Proof. induction l as [| x l IH]; cbn; [| rewrite IH]; reflexivity. Qed.

Lemma astype_float_closes (rows : list (string * bar)) :
  (forall r, In r rows -> exists x, close (snd r) = Text_num x) ->
  astype_float (map (fun r => close (snd r)) rows) = Ok (map close_or_nan rows).
Proof.
  intros H. apply astype_float_Ok. rewrite map_map. apply map_ext_in.
  intros r Hr. unfold close_or_nan. destruct (H r Hr) as [x ->]. reflexivity.
Qed.

Lemma recent_returns_of_permuted (rows rows' : list (string * bar)) (lookback_days : Z) :
  Permutation rows rows' -> NoDup (keys rows) ->
  (forall r, In r rows -> exists x, close (snd r) = Text_num x) ->
  recent_returns_of rows lookback_days = recent_returns_of rows' lookback_days.
Proof.
  intros Hp Hnd Hparse.
  assert (Hparse' : forall r, In r rows' -> exists x, close (snd r) = Text_num x).
  { intros r Hr. apply Hparse. eapply Permutation_in; [apply Permutation_sym, Hp | exact Hr]. }
  unfold recent_returns_of.
  rewrite (astype_float_closes rows Hparse), (astype_float_closes rows' Hparse').
  cbn [res_bind]. rewrite !combine_map_fst.
  rewrite (sort_index_order_independent
             (map (fun r => (fst r, close_or_nan r)) rows)
             (map (fun r => (fst r, close_or_nan r)) rows')).
  - reflexivity.
  - now apply Permutation_map.
  - unfold keys in *. now rewrite map_map.
Qed.

Lemma estimate_success_probability_permuted
    (rows rows' : list (string * bar)) (symbol : option string)
    (e t s : num) (n lb : Z) (g : rng) :
  Permutation rows rows' -> NoDup (keys rows) ->
  (forall r, In r rows -> exists x, close (snd r) = Text_num x) ->
  estimate_success_probability (mk_stock_data rows symbol) e t s n lb g
  = estimate_success_probability (mk_stock_data rows' symbol) e t s n lb g.
Proof.
  intros Hp Hnd Hparse. unfold estimate_success_probability. cbn [time_series].
  pose proof (recent_returns_of_permuted rows rows' lb Hp Hnd Hparse) as Hrr.
  destruct rows as [| r rows], rows' as [| r' rows'].
  - reflexivity.
  - now apply Permutation_nil_cons in Hp.
  - now apply Permutation_sym, Permutation_nil_cons in Hp.
  - unfold M_bind, M_lift. now rewrite Hrr.
Qed.

(** The whole risk/reward analysis (result and generator state) does not
    depend on the order in which the entries of the time series arrive, as
    long as no date is repeated. *)
Theorem calculate_risk_reward_order_independent
    (savefig : figure -> res string) (print : string -> res unit)
    (rows rows' : list (string * bar))
    (symbol : option string) (target_price stop_loss : num)
    (user_volume : option num) (holding_period_days : Z) (risk_free_rate : num)
    (g : rng) :
  Permutation rows rows' ->
  NoDup (keys rows) ->
  calculate_risk_reward savefig print (mk_stock_data rows symbol) target_price stop_loss
    user_volume holding_period_days risk_free_rate g
  = calculate_risk_reward savefig print (mk_stock_data rows' symbol) target_price stop_loss
      user_volume holding_period_days risk_free_rate g.
Proof.
  intros Hp Hnd.
  pose proof (analyse_risk_permuted savefig print rows rows' symbol target_price stop_loss
                user_volume Hp Hnd) as Ha.
  destruct (analyse_risk_total savefig print (mk_stock_data rows symbol) target_price
              stop_loss user_volume) as [(d & Hd & _) | (e0 & e & _ & _ & Hd)].
  2:{ unfold calculate_risk_reward, M_bind, M_lift, M_ret. now rewrite <- Ha, Hd. }
  assert (Hd' : analyse_risk savefig print (mk_stock_data rows' symbol) target_price
                  stop_loss user_volume = Ok d) by now rewrite <- Ha.
  destruct (dict_in "error" d) eqn:Herr.
  - unfold calculate_risk_reward, M_bind, M_lift, M_ret. now rewrite Hd, Hd', Herr.
  - destruct (calculate_risk_reward_on_report savefig print (mk_stock_data rows symbol)
                target_price stop_loss user_volume holding_period_days risk_free_rate
                g d Hd Herr)
      as (cp & vol & Hcp & Hvol & _ & Hparse & ->).
    destruct (calculate_risk_reward_on_report savefig print (mk_stock_data rows' symbol)
                target_price stop_loss user_volume holding_period_days risk_free_rate
                g d Hd' Herr)
      as (cp' & vol' & Hcp' & Hvol' & _ & _ & ->).
    rewrite Hcp in Hcp'. injection Hcp' as <-.
    rewrite Hvol in Hvol'. injection Hvol' as <-.
    cbn [time_series] in Hparse.
    now rewrite (estimate_success_probability_permuted rows rows' symbol cp target_price
                   stop_loss 1000 60 g Hp Hnd Hparse).
Qed.

Lemma calculate_risk_reward_order_independent_witness :
  calculate_risk_reward Samples.blank_chart Samples.stdout
    (mk_stock_data [("2024-01-02", mk_bar (Text_num (Fin 101)) (Text_num (Fin 1000)));
                    ("2024-01-01", mk_bar (Text_num (Fin 100)) (Text_num (Fin 1000)))]
       None)
    (Fin 140) (Fin 95) None 30 (Fin 0.04) (seed Samples.zero_stream)
  = calculate_risk_reward Samples.blank_chart Samples.stdout
      (mk_stock_data [("2024-01-01", mk_bar (Text_num (Fin 100)) (Text_num (Fin 1000)));
                      ("2024-01-02", mk_bar (Text_num (Fin 101)) (Text_num (Fin 1000)))]
         None)
      (Fin 140) (Fin 95) None 30 (Fin 0.04) (seed Samples.zero_stream).
Proof.
  apply calculate_risk_reward_order_independent.
  - apply perm_swap.
  - repeat constructor; cbn; intuition discriminate.
Defined.

(** ** get_rating *)

Lemma ltb_leb_trans (c x y : num) :
  (c <? x)%num = true -> (x <=? y)%num = true -> (c <? y)%num = true.
Proof. num_order. Qed.

Lemma gtb_weaken (x : num) (c c' : Q) :
  c' <= c -> (x >? Fin c)%num = true -> (x >? Fin c')%num = true.
Proof.
  unfold gtb. intros Hc. destruct x as [q | | |]; cbn; try discriminate; try reflexivity.
  destruct (Qcompare_spec c q); try discriminate.
  destruct (Qcompare_spec c' q); try reflexivity; lra.
Qed.

Lemma rating_rank_get_rating (sharpe rr_ratio : num) :
  rating_rank (get_rating sharpe rr_ratio)
  = if (sharpe >? Fin 1.5)%num && (rr_ratio >? Fin 2.0)%num then 3%nat
    else if (sharpe >? Fin 1.0)%num && (rr_ratio >? Fin 1.5)%num then 2%nat
    else if (sharpe >? Fin 0.5)%num && (rr_ratio >? Fin 1.0)%num then 1%nat
    else 0%nat.
Proof.
  unfold get_rating.
  destruct ((sharpe >? Fin 1.5)%num && (rr_ratio >? Fin 2.0)%num); [reflexivity |].
  destruct ((sharpe >? Fin 1.0)%num && (rr_ratio >? Fin 1.5)%num); [reflexivity |].
  destruct ((sharpe >? Fin 0.5)%num && (rr_ratio >? Fin 1.0)%num); reflexivity.
Qed.

Lemma rating_test_monotone (c1 c2 : num) (sharpe sharpe' rr_ratio rr_ratio' : num) :
  (sharpe <=? sharpe')%num = true ->
  (rr_ratio <=? rr_ratio')%num = true ->
  (sharpe >? c1)%num && (rr_ratio >? c2)%num = true ->
  (sharpe' >? c1)%num && (rr_ratio' >? c2)%num = true.
Proof.
  unfold gtb. intros Hs Hr H. apply andb_true_iff in H. destruct H as [H1 H2].
  now rewrite (ltb_leb_trans c1 sharpe sharpe' H1 Hs),
    (ltb_leb_trans c2 rr_ratio rr_ratio' H2 Hr).
Qed.

(** A better Sharpe ratio together with a better risk/reward ratio never
    gives a worse rating. *)
Theorem get_rating_monotone (sharpe sharpe' rr_ratio rr_ratio' : num) :
  (sharpe <=? sharpe')%num = true ->
  (rr_ratio <=? rr_ratio')%num = true ->
  (rating_rank (get_rating sharpe rr_ratio)
   <= rating_rank (get_rating sharpe' rr_ratio'))%nat.
Proof.
  intros Hs Hr. rewrite !rating_rank_get_rating.
  pose proof (rating_test_monotone (Fin 1.5) (Fin 2.0) _ _ _ _ Hs Hr) as M1.
  pose proof (rating_test_monotone (Fin 1.0) (Fin 1.5) _ _ _ _ Hs Hr) as M2.
  pose proof (rating_test_monotone (Fin 0.5) (Fin 1.0) _ _ _ _ Hs Hr) as M3.
  destruct ((sharpe >? Fin 1.5)%num && (rr_ratio >? Fin 2.0)%num).
  { now rewrite (M1 eq_refl). }
  destruct ((sharpe' >? Fin 1.5)%num && (rr_ratio' >? Fin 2.0)%num).
  { destruct ((sharpe >? Fin 1.0)%num && (rr_ratio >? Fin 1.5)%num);
      [| destruct ((sharpe >? Fin 0.5)%num && (rr_ratio >? Fin 1.0)%num)]; lia. }
  destruct ((sharpe >? Fin 1.0)%num && (rr_ratio >? Fin 1.5)%num).
  { now rewrite (M2 eq_refl). }
  destruct ((sharpe' >? Fin 1.0)%num && (rr_ratio' >? Fin 1.5)%num).
  { destruct ((sharpe >? Fin 0.5)%num && (rr_ratio >? Fin 1.0)%num); lia. }
  destruct ((sharpe >? Fin 0.5)%num && (rr_ratio >? Fin 1.0)%num).
  { now rewrite (M3 eq_refl). }
  lia.
Qed.

Lemma get_rating_monotone_witness :
  (rating_rank (get_rating (Fin 0.7) (Fin 1.2))
   <= rating_rank (get_rating (Fin 1.2) (Fin 1.8)))%nat.
Proof.
  apply get_rating_monotone; reflexivity.
Defined.

(** The rating is WEAK exactly when it is not the case that the Sharpe ratio
    exceeds 0.5 and the risk/reward ratio exceeds 1.0; in particular a nan
    in either ratio gives WEAK. *)
Theorem get_rating_weak_iff (sharpe rr_ratio : num) :
  get_rating sharpe rr_ratio = "⭐️⭐️ WEAK"
  <-> (sharpe >? Fin 0.5)%num && (rr_ratio >? Fin 1.0)%num = false.
Proof.
  pose proof (gtb_weaken sharpe 1.5 0.5 ltac:(lra)) as W1.
  pose proof (gtb_weaken sharpe 1.0 0.5 ltac:(lra)) as W2.
  pose proof (gtb_weaken rr_ratio 2.0 1.0 ltac:(lra)) as W3.
  pose proof (gtb_weaken rr_ratio 1.5 1.0 ltac:(lra)) as W4.
  unfold get_rating.
  destruct (sharpe >? Fin 1.5)%num, (rr_ratio >? Fin 2.0)%num,
    (sharpe >? Fin 1.0)%num, (rr_ratio >? Fin 1.5)%num;
    try rewrite (W1 eq_refl); try rewrite (W2 eq_refl);
    try rewrite (W3 eq_refl); try rewrite (W4 eq_refl);
    cbn [andb];
    try (split; discriminate);
    destruct (sharpe >? Fin 0.5)%num, (rr_ratio >? Fin 1.0)%num; cbn [andb];
    split; try reflexivity; discriminate.
Qed.

(** * The HTML routes *)

(** ** What the pages need from a report *)

Lemma risk_page_of_report format_float format_other
    sym cp t s uv rv vi vol dd liq bf lvl img :
  risk_page format_float format_other
    (risk_report sym cp t s (Some uv) rv vi vol dd liq bf lvl img)
  = match vi with
    | Some _ =>
        risk_page format_float format_other
          (risk_report sym cp t s (Some uv) rv vi vol dd liq bf lvl img)
    | None =>
        Fails "TypeError" "unsupported format string passed to NoneType.__format__"
    end
  /\ (vi <> None ->
      exists body,
        risk_page format_float format_other
          (risk_report sym cp t s (Some uv) rv vi vol dd liq bf lvl img)
        = Done body).
Proof.
  split.
  - destruct vi; reflexivity.
  - destruct vi as [x |]; [intros _ | congruence]. cbn. eexists. reflexivity.
Qed.

Lemma first_token_get_rating (sharpe rr_ratio : num) :
  exists stars,
    first_token (get_rating sharpe rr_ratio) = Some stars
    /\ lower stars = stars
    /\ ~ In stars ["excellent"; "good"; "fair"; "weak"].
Proof.
  unfold get_rating.
  destruct ((sharpe >? Fin 1.5)%num && (rr_ratio >? Fin 2.0)%num);
    [| destruct ((sharpe >? Fin 1.0)%num && (rr_ratio >? Fin 1.5)%num);
       [| destruct ((sharpe >? Fin 0.5)%num && (rr_ratio >? Fin 1.0)%num)]];
    (eexists; split; [vm_compute; reflexivity |]; split; [vm_compute; reflexivity |];
     cbn [In]; intros [H | [H | [H | [H | []]]]]; discriminate H).
Qed.

Lemma risk_reward_page_of_report format_float format_other
    sym cp t s uv rv vi vol dd liq bf lvl img sharpe ar rr p
    user_volume hp rf :
  let analysis_result :=
    dict_set "reward_analysis"
      (VDict [("sharpe_ratio", VNum sharpe);
              ("annualized_return_pct", VNum ar);
              ("risk_reward_ratio", VNum rr);
              ("success_probability", VNum p);
              ("rating", VStr (get_rating sharpe rr))])
      (risk_report sym cp t s (Some uv) rv vi vol dd liq bf lvl img) in
  dict_in "error" analysis_result = false
  /\ match vi with
     | Some _ =>
         exists body,
           risk_reward_page format_float format_other analysis_result
             t s user_volume hp rf
           = Done body
     | None =>
         risk_reward_page format_float format_other analysis_result
           t s user_volume hp rf
         = Fails "TypeError" "unsupported format string passed to NoneType.__format__"
     end.
Proof.
  destruct (first_token_get_rating sharpe rr) as (stars & Hstars & _).
  split; [reflexivity |].
  destruct vi as [x |]; cbn -[get_rating]; [| reflexivity].
  rewrite Hstars. cbn -[get_rating]. eexists. reflexivity.
Qed.

(** What [calculate_risk_reward] can give: the error dictionary of the risk
    analysis, a [ZeroDivisionError], the exception of the [print] in the
    handler of the risk analysis, or the risk report with the reward analysis
    set. *)
Lemma calculate_risk_reward_outcomes
    (savefig : figure -> res string) (print : string -> res unit)
    (sd : stock_data)
    (target_price stop_loss : num) (user_volume : option num)
    (holding_period_days : Z) (risk_free_rate : num) (g : rng) :
  (exists msg,
     calculate_risk_reward savefig print sd target_price stop_loss user_volume
       holding_period_days risk_free_rate g
     = (Ok [("error", VStr msg)], g))
  \/ (exists msg g',
        calculate_risk_reward savefig print sd target_price stop_loss user_volume
          holding_period_days risk_free_rate g
        = (Raise (mk_exn ZeroDivisionError msg), g'))
  \/ (exists e0 e,
        analyse_risk_body savefig sd target_price stop_loss user_volume = Raise e0
        /\ print ("Error in risk analysis: " ++ exn_msg e0) = Raise e
        /\ calculate_risk_reward savefig print sd target_price stop_loss user_volume
             holding_period_days risk_free_rate g
           = (Raise e, g))
  \/ (exists g' sym cp rv vol dd liq bf lvl img sharpe ar rr p,
        calculate_risk_reward savefig print sd target_price stop_loss user_volume
          holding_period_days risk_free_rate g
        = (Ok (dict_set "reward_analysis"
                 (VDict [("sharpe_ratio", VNum sharpe);
                         ("annualized_return_pct", VNum ar);
                         ("risk_reward_ratio", VNum rr);
                         ("success_probability", VNum p);
                         ("rating", VStr (get_rating sharpe rr))])
                 (risk_report sym cp target_price stop_loss user_volume rv
                    (volume_impact_of user_volume rv) vol dd liq bf lvl img)),
           g')).
Proof.
  destruct (analyse_risk_total savefig print sd target_price stop_loss user_volume)
    as [(d & Hd & [(msg & -> & _) | Hrep]) | (e0 & e & Hbody & Hprint & Hd)].
  { left. exists msg. unfold calculate_risk_reward, M_bind, M_lift, M_ret.
    rewrite Hd. reflexivity. }
  2:{ right. right. left. exists e0, e. split; [exact Hbody |]. split; [exact Hprint |].
      unfold calculate_risk_reward, M_bind, M_lift, M_ret. rewrite Hd. reflexivity. }
  right.
  destruct Hrep as (cp & closes & volumes & dd & img & _ & _ & _ & _ & _ & _ & Hrep).
  assert (Herr : dict_in "error" d = false) by (rewrite Hrep; reflexivity).
  destruct (calculate_risk_reward_on_report savefig print sd target_price stop_loss
              user_volume holding_period_days risk_free_rate g d Hd Herr)
    as (cp' & vol & _ & _ & _ & Hparse & Heq).
  rewrite Heq. clear Heq.
  destruct (py_int_truediv 252 holding_period_days) as [periods | e0] eqn:Hp.
  2:{ left. destruct (py_int_truediv_raises _ _ _ Hp) as [_ ->]. now do 2 eexists. }
  cbv zeta.
  match goal with
  | |- context [py_div ?a vol] => destruct (py_div a vol) as [sharpe | e0] eqn:Hs
  end.
  2:{ left. rewrite (py_div_raises _ _ _ Hs). now do 2 eexists. }
  destruct (estimate_success_probability_returns sd cp' target_price stop_loss
              1000 60 g Hparse ltac:(discriminate)) as (p & g1 & Hest).
  rewrite Hest.
  match goal with
  | |- context [py_div ?a ?b] => destruct (py_div a b) as [rr | e0] eqn:Hr
  end.
  2:{ left. rewrite (py_div_raises _ _ _ Hr). now do 2 eexists. }
  right. right. rewrite Hrep. do 14 eexists. reflexivity.
Qed.

Lemma volume_impact_of_zero (user_volume recent_volume : num) :
  is_zero user_volume = true ->
  volume_impact_of (Some user_volume) recent_volume = None.
Proof. intros H. unfold volume_impact_of, truthy. now rewrite H. Qed.

Lemma volume_impact_of_nonzero (user_volume recent_volume : num) :
  is_zero user_volume = false ->
  volume_impact_of (Some user_volume) recent_volume <> None.
Proof. intros H. unfold volume_impact_of, truthy. now rewrite H. Qed.

(** ** plot_risk_analysis *)

(** When the request succeeds and the risk analysis gives a report, a user
    volume of 0 makes plot_risk_analysis fail with [TypeError]: the report
    holds None as volume impact, which the page formats with [.1%]; the
    route does not catch it. *)
Theorem plot_risk_analysis_zero_volume_raises_type_error
    (savefig : figure -> res string) (print : string -> res unit)
    (http_get : string -> string -> string -> fetched)
    (format_float : num -> string -> string)
    (format_other : pyval -> string -> outcome string)
    (api_key : option string) (symbol : string) (data : api_reply)
    (target_selling_price stop_loss user_volume : num) (d : dict) :
  fetch_daily http_get api_key symbol = inr data ->
  is_zero user_volume = true ->
  analyse_risk savefig print (payload data) target_selling_price stop_loss
    (Some user_volume) = Ok d ->
  dict_in "error" d = false ->
  plot_risk_analysis savefig print http_get format_float format_other api_key symbol
    target_selling_price stop_loss user_volume
  = Propagates "TypeError" "unsupported format string passed to NoneType.__format__".
Proof.
  intros Hfetch Hzero Hd Herr. unfold plot_risk_analysis.
  rewrite Hfetch, Hd, Herr.
  destruct (analyse_risk_returned savefig print (payload data) target_selling_price stop_loss
              (Some user_volume) _ Hd) as (d' & Hd' & Hshape).
  rewrite Hd in Hd'. injection Hd' as <-.
  destruct Hshape as [(msg & -> & _) | Hrep]; [discriminate |].
  destruct Hrep as (cp & closes & volumes & dd & img & _ & _ & _ & _ & _ & _ & ->).
  rewrite (volume_impact_of_zero _ _ Hzero).
  now rewrite (proj1 (risk_page_of_report _ _ _ _ _ _ _ _ _ _ _ _ _ _ _)).
Qed.

Lemma plot_risk_analysis_zero_volume_raises_type_error_witness :
  plot_risk_analysis Samples.blank_chart Samples.stdout (RouteSamples.daily Samples.rising)
    RouteSamples.plain_float RouteSamples.plain_other (Some "demo") "ibm"
    (Fin 120) (Fin 95) (Fin 0)
  = Propagates "TypeError" "unsupported format string passed to NoneType.__format__".
Proof.
  eapply (plot_risk_analysis_zero_volume_raises_type_error Samples.blank_chart Samples.stdout
            (RouteSamples.daily Samples.rising) RouteSamples.plain_float
            RouteSamples.plain_other (Some "demo") "ibm").
  - reflexivity.
  - reflexivity.
  - vm_compute. reflexivity.
  - vm_compute. reflexivity.
Defined.

(** When the request succeeds and the user volume is not 0,
    plot_risk_analysis returns a page, whatever the series holds and whether
    or not the chart can be drawn; the one exception it can let through is
    that of the [print] in the handler of the risk analysis. *)
Theorem plot_risk_analysis_page_or_failed_print
    (savefig : figure -> res string) (print : string -> res unit)
    (http_get : string -> string -> string -> fetched)
    (format_float : num -> string -> string)
    (format_other : pyval -> string -> outcome string)
    (api_key : option string) (symbol : string) (data : api_reply)
    (target_selling_price stop_loss user_volume : num) :
  fetch_daily http_get api_key symbol = inr data ->
  is_zero user_volume = false ->
  (exists body,
     plot_risk_analysis savefig print http_get format_float format_other api_key
       symbol target_selling_price stop_loss user_volume
     = Returns body)
  \/ (exists e0 e,
        analyse_risk_body savefig (payload data) target_selling_price stop_loss
          (Some user_volume) = Raise e0
        /\ print ("Error in risk analysis: " ++ exn_msg e0) = Raise e
        /\ plot_risk_analysis savefig print http_get format_float format_other
             api_key symbol target_selling_price stop_loss user_volume
           = Propagates (class_name_of (exn_type e)) (exn_msg e)).
Proof.
  intros Hfetch Hnz. unfold plot_risk_analysis. rewrite Hfetch.
  destruct (analyse_risk_total savefig print (payload data) target_selling_price
              stop_loss (Some user_volume))
    as [(d & -> & Hshape) | (e0 & e & Hbody & Hprint & ->)].
  2:{ right. exists e0, e. split; [exact Hbody |]. split; [exact Hprint | reflexivity]. }
  left.
  destruct Hshape as [(msg & -> & _) | Hrep].
  { cbn. eexists. reflexivity. }
  destruct Hrep as (cp & closes & volumes & dd & img & _ & _ & _ & _ & _ & _ & ->).
  replace (dict_in "error" _) with false by reflexivity.
  destruct (proj2 (risk_page_of_report format_float format_other
                     (symbol_of (payload data)) cp target_selling_price stop_loss
                     user_volume (recent_volume_of volumes)
                     (volume_impact_of (Some user_volume) (recent_volume_of volumes))
                     (volatility_of closes) dd
                     (liquidity_risk_of volumes (Some user_volume))
                     (bearish_freq_of closes)
                     (risk_level_of
                        (norm_volatility_of (volatility_of closes))
                        (norm_drawdown_of dd)
                        (norm_liquidity_of (liquidity_risk_of volumes (Some user_volume)))
                        (norm_bearish_of (bearish_freq_of closes)))
                     img)
             (volume_impact_of_nonzero _ _ Hnz)) as (body & ->).
  exists body. reflexivity.
Qed.

Lemma plot_risk_analysis_page_or_failed_print_witness :
  (exists body,
     plot_risk_analysis Samples.broken_chart Samples.closed_stdout
       (RouteSamples.daily Samples.rising)
       RouteSamples.plain_float RouteSamples.plain_other (Some "demo") "ibm"
       (Fin 120) (Fin 95) (Fin 500)
     = Returns body)
  \/ (exists e0 e,
        analyse_risk_body Samples.broken_chart Samples.rising (Fin 120) (Fin 95)
          (Some (Fin 500)) = Raise e0
        /\ Samples.closed_stdout ("Error in risk analysis: " ++ exn_msg e0) = Raise e
        /\ plot_risk_analysis Samples.broken_chart Samples.closed_stdout
             (RouteSamples.daily Samples.rising)
             RouteSamples.plain_float RouteSamples.plain_other (Some "demo") "ibm"
             (Fin 120) (Fin 95) (Fin 500)
           = Propagates (class_name_of (exn_type e)) (exn_msg e)).
Proof.
  apply (plot_risk_analysis_page_or_failed_print Samples.broken_chart
           Samples.closed_stdout (RouteSamples.daily Samples.rising)
           RouteSamples.plain_float RouteSamples.plain_other (Some "demo") "ibm"
           (mk_api_reply None None Samples.rising)).
  - reflexivity.
  - reflexivity.
Defined.

(** When the request succeeds and the risk analysis fails, plot_risk_analysis
    returns the error page with the message of the analysis in it: an
    ordinary reply, not an HTTP error, whatever the user volume. *)
Theorem plot_risk_analysis_error_page
    (savefig : figure -> res string) (print : string -> res unit)
    (http_get : string -> string -> string -> fetched)
    (format_float : num -> string -> string)
    (format_other : pyval -> string -> outcome string)
    (api_key : option string) (symbol : string) (data : api_reply)
    (target_selling_price stop_loss user_volume : num) (d : dict) :
  fetch_daily http_get api_key symbol = inr data ->
  analyse_risk savefig print (payload data) target_selling_price stop_loss
    (Some user_volume) = Ok d ->
  dict_in "error" d = true ->
  exists msg,
    d = [("error", VStr msg)]
    /\ (time_series (payload data) = [] -> msg = "No time series data available")
    /\ plot_risk_analysis savefig print http_get format_float format_other api_key symbol
         target_selling_price stop_loss user_volume
       = Returns ("
            <html>
                <body>
                    <h1>Error</h1>
                    <p>" ++ msg ++ "</p>
                </body>
            </html>
            ").
Proof.
  intros Hfetch Hd Herr. unfold plot_risk_analysis. rewrite Hfetch, Hd, Herr.
  destruct (analyse_risk_returned savefig print (payload data) target_selling_price stop_loss
              (Some user_volume) _ Hd) as (d' & Hd' & Hshape).
  rewrite Hd in Hd'. injection Hd' as <-.
  destruct Hshape as [(msg & -> & Hempty & _) | Hrep].
  - exists msg. split; [reflexivity |]. split; [exact Hempty |].
    cbn. reflexivity.
  - destruct Hrep as (cp & closes & volumes & dd & img & _ & _ & _ & _ & _ & _ & ->).
    discriminate.
Qed.

Lemma plot_risk_analysis_error_page_witness :
  exists msg,
    analyse_risk Samples.blank_chart Samples.stdout (Samples.series_of []) (Fin 120) (Fin 95)
      (Some (Fin 0))
    = Ok [("error", VStr msg)]
    /\ plot_risk_analysis Samples.blank_chart Samples.stdout
         (RouteSamples.daily (Samples.series_of []))
         RouteSamples.plain_float RouteSamples.plain_other (Some "demo") "ibm"
         (Fin 120) (Fin 95) (Fin 0)
       = Returns ("
            <html>
                <body>
                    <h1>Error</h1>
                    <p>" ++ msg ++ "</p>
                </body>
            </html>
            ").
Proof.
  destruct (plot_risk_analysis_error_page Samples.blank_chart Samples.stdout
              (RouteSamples.daily (Samples.series_of []))
              RouteSamples.plain_float RouteSamples.plain_other (Some "demo") "ibm"
              (mk_api_reply None None (Samples.series_of []))
              (Fin 120) (Fin 95) (Fin 0)
              [("error", VStr "No time series data available")]
              eq_refl eq_refl eq_refl)
    as (msg & Hd & _ & Hpage).
  exists msg. split; [| exact Hpage].
  rewrite <- Hd. reflexivity.
Defined.

(** ** plot_risk_reward_analysis *)

(** When the request succeeds and the risk/reward analysis gives its report,
    a user volume of 0 makes plot_risk_reward_analysis fail with
    [TypeError], for the same None volume impact. *)
Theorem plot_risk_reward_analysis_zero_volume_raises_type_error
    (savefig : figure -> res string) (print : string -> res unit)
    (http_get : string -> string -> string -> fetched)
    (format_float : num -> string -> string)
    (format_other : pyval -> string -> outcome string)
    (api_key : option string) (symbol : string) (data : api_reply)
    (target_price stop_loss user_volume : num) (holding_period_days : Z)
    (risk_free_rate : num) (g g' : rng) (d : dict) :
  fetch_daily http_get api_key symbol = inr data ->
  is_zero user_volume = true ->
  calculate_risk_reward savefig print (payload data) target_price stop_loss
    (Some user_volume) holding_period_days risk_free_rate g
  = (Ok d, g') ->
  dict_in "error" d = false ->
  plot_risk_reward_analysis savefig print http_get format_float format_other api_key
    symbol target_price stop_loss user_volume holding_period_days risk_free_rate g
  = (Propagates "TypeError" "unsupported format string passed to NoneType.__format__",
     g').
Proof.
  intros Hfetch Hzero Hrun Herr. unfold plot_risk_reward_analysis.
  rewrite Hfetch, Hrun, Herr.
  destruct (calculate_risk_reward_outcomes savefig print (payload data) target_price
              stop_loss (Some user_volume) holding_period_days risk_free_rate g)
    as [(msg & H) | [(msg & g1 & H) | [(e0 & e & _ & _ & H) | H]]].
  - rewrite Hrun in H. injection H as -> _. discriminate.
  - rewrite Hrun in H. discriminate.
  - rewrite Hrun in H. discriminate.
  - destruct H as (g1 & sym & cp & rv & vol & dd & liq & bf & lvl & img & sharpe & ar
                   & rr & p & H).
    rewrite Hrun in H. clear Hrun Herr.
    assert (Hd : Ok d = Ok (dict_set "reward_analysis"
                 (VDict [("sharpe_ratio", VNum sharpe);
                         ("annualized_return_pct", VNum ar);
                         ("risk_reward_ratio", VNum rr);
                         ("success_probability", VNum p);
                         ("rating", VStr (get_rating sharpe rr))])
                 (risk_report sym cp target_price stop_loss (Some user_volume) rv
                    (volume_impact_of (Some user_volume) rv) vol dd liq bf lvl img)))
      by exact (f_equal fst H).
    assert (Hd' := f_equal (fun r => match r with Ok x => x | Raise _ => d end) Hd).
    cbv beta iota in Hd'. rewrite Hd'.
    rewrite (volume_impact_of_zero _ _ Hzero).
    now rewrite (proj2 (risk_reward_page_of_report format_float format_other
                          sym cp target_price stop_loss user_volume rv None vol dd
                          liq bf lvl img sharpe ar rr p user_volume
                          holding_period_days risk_free_rate)).
Qed.

Lemma plot_risk_reward_analysis_zero_volume_raises_type_error_witness :
  fst (plot_risk_reward_analysis Samples.blank_chart Samples.stdout
         (RouteSamples.daily Samples.zigzag)
         RouteSamples.plain_float RouteSamples.plain_other (Some "demo") "ibm"
         (Fin 150) (Fin 10) (Fin 0) 30 (Fin 0.04) (seed Samples.flip_stream))
  = Propagates "TypeError" "unsupported format string passed to NoneType.__format__".
Proof.
  erewrite (plot_risk_reward_analysis_zero_volume_raises_type_error
              Samples.blank_chart Samples.stdout (RouteSamples.daily Samples.zigzag)
              RouteSamples.plain_float RouteSamples.plain_other (Some "demo") "ibm"
              (mk_api_reply None None Samples.zigzag)
              (Fin 150) (Fin 10) (Fin 0) 30 (Fin 0.04) (seed Samples.flip_stream)).
  - reflexivity.
  - reflexivity.
  - reflexivity.
  - vm_compute. reflexivity.
  - vm_compute. reflexivity.
Defined.

(** When the request succeeds and the user volume is not 0,
    plot_risk_reward_analysis returns a page, or lets through a
    [ZeroDivisionError] of the reward metrics or the exception of the [print]
    in the handler of the risk analysis; nothing else. *)
Theorem plot_risk_reward_analysis_page_zero_division_or_failed_print
    (savefig : figure -> res string) (print : string -> res unit)
    (http_get : string -> string -> string -> fetched)
    (format_float : num -> string -> string)
    (format_other : pyval -> string -> outcome string)
    (api_key : option string) (symbol : string) (data : api_reply)
    (target_price stop_loss user_volume : num) (holding_period_days : Z)
    (risk_free_rate : num) (g : rng) :
  fetch_daily http_get api_key symbol = inr data ->
  is_zero user_volume = false ->
  (exists body g',
     plot_risk_reward_analysis savefig print http_get format_float format_other
       api_key symbol target_price stop_loss user_volume holding_period_days
       risk_free_rate g
     = (Returns body, g'))
  \/ (exists msg g',
        plot_risk_reward_analysis savefig print http_get format_float format_other
          api_key symbol target_price stop_loss user_volume holding_period_days
          risk_free_rate g
        = (Propagates "ZeroDivisionError" msg, g'))
  \/ (exists e0 e,
        analyse_risk_body savefig (payload data) target_price stop_loss
          (Some user_volume) = Raise e0
        /\ print ("Error in risk analysis: " ++ exn_msg e0) = Raise e
        /\ plot_risk_reward_analysis savefig print http_get format_float
             format_other api_key symbol target_price stop_loss user_volume
             holding_period_days risk_free_rate g
           = (Propagates (class_name_of (exn_type e)) (exn_msg e), g)).
Proof.
  intros Hfetch Hnz. unfold plot_risk_reward_analysis. rewrite Hfetch.
  destruct (calculate_risk_reward_outcomes savefig print (payload data) target_price
              stop_loss (Some user_volume) holding_period_days risk_free_rate g)
    as [(msg & ->) | [(msg & g1 & ->) | [(e0 & e & Hbody & Hprint & ->) | H]]].
  - left. cbn. do 2 eexists. reflexivity.
  - right. left. cbn. do 2 eexists. reflexivity.
  - right. right. exists e0, e. split; [exact Hbody |]. split; [exact Hprint | reflexivity].
  - destruct H as (g1 & sym & cp & rv & vol & dd & liq & bf & lvl & img & sharpe & ar
                   & rr & p & ->).
    left.
    pose proof (risk_reward_page_of_report format_float format_other
                  sym cp target_price stop_loss user_volume rv
                  (volume_impact_of (Some user_volume) rv) vol dd
                  liq bf lvl img sharpe ar rr p user_volume
                  holding_period_days risk_free_rate) as [Herr Hpage].
    cbv zeta in Herr, Hpage. rewrite Herr.
    destruct (volume_impact_of (Some user_volume) rv) eqn:Hvi.
    + destruct Hpage as (body & ->). do 2 eexists. reflexivity.
    + now apply volume_impact_of_nonzero in Hvi.
Qed.

Lemma plot_risk_reward_analysis_page_zero_division_or_failed_print_witness :
  (exists body g',
     plot_risk_reward_analysis Samples.blank_chart Samples.stdout
       (RouteSamples.daily Samples.zigzag)
       RouteSamples.plain_float RouteSamples.plain_other (Some "demo") "ibm"
       (Fin 150) (Fin 10) (Fin 500) 30 (Fin 0.04) (seed Samples.flip_stream)
     = (Returns body, g'))
  \/ (exists msg g',
        plot_risk_reward_analysis Samples.blank_chart Samples.stdout
          (RouteSamples.daily Samples.zigzag)
          RouteSamples.plain_float RouteSamples.plain_other (Some "demo") "ibm"
          (Fin 150) (Fin 10) (Fin 500) 30 (Fin 0.04) (seed Samples.flip_stream)
        = (Propagates "ZeroDivisionError" msg, g'))
  \/ (exists e0 e,
        analyse_risk_body Samples.blank_chart Samples.zigzag (Fin 150) (Fin 10)
          (Some (Fin 500)) = Raise e0
        /\ Samples.stdout ("Error in risk analysis: " ++ exn_msg e0) = Raise e
        /\ plot_risk_reward_analysis Samples.blank_chart Samples.stdout
             (RouteSamples.daily Samples.zigzag)
             RouteSamples.plain_float RouteSamples.plain_other (Some "demo") "ibm"
             (Fin 150) (Fin 10) (Fin 500) 30 (Fin 0.04) (seed Samples.flip_stream)
           = (Propagates (class_name_of (exn_type e)) (exn_msg e),
              seed Samples.flip_stream)).
Proof.
  apply (plot_risk_reward_analysis_page_zero_division_or_failed_print
           Samples.blank_chart Samples.stdout (RouteSamples.daily Samples.zigzag)
           RouteSamples.plain_float RouteSamples.plain_other (Some "demo") "ibm"
           (mk_api_reply None None Samples.zigzag)).
  - reflexivity.
  - reflexivity.
Defined.

(** When the request succeeds, the risk analysis reports a volatility of 0
    and the holding period is not 0, plot_risk_reward_analysis lets the
    [ZeroDivisionError] of the Sharpe ratio through, before any trial is
    drawn. *)
Theorem plot_risk_reward_analysis_zero_volatility
    (savefig : figure -> res string) (print : string -> res unit)
    (http_get : string -> string -> string -> fetched)
    (format_float : num -> string -> string)
    (format_other : pyval -> string -> outcome string)
    (api_key : option string) (symbol : string) (data : api_reply)
    (target_price stop_loss user_volume : num) (holding_period_days : Z)
    (risk_free_rate : num) (g : rng) (d : dict) (volatility : num) :
  fetch_daily http_get api_key symbol = inr data ->
  analyse_risk savefig print (payload data) target_price stop_loss (Some user_volume)
  = Ok d ->
  dict_in "error" d = false ->
  dict_get2 "risk_analysis" "volatility" d = Some (VNum volatility) ->
  is_zero volatility = true ->
  holding_period_days <> 0%Z ->
  plot_risk_reward_analysis savefig print http_get format_float format_other api_key
    symbol target_price stop_loss user_volume holding_period_days risk_free_rate g
  = (Propagates "ZeroDivisionError" "float division by zero", g).
Proof.
  intros Hfetch Hd Herr Hvol Hz Hhp. unfold plot_risk_reward_analysis.
  rewrite Hfetch.
  destruct (calculate_risk_reward_on_report savefig print (payload data) target_price
              stop_loss (Some user_volume) holding_period_days risk_free_rate g d
              Hd Herr)
    as (cp & vol & _ & Hvol' & _ & _ & ->).
  rewrite Hvol in Hvol'. injection Hvol' as <-.
  rewrite (py_int_truediv_ok _ _ Hhp). cbv zeta.
  unfold py_div at 1. rewrite Hz. reflexivity.
Qed.

Lemma plot_risk_reward_analysis_zero_volatility_witness :
  plot_risk_reward_analysis Samples.blank_chart Samples.stdout
    (RouteSamples.daily Samples.flat)
    RouteSamples.plain_float RouteSamples.plain_other (Some "demo") "ibm"
    (Fin 140) (Fin 95) (Fin 500) 30 (Fin 0.04) (seed Samples.zero_stream)
  = (Propagates "ZeroDivisionError" "float division by zero",
     seed Samples.zero_stream).
Proof.
  eapply (plot_risk_reward_analysis_zero_volatility Samples.blank_chart Samples.stdout
            (RouteSamples.daily Samples.flat)
            RouteSamples.plain_float RouteSamples.plain_other (Some "demo") "ibm"
            (mk_api_reply None None Samples.flat)).
  - reflexivity.
  - vm_compute. reflexivity.
  - reflexivity.
  - reflexivity.
  - reflexivity.
  - discriminate.
Defined.

(** The class that the page derives from a rating, its first word in lower
    case, is the run of stars: never one of the four classes the style
    sheet defines (excellent, good, fair, weak). *)
Theorem rating_css_class_is_never_styled (sharpe rr_ratio : num) :
  exists class,
    first_token_lower (Done (VStr (get_rating sharpe rr_ratio))) = Done class
    /\ ~ In class ["excellent"; "good"; "fair"; "weak"].
Proof.
  destruct (first_token_get_rating sharpe rr_ratio) as (stars & Hstars & Hlow & Hnot).
  exists stars. unfold first_token_lower. cbn -[get_rating In].
  rewrite Hstars, Hlow. split; [reflexivity | exact Hnot].
Qed.
